(** * Verification of the spec-driven project auditor ([audit_project.py])

    A shallow embedding of the auditor's core: the two markdown extractors
    ([parse_prd], [parse_plan]), the test analyzer ([analyze_test_file],
    [check_test_integrity]), the reconciler ([run_audit]), the report renderer
    ([generate_report]) and the exit-status decision of [main]; and of the
    template substitution of the project initialiser ([init_project.py],
    [substitute]).

    Conventions of the embedding.
    - Text is a [string] of Latin-1 code points (one [ascii] per character).
    - A Python [dict] is an insertion-ordered association list ([dict]);
      assigning to an existing key keeps the key's position.
    - [re] patterns are terms of a small regular-expression syntax, run by a
      backtracking matcher with Python's priorities (greedy / lazy stars,
      ordered alternation, capturing groups).
    - The syntax tree of a test file is an inductive type ([expr], [stmt]);
      [ast.parse] is a parameter of the analyzer.
    - Code that can raise returns a [result]. *)

From Stdlib Require Import String Ascii List ZArith NArith Lia Bool Arith.
From Stdlib Require Import Permutation Sorting.Sorted.
From Stdlib Require Import Floats.SpecFloat.
From Stdlib Require Import Numbers.DecimalString.
Import ListNotations.

Open Scope list_scope.
Open Scope string_scope.

(* ------------------------------------------------------------------ *)
(** ** Python text primitives *)

Module Py.

Definition code (c : ascii) : N := N_of_ascii c.

Definition between (lo hi n : N) : bool := (N.leb lo n && N.leb n hi)%bool.

(** [str.isspace] and the class [\s] of [re] on Latin-1 code points. *)
Definition is_space (c : ascii) : bool :=
  let n := code c in
  (between 9 13 n || between 28 32 n || N.eqb n 133 || N.eqb n 160)%bool.

Definition is_ascii_alnum (c : ascii) : bool :=
  let n := code c in
  (between 48 57 n || between 65 90 n || between 97 122 n)%bool.

(** The class [\w] of [re] on Latin-1 code points. *)
Definition is_word (c : ascii) : bool :=
  let n := code c in
  (is_ascii_alnum c || N.eqb n 95
   || N.eqb n 170 || N.eqb n 178 || N.eqb n 179 || N.eqb n 181
   || N.eqb n 185 || N.eqb n 186 || between 188 190 n
   || between 192 214 n || between 216 246 n || between 248 255 n)%bool.

(** [str.lower] on one Latin-1 character. *)
Definition lower_char (c : ascii) : ascii :=
  let n := code c in
  if (between 65 90 n || between 192 214 n || between 216 222 n)%bool
  then ascii_of_N (n + 32) else c.

Definition upper_char (c : ascii) : ascii :=
  let n := code c in
  if (between 97 122 n || between 224 246 n || between 248 254 n)%bool
  then ascii_of_N (n - 32) else c.

Fixpoint lower (s : string) : string :=
  match s with
  | EmptyString => EmptyString
  | String c s' => String (lower_char c) (lower s')
  end.

Fixpoint lstrip (s : string) : string :=
  match s with
  | EmptyString => EmptyString
  | String c s' => if is_space c then lstrip s' else s
  end.

Fixpoint rstrip (s : string) : string :=
  match s with
  | EmptyString => EmptyString
  | String c s' =>
      match rstrip s' with
      | EmptyString => if is_space c then EmptyString else String c EmptyString
      | r => String c r
      end
  end.

(** [s.strip()] *)
Definition strip (s : string) : string := rstrip (lstrip s).

(** [s.split(sep)] for a one-character separator. *)
Fixpoint split (sep : ascii) (s : string) : list string :=
  match s with
  | EmptyString => [EmptyString]
  | String c s' =>
      if Ascii.eqb c sep then EmptyString :: split sep s'
      else match split sep s' with
           | [] => [String c EmptyString]
           | h :: t => String c h :: t
           end
  end.

(** [sep.join(parts)] *)
Fixpoint join (sep : string) (parts : list string) : string :=
  match parts with
  | [] => EmptyString
  | [p] => p
  | p :: ps => p ++ sep ++ join sep ps
  end.

(** [s.startswith(p)] and [s.endswith(p)] *)
Definition startswith (s p : string) : bool := String.prefix p s.

Definition endswith (s p : string) : bool :=
  let n := String.length s in
  let m := String.length p in
  (Nat.leb m n && String.eqb (String.substring (n - m) m s) p)%bool.

(** [str(n)] for a non-negative integer. *)
Definition str_of_nat (n : nat) : string := NilEmpty.string_of_uint (Nat.to_uint n).

Definition newline : ascii := ascii_of_nat 10.
Definition nl : string := String newline EmptyString.

(** [l[a:b]] for in-range non-negative bounds. *)
Definition slice {A} (l : list A) (a b : nat) : list A := firstn (b - a) (skipn a l).

(** [enumerate(l, start)] *)
Fixpoint enumerate {A} (start : nat) (l : list A) : list (nat * A) :=
  match l with
  | [] => []
  | x :: l' => (start, x) :: enumerate (S start) l'
  end.

Definition mem (s : string) (l : list string) : bool := existsb (String.eqb s) l.

End Py.

(* ------------------------------------------------------------------ *)
(** ** Regular expressions of the [re] module *)

Module Re.

(** The fragment of the pattern language the auditor's patterns use. *)
Inductive re : Type :=
| Eps
| Lit (c : ascii)
| Dot
| Space
| Cls (neg : bool) (ranges : list (ascii * ascii))
| Bol
| WordB
| Cat (r1 r2 : re)
| Alt (r1 r2 : re)
| Star (greedy : bool) (r : re)
| Grp (n : nat) (r : re).

Fixpoint cat (rs : list re) : re :=
  match rs with
  | [] => Eps
  | [r] => r
  | r :: rs' => Cat r (cat rs')
  end.

Fixpoint alt (rs : list re) : re :=
  match rs with
  | [] => Cls false []
  | [r] => r
  | r :: rs' => Alt r (alt rs')
  end.

Fixpoint lit (s : string) : re :=
  match s with
  | EmptyString => Eps
  | String c EmptyString => Lit c
  | String c s' => Cat (Lit c) (lit s')
  end.

Definition plus (r : re) : re := Cat r (Star true r).
Definition opt (r : re) : re := Alt r Eps.

(** Matcher state: the character before the cursor, the text after it and
    the groups captured so far. *)
Record mstate : Type := MState {
  prev : option ascii;
  rest : list ascii;
  caps : list (nat * list ascii)
}.

Definition in_range (c : ascii) (r : ascii * ascii) : bool :=
  Py.between (Py.code (fst r)) (Py.code (snd r)) (Py.code c).

Definition in_ranges (ic : bool) (c : ascii) (rs : list (ascii * ascii)) : bool :=
  (existsb (in_range c) rs
   || (ic && (existsb (in_range (Py.lower_char c)) rs
              || existsb (in_range (Py.upper_char c)) rs)))%bool.

Definition lit_ok (ic : bool) (l c : ascii) : bool :=
  if ic then Ascii.eqb (Py.lower_char c) (Py.lower_char l) else Ascii.eqb c l.

Definition is_word_opt (o : option ascii) : bool :=
  match o with Some c => Py.is_word c | None => false end.

Definition eat {A} (p : ascii -> bool) (s : mstate) (k : mstate -> option A) : option A :=
  match rest s with
  | c :: l => if p c then k (MState (Some c) l (caps s)) else None
  | [] => None
  end.

Definition set_cap (n : nat) (v : list ascii) (s : mstate) : mstate :=
  MState (prev s) (rest s) ((n, v) :: caps s).

(** Backtracking matcher in continuation-passing style.  [ic] is
    [re.IGNORECASE].  A star stops iterating when an iteration consumes
    nothing. *)
Fixpoint run {A} (ic : bool) (r : re) (s : mstate) (k : mstate -> option A) : option A :=
  match r with
  | Eps => k s
  | Lit l => eat (lit_ok ic l) s k
  | Dot => eat (fun c => negb (Ascii.eqb c Py.newline)) s k
  | Space => eat Py.is_space s k
  | Cls neg rs => eat (fun c => xorb neg (in_ranges ic c rs)) s k
  | Bol => match prev s with None => k s | Some _ => None end
  | WordB =>
      if xorb (is_word_opt (prev s)) (is_word_opt (hd_error (rest s)))
      then k s else None
  | Cat r1 r2 => run ic r1 s (fun s' => run ic r2 s' k)
  | Alt r1 r2 =>
      match run ic r1 s k with
      | Some a => Some a
      | None => run ic r2 s k
      end
  | Star greedy r1 =>
      (fix loop (fuel : nat) (s : mstate) {struct fuel} : option A :=
         match fuel with
         | O => k s
         | S fuel' =>
             if greedy then
               match run ic r1 s (fun s' =>
                        if Nat.ltb (List.length (rest s')) (List.length (rest s))
                        then loop fuel' s' else None) with
               | Some a => Some a
               | None => k s
               end
             else
               match k s with
               | Some a => Some a
               | None =>
                   run ic r1 s (fun s' =>
                        if Nat.ltb (List.length (rest s')) (List.length (rest s))
                        then loop fuel' s' else None)
               end
         end) (S (List.length (rest s))) s
  | Grp n r1 =>
      run ic r1 s (fun s' =>
        k (set_cap n (firstn (List.length (rest s) - List.length (rest s')) (rest s)) s'))
  end.

(** A match object: the captured groups. *)
Definition mobj : Type := list (nat * list ascii).

Fixpoint assoc_nat (n : nat) (l : mobj) : option (list ascii) :=
  match l with
  | [] => None
  | (m, v) :: l' => if Nat.eqb n m then Some v else assoc_nat n l'
  end.

(** [m.group(n)] *)
Definition group (n : nat) (m : mobj) : string :=
  match assoc_nat n m with
  | Some v => string_of_list_ascii v
  | None => EmptyString
  end.

(** [pattern.match(text)] *)
Definition re_match (ic : bool) (r : re) (text : string) : option mobj :=
  run ic r (MState None (list_ascii_of_string text) []) (fun s => Some (caps s)).

Fixpoint search_from (ic : bool) (r : re) (p : option ascii) (l : list ascii) : option mobj :=
  match run ic r (MState p l []) (fun s => Some (caps s)) with
  | Some m => Some m
  | None =>
      match l with
      | [] => None
      | c :: l' => search_from ic r (Some c) l'
      end
  end.

(** [pattern.search(text)] *)
Definition re_search (ic : bool) (r : re) (text : string) : option mobj :=
  search_from ic r None (list_ascii_of_string text).

Fixpoint findall_from (fuel : nat) (ic : bool) (r : re) (p : option ascii) (l : list ascii)
  : list string :=
  match fuel with
  | O => []
  | S fuel' =>
      match run ic r (MState p l []) (fun s => Some s) with
      | Some s' =>
          if Nat.ltb (List.length (rest s')) (List.length l)
          then group 1 (caps s') :: findall_from fuel' ic r (prev s') (rest s')
          else group 1 (caps s') ::
               match l with
               | [] => []
               | c :: l' => findall_from fuel' ic r (Some c) l'
               end
      | None =>
          match l with
          | [] => []
          | c :: l' => findall_from fuel' ic r (Some c) l'
          end
      end
  end.

(** [pattern.findall(text)] for a pattern with exactly one group. *)
Definition re_findall (ic : bool) (r : re) (text : string) : list string :=
  let l := list_ascii_of_string text in
  findall_from (S (List.length l)) ic r None l.

End Re.

(* ------------------------------------------------------------------ *)
(** ** Insertion-ordered dictionaries *)

Module Dict.

Definition dict (V : Type) : Type := list (string * V).

Fixpoint get {V} (d : dict V) (k : string) : option V :=
  match d with
  | [] => None
  | (k', v) :: d' => if String.eqb k k' then Some v else get d' k
  end.

(** [k in d] *)
Definition mem {V} (k : string) (d : dict V) : bool :=
  match get d k with Some _ => true | None => false end.

(** [d[k] = v]: replaces the value in place, or appends a new key. *)
Fixpoint set {V} (k : string) (v : V) (d : dict V) : dict V :=
  match d with
  | [] => [(k, v)]
  | (k', v') :: d' =>
      if String.eqb k k' then (k', v) :: d' else (k', v') :: set k v d'
  end.

Definition keys {V} (d : dict V) : list string := map fst d.

Definition empty {V} : dict V := [].

End Dict.

Import Dict.

(* ------------------------------------------------------------------ *)
(** ** Data model *)

Module Requirement.
Record t : Type := mk { id : string; text : string; line_number : nat }.
End Requirement.

Module PlanItem.
Record t : Type := mk {
  id : string;
  text : string;
  completed : bool;
  line_number : nat;
  test_refs : list string
}.

(** [item.completed = b] *)
Definition set_completed (b : bool) (p : t) : t :=
  mk (id p) (text p) b (line_number p) (test_refs p).
End PlanItem.

(* ------------------------------------------------------------------ *)
(** ** The line patterns *)

Module Patterns.
Import Re.

Local Open Scope char_scope.

Definition ws : re := Star true Space.
Definition alnum : re := Cls false [("A", "Z"); ("a", "z"); ("0", "9")].
Definition bullet : re := Cls false [("-", "-"); ("*", "*")].
Definition checkbox : re := Cls false [(" ", " "); ("x", "x"); ("X", "X"); ("~", "~")].

(** Source pattern, tokens spaced:  (?:FR|NFR|INV|R|TD) - [A-Za-z0-9]+ (?: - [A-Za-z0-9]+ )*  *)
Definition REQ_ID_CORE : re :=
  cat [alt [lit "FR"; lit "NFR"; lit "INV"; lit "R"; lit "TD"];
       Lit "-"; plus alnum; Star true (Cat (Lit "-") (plus alnum))].

(** Source pattern, tokens spaced:  \b ( REQ_ID_CORE ) \b  *)
Definition REQ_ID_PATTERN : re := cat [WordB; Grp 1 REQ_ID_CORE; WordB].

(** Source pattern, tokens spaced:  ^ \s* [-*] \s* \*\* ( REQ_ID_CORE ) \*\* : \s* ( .* )  *)
Definition PRD_REQ_PATTERN : re :=
  cat [Bol; ws; bullet; ws; lit "**"; Grp 1 REQ_ID_CORE; lit "**:"; ws;
       Grp 2 (Star true Dot)].

(** Source pattern, tokens spaced:  ^ \s* \| \s* ( REQ_ID_CORE ) \s* \| \s* ( .*? ) \s* \| .*  *)
Definition PRD_TABLE_REQ_PATTERN : re :=
  cat [Bol; ws; Lit "|"; ws; Grp 1 REQ_ID_CORE; ws; Lit "|"; ws;
       Grp 2 (Star false Dot); ws; Lit "|"; Star true Dot].

(** Source pattern, tokens spaced:  ^ #+ \s* ( REQ_ID_CORE ) : \s* ( .* )  *)
Definition PRD_HEADING_PATTERN : re :=
  cat [Bol; plus (Lit "#"); ws; Grp 1 REQ_ID_CORE; Lit ":"; ws; Grp 2 (Star true Dot)].

(** Source pattern, tokens spaced:  ^ \s* [-*] \s* \[ ( [ xX~] ) \] \s* \*\* ( REQ_ID_CORE ) \*\* : \s* ( .* )  *)
Definition PLAN_ITEM_PATTERN : re :=
  cat [Bol; ws; bullet; ws; Lit "["; Grp 1 checkbox; Lit "]"; ws; lit "**";
       Grp 2 REQ_ID_CORE; lit "**:"; ws; Grp 3 (Star true Dot)].

(** Source pattern, tokens spaced:  ^ \s* [-*] \s* \[ ( [ xX~] ) \] \s* ( .* )  *)
Definition TASK_PATTERN : re :=
  cat [Bol; ws; bullet; ws; Lit "["; Grp 1 checkbox; Lit "]"; ws; Grp 2 (Star true Dot)].

(** Source pattern, tokens spaced:  \( ( REQ_ID_CORE (?: , \s* REQ_ID_CORE )* ) \)   (declared by the source, never used) *)
Definition REQ_REF_PATTERN : re :=
  cat [Lit "("; Grp 1 (Cat REQ_ID_CORE (Star true (cat [Lit ","; ws; REQ_ID_CORE])));
       Lit ")"].

(** Source pattern, tokens spaced:  ^ #+ \s+ ( .* )  *)
Definition HEADER_PATTERN : re :=
  cat [Bol; plus (Lit "#"); plus Space; Grp 1 (Star true Dot)].

(** Source pattern, tokens spaced:  Tests? : \s* ` ( [^`]+ ) `  *)
Definition TEST_REF_PATTERN : re :=
  cat [lit "Test"; opt (Lit "s"); Lit ":"; ws; Lit "`";
       Grp 1 (plus (Cls true [("`", "`")])); Lit "`"].

(** Source pattern, tokens spaced:
    ^ \s* \| \s* ( REQ_ID_CORE ) \s* \| \s* ( Done|Pending|In Progress|Complete|Incomplete|Yes|No|- ) \s* \|
    compiled with re.IGNORECASE (the matcher is run with [ic = true]). *)
Definition PLAN_TABLE_PATTERN : re :=
  cat [Bol; ws; Lit "|"; ws; Grp 1 REQ_ID_CORE; ws; Lit "|"; ws;
       Grp 2 (alt [lit "Done"; lit "Pending"; lit "In Progress"; lit "Complete";
                   lit "Incomplete"; lit "Yes"; lit "No"; lit "-"]);
       ws; Lit "|"].

End Patterns.

Import Patterns.

(* ------------------------------------------------------------------ *)
(** ** Requirement extractor: [parse_prd] *)

(** One iteration of the loop of [parse_prd] on line [i]. *)
Definition prd_line (i : nat) (line : string) (requirements : dict Requirement.t)
  : dict Requirement.t :=
  match Re.re_match false PRD_REQ_PATTERN line with
  | Some m =>
      let req_id := Re.group 1 m in
      let req_text := Py.strip (Re.group 2 m) in
      Dict.set req_id (Requirement.mk req_id req_text i) requirements
  | None =>
      match Re.re_match false PRD_TABLE_REQ_PATTERN line with
      | Some m =>
          let req_id := Re.group 1 m in
          let req_text := Py.strip (Re.group 2 m) in
          Dict.set req_id (Requirement.mk req_id req_text i) requirements
      | None =>
          match Re.re_match false PRD_HEADING_PATTERN line with
          | Some m =>
              let req_id := Re.group 1 m in
              let req_text := Py.strip (Re.group 2 m) in
              Dict.set req_id (Requirement.mk req_id req_text i) requirements
          | None => requirements
          end
      end
  end.

(** The loop [for i, line in enumerate(lines, 1)] of [parse_prd]. *)
Definition prd_loop (todo : list (nat * string)) (requirements : dict Requirement.t)
  : dict Requirement.t :=
  fold_left (fun requirements il => prd_line (fst il) (snd il) requirements)
            todo requirements.

Definition parse_prd_lines (lines : list string) : dict Requirement.t :=
  prd_loop (Py.enumerate 1 lines) Dict.empty.

(** [parse_prd], on the text read from the document. *)
Definition parse_prd (content : string) : dict Requirement.t :=
  parse_prd_lines (Py.split Py.newline content).

(* ------------------------------------------------------------------ *)
(** ** Plan extractor: [parse_plan] *)

(** The loop [for section_req in current_section_reqs: if section_req in
    plan_items: plan_items[section_req].completed = False]. *)
Definition mark_incomplete (current_section_reqs : list string)
  (plan_items : dict PlanItem.t) : dict PlanItem.t :=
  fold_left (fun items section_req =>
               match Dict.get items section_req with
               | Some item => Dict.set section_req (PlanItem.set_completed false item) items
               | None => items
               end)
            current_section_reqs plan_items.

(** The test references found in the window of line [i]: the line itself
    and the five lines after it. *)
Definition find_test_refs (lines : list string) (i : nat) : list string :=
  let context :=
    Py.join Py.nl (Py.slice lines (Nat.max 0 (i - 1)) (Nat.min (List.length lines) (i + 5))) in
  match Re.re_search false TEST_REF_PATTERN context with
  | Some test_match => map Py.strip (Py.split ","%char (Re.group 1 test_match))
  | None => []
  end.

Definition is_x (status : string) : bool := String.eqb (Py.lower status) "x".

(** State of the loop of [parse_plan]. *)
Definition plan_state : Type := (dict PlanItem.t * list string)%type.

(** One iteration of the loop of [parse_plan] on line [i]. *)
Definition plan_line (lines : list string) (i : nat) (line : string) (st : plan_state)
  : plan_state :=
  let '(plan_items, current_section_reqs) := st in
  match Re.re_match false HEADER_PATTERN line with
  | Some header_match =>
      let text := Py.strip (Re.group 1 header_match) in
      let ids := Re.re_findall false REQ_ID_PATTERN text in
      match ids with
      | _ :: _ =>
          (fold_left (fun items req_id =>
                        Dict.set req_id
                          (PlanItem.mk req_id ("Section: " ++ text) true i []) items)
                     ids plan_items,
           ids)
      | [] => (plan_items, [])
      end
  | None =>
      match Re.re_match false PLAN_ITEM_PATTERN line with
      | Some m =>
          let status := Re.group 1 m in
          let req_id := Re.group 2 m in
          let text := Py.strip (Re.group 3 m) in
          let plan_items :=
            if negb (is_x status)
            then mark_incomplete current_section_reqs plan_items
            else plan_items in
          let test_refs := find_test_refs lines i in
          (Dict.set req_id (PlanItem.mk req_id text (is_x status) i test_refs) plan_items,
           current_section_reqs)
      | None =>
          match Re.re_match false TASK_PATTERN line with
          | Some m =>
              let status := Re.group 1 m in
              let text := Py.strip (Re.group 2 m) in
              let plan_items :=
                if negb (is_x status)
                then mark_incomplete current_section_reqs plan_items
                else plan_items in
              let ids := Re.re_findall false REQ_ID_PATTERN text in
              (fold_left (fun items req_id =>
                            let test_refs := find_test_refs lines i in
                            Dict.set req_id
                              (PlanItem.mk req_id text (is_x status) i test_refs) items)
                         ids plan_items,
               current_section_reqs)
          | None =>
              match Re.re_match true PLAN_TABLE_PATTERN line with
              | Some m =>
                  let req_id := Re.group 1 m in
                  let status_text := Py.lower (Re.group 2 m) in
                  let completed := Py.mem status_text ["done"; "complete"; "yes"] in
                  if negb (Dict.mem req_id plan_items)
                  then (Dict.set req_id
                          (PlanItem.mk req_id ("Table entry: " ++ Py.strip line)
                             completed i [])
                          plan_items,
                        current_section_reqs)
                  else (plan_items, current_section_reqs)
              | None => (plan_items, current_section_reqs)
              end
          end
      end
  end.

(** The loop [for i, line in enumerate(lines, 1)] of [parse_plan]. *)
Definition plan_loop (lines : list string) (todo : list (nat * string)) (st : plan_state)
  : plan_state :=
  fold_left (fun st il => plan_line lines (fst il) (snd il) st) todo st.

Definition parse_plan_lines (lines : list string) : dict PlanItem.t :=
  fst (plan_loop lines (Py.enumerate 1 lines) (Dict.empty, [])).

(** [parse_plan], on the text read from the document. *)
Definition parse_plan (content : string) : dict PlanItem.t :=
  parse_plan_lines (Py.split Py.newline content).

(** A document given by its lines. *)
Definition doc (lines : list string) : string := Py.join Py.nl lines.


(* ------------------------------------------------------------------ *)
(** ** Exceptions *)

(** The outcome of code that may raise: a value, or the name of the
    exception class raised. *)
Inductive result (A : Type) : Type :=
| Ok (a : A)
| Raise (exc : string).

Arguments Ok {A} a.
Arguments Raise {A} exc.

Definition bind {A B} (r : result A) (f : A -> result B) : result B :=
  match r with
  | Ok a => f a
  | Raise e => Raise e
  end.

Notation "x <- r ;; k" := (bind r (fun x => k))
  (at level 61, r at next level, right associativity).

(** [d[k]], which raises [KeyError] on a missing key. *)
Definition getitem {V} (d : dict V) (k : string) : result V :=
  match Dict.get d k with
  | Some v => Ok v
  | None => Raise "KeyError"
  end.

(** Runs [f] on each element in order and collects the values; the first
    exception stops the loop. *)
Fixpoint for_each {A B} (f : A -> result B) (l : list A) : result (list B) :=
  match l with
  | [] => Ok []
  | x :: l' => y <- f x ;; ys <- for_each f l' ;; Ok (y :: ys)
  end.

(* ------------------------------------------------------------------ *)
(** ** Syntax trees of the [ast] module *)

Module ast.

#[local] Set Warnings "-register-all".

(** Values of [ast.Constant] nodes. *)
Inductive constant : Type :=
| CNone
| CBool (b : bool)
| CInt (z : Z)
| CFloat (f : spec_float)
| CComplex (re im : spec_float)
| CStr (s : string)
| CBytes (s : string)
| CEllipsis.

(** Comparison operators ([ast.Eq], [ast.NotEq], ...); kept in a module of
    their own so that [Eq], [Lt], [Gt] and [In] keep their usual meaning. *)
Module cmpop.
Inductive t : Type :=
| Eq | NotEq | Lt | LtE | Gt | GtE | Is | IsNot | In | NotIn.
End cmpop.

(** Expressions.  [OtherExpr] stands for every expression class the auditor
    does not inspect (BinOp, Lambda, ListComp, ...), with its
    sub-expressions. *)
Inductive expr : Type :=
| Constant (value : constant)
| Name (id : string)
| Attribute (value : expr) (attr : string)
| Call (func : expr) (args : list expr) (keywords : list expr)
| Compare (left : expr) (ops : list cmpop.t) (comparators : list expr)
| OtherExpr (children : list expr).

(** [ast.withitem] *)
Definition withitem : Type := (expr * option expr)%type.

Definition context_expr (item : withitem) : expr := fst item.

(** Statements.  [OtherStmt] stands for every statement class the auditor
    does not inspect (Assign, If, For, Try, AsyncWith, Return, ...), with its
    sub-expressions and sub-statements. *)
Inductive stmt : Type :=
| FunctionDef (name : string) (lineno : nat) (decorator_list : list expr) (body : list stmt)
| AsyncFunctionDef (name : string) (lineno : nat) (decorator_list : list expr) (body : list stmt)
| ClassDef (name : string) (body : list stmt)
| Assert (test : expr) (msg : option expr)
| Pass
| Expr (value : expr)
| With (items : list withitem) (body : list stmt)
| OtherStmt (exprs : list expr) (stmts : list stmt).

(** The outcome of [ast.parse(content)]: the [body] of the module node, a
    [SyntaxError], or another exception. *)
Inductive parse_outcome : Type :=
| Mod (body : list stmt)
| SyntaxError
| OtherError (exc : string).

End ast.

(** *** Equality of constants: Python's [==] *)

Module PyEq.
Import ast.

Inductive number : Type :=
| NInt (z : Z)
| NFloat (f : spec_float)
| NComplex (re im : spec_float).

Definition number_of (c : constant) : option number :=
  match c with
  | CBool b => Some (NInt (Z.b2z b))
  | CInt z => Some (NInt z)
  | CFloat f => Some (NFloat f)
  | CComplex r i => Some (NComplex r i)
  | _ => None
  end.

(** The float [f] has exactly the integer value [z]. *)
Definition float_is_int (f : spec_float) (z : Z) : bool :=
  match f with
  | S754_zero _ => Z.eqb z 0
  | S754_finite s m e =>
      let v := if s then Z.neg m else Z.pos m in
      if Z.leb 0 e then Z.eqb (v * 2 ^ e) z else Z.eqb v (z * 2 ^ (- e))
  | _ => false
  end.

Definition float_is_zero (f : spec_float) : bool :=
  match f with S754_zero _ => true | _ => false end.

Definition number_eq (a b : number) : bool :=
  match a, b with
  | NInt x, NInt y => Z.eqb x y
  | NInt x, NFloat f | NFloat f, NInt x => float_is_int f x
  | NFloat f, NFloat g => SFeqb f g
  | NComplex r i, NInt x | NInt x, NComplex r i => (float_is_zero i && float_is_int r x)%bool
  | NComplex r i, NFloat f | NFloat f, NComplex r i => (float_is_zero i && SFeqb r f)%bool
  | NComplex r i, NComplex r' i' => (SFeqb r r' && SFeqb i i')%bool
  end.

(** [a == b] on constant values. *)
Definition eq (a b : constant) : bool :=
  match number_of a, number_of b with
  | Some x, Some y => number_eq x y
  | None, None =>
      match a, b with
      | CNone, CNone => true
      | CStr s, CStr s' => String.eqb s s'
      | CBytes s, CBytes s' => String.eqb s s'
      | CEllipsis, CEllipsis => true
      | _, _ => false
      end
  | _, _ => false
  end.

End PyEq.

(* ------------------------------------------------------------------ *)
(** ** Test analyzer *)

(** A [pathlib.Path]: the components of an absolute path. *)
Definition Path : Type := list string.

Module TestInfo.
Record t : Type := mk {
  name : string;
  file : Path;
  line_number : nat;
  requirement_ids : list ast.constant;
  issues : list string
}.
End TestInfo.

(** *** [AssertionFinder]

    Each visitor takes the value of [self.found] and returns its value after
    the visit. *)
Module AssertionFinder.
Import ast.

Definition call_attrs : list string :=
  ["raises"; "warns"; "assert_called"; "assert_called_once";
   "assert_called_with"; "assert_called_once_with";
   "assert_not_called"; "assert_has_calls"].

Fixpoint visit_expr (node : expr) (found : bool) {struct node} : bool :=
  match node with
  | Call func args keywords =>
      (* visit_Call *)
      let found :=
        match func with
        | Attribute _ attr => if Py.mem attr call_attrs then true else found
        | _ => found
        end in
      (* generic_visit *)
      let found := visit_expr func found in
      let found := fold_left (fun found arg => visit_expr arg found) args found in
      fold_left (fun found kw => visit_expr kw found) keywords found
  | Constant _ => found
  | Name _ => found
  | Attribute value _ => visit_expr value found
  | Compare left_ _ comparators =>
      let found := visit_expr left_ found in
      fold_left (fun found c => visit_expr c found) comparators found
  | OtherExpr children =>
      fold_left (fun found c => visit_expr c found) children found
  end.

Definition visit_withitem (item : withitem) (found : bool) : bool :=
  let found := visit_expr (fst item) found in
  match snd item with
  | Some optional_vars => visit_expr optional_vars found
  | None => found
  end.

Fixpoint visit (node : stmt) (found : bool) {struct node} : bool :=
  match node with
  | Assert _ _ => true                       (* visit_Assert *)
  | FunctionDef _ _ _ _ => found             (* visit_FunctionDef: pass *)
  | AsyncFunctionDef _ _ _ _ => found        (* visit_AsyncFunctionDef: pass *)
  | ClassDef _ _ => found                    (* visit_ClassDef: pass *)
  | With items body =>
      (* visit_With *)
      let found :=
        fold_left (fun found item =>
                     match context_expr item with
                     | Call (Attribute _ attr) _ _ =>
                         if Py.mem attr ["raises"; "warns"] then true else found
                     | _ => found
                     end) items found in
      (* generic_visit *)
      let found := fold_left (fun found item => visit_withitem item found) items found in
      fold_left (fun found s => visit s found) body found
  | Pass => found
  | Expr value => visit_expr value found
  | OtherStmt exprs stmts =>
      let found := fold_left (fun found e => visit_expr e found) exprs found in
      fold_left (fun found s => visit s found) stmts found
  end.

End AssertionFinder.

Import ast.

(** The issues one top-level statement adds in the always-pass loop of
    [check_test_integrity]. *)
Definition always_pass (node : stmt) (issues : list string) : list string :=
  match node with
  | Assert test _ =>
      match test with
      | Constant (CBool true) => issues ++ ["Always-pass pattern: assert True"]%list
      | Constant value =>
          if PyEq.eq value (CInt 1)
          then issues ++ ["Always-pass pattern: assert 1"]%list
          else issues
      | Compare (Constant l) [cmpop.Eq] [Constant r] =>
          if PyEq.eq l r
          then issues ++ ["Always-pass pattern: trivial comparison"]%list
          else issues
      | _ => issues
      end
  | _ => issues
  end.

(** [check_test_integrity(func_node, lines)], on [func_node.body]. *)
Definition check_test_integrity (body : list stmt) : list string :=
  let issues : list string := [] in
  (* Skip docstring if present *)
  let body_without_docstring :=
    match body with
    | Expr (Constant (CStr _)) :: tl => tl
    | _ => body
    end in
  match body_without_docstring with
  | [Pass] => issues ++ ["Placeholder test (only pass statement)"]%list
  | _ =>
      let issues := fold_left (fun issues node => always_pass node issues)
                              body_without_docstring issues in
      let has_assertion :=
        fold_left (fun found node => AssertionFinder.visit node found) body false in
      if negb has_assertion then
        let non_trivial :=
          existsb (fun node =>
                     match node with
                     | Pass => false
                     | Expr (Constant _) => false
                     | _ => true
                     end) body_without_docstring in
        if negb non_trivial
        then issues ++ ["No assertions found (placeholder test)"]%list
        else issues
      else issues
  end.

(** The ids collected from the decorators of a test function. *)
Definition decorator_ids (decorator_list : list expr) : list constant :=
  fold_left (fun ids decorator =>
               match decorator with
               | Call (Attribute _ attr) args _ =>
                   if String.eqb attr "requirement"
                   then fold_left (fun ids arg =>
                                     match arg with
                                     | Constant value => ids ++ [value]
                                     | _ => ids
                                     end)%list args ids
                   else ids
               | _ => ids
               end) decorator_list [].

(** [process_test_function(node)], appending to [tests]. *)
Definition process_test_function (test_path : Path) (name : string) (lineno : nat)
  (decorator_list : list expr) (body : list stmt) (tests : list TestInfo.t)
  : list TestInfo.t :=
  if negb (Py.startswith name "test_") then tests
  else
    let requirement_ids := decorator_ids decorator_list in
    let issues := check_test_integrity body in
    (tests ++ [TestInfo.mk name test_path lineno requirement_ids issues])%list.

Definition process_def (test_path : Path) (node : stmt) (tests : list TestInfo.t)
  : list TestInfo.t :=
  match node with
  | FunctionDef name lineno decorator_list body
  | AsyncFunctionDef name lineno decorator_list body =>
      process_test_function test_path name lineno decorator_list body tests
  | _ => tests
  end.

Section Analyzer.

(** [ast.parse] *)
Variable ast_parse : string -> parse_outcome.

(** [analyze_test_file(test_path)], on the text read from the file. *)
Definition analyze_test_file (test_path : Path) (content : string)
  : result (list TestInfo.t) :=
  let tests : list TestInfo.t := [] in
  match ast_parse content with
  | SyntaxError => Ok tests
  | OtherError exc => Raise exc
  | Mod tree_body =>
      Ok (fold_left (fun tests node =>
                       match node with
                       | FunctionDef _ _ _ _ | AsyncFunctionDef _ _ _ _ =>
                           process_def test_path node tests
                       | ClassDef _ class_body =>
                           fold_left (fun tests item => process_def test_path item tests)
                                     class_body tests
                       | _ => tests
                       end) tree_body tests)
  end.

End Analyzer.

(* ------------------------------------------------------------------ *)
(** ** Paths and the test scanner *)

Module PathLib.

(** [str(p)] for an absolute path. *)
Definition str (p : Path) : string := "/" ++ Py.join "/" p.

(** [str(p)] for a relative path. *)
Definition str_rel (p : Path) : string :=
  match p with
  | [] => "."
  | _ => Py.join "/" p
  end.

(** [p.name] *)
Definition name (p : Path) : string := last p "".

Definition eqb (p q : Path) : bool :=
  if list_eq_dec string_dec p q then true else false.

Fixpoint is_prefix (p q : Path) : bool :=
  match p, q with
  | [], _ => true
  | x :: p', y :: q' => (String.eqb x y && is_prefix p' q')%bool
  | _ :: _, [] => false
  end.

(** [root in p.parents] *)
Definition in_parents (root p : Path) : bool :=
  (is_prefix root p && Nat.ltb (List.length root) (List.length p))%bool.

(** [p.relative_to(root)], for [root] a prefix of [p]. *)
Definition relative_to (p root : Path) : Path := skipn (List.length root) p.

(** [fnmatch] for patterns whose only wildcard is the star. *)
Fixpoint fnmatch (pat s : string) {struct pat} : bool :=
  match pat with
  | EmptyString => match s with EmptyString => true | _ => false end
  | String c pat' =>
      if Ascii.eqb c "*"%char then
        (fix star (s : string) : bool :=
           (fnmatch pat' s
            || match s with
               | EmptyString => false
               | String _ s' => star s'
               end)%bool) s
      else
        match s with
        | String d s' => (Ascii.eqb c d && fnmatch pat' s')%bool
        | EmptyString => false
        end
  end.

(** A relative path against the components of a glob pattern; the
    component [**] stands for any number of directories. *)
Fixpoint glob_match (pat : list string) (rel : Path) {struct pat} : bool :=
  match pat with
  | [] => match rel with [] => true | _ => false end
  | p :: pat' =>
      if String.eqb p "**" then
        (fix dirs (rel : Path) : bool :=
           (glob_match pat' rel
            || match rel with
               | [] => false
               | _ :: rel' => dirs rel'
               end)%bool) rel
      else
        match rel with
        | x :: rel' => (fnmatch p x && glob_match pat' rel')%bool
        | [] => false
        end
  end.

End PathLib.

(** A snapshot of the audited project: its root, the text of [PRD.md] and
    [PLAN.md] when they exist, and the regular files below the root (path
    relative to the root, text) in directory-walk order. *)
Record Project : Type := mkProject {
  project_root : Path;
  prd : option string;
  plan : option string;
  tree : list (Path * string)
}.

Definition skip_dirs : list string :=
  [".venv"; "venv"; "node_modules"; ".git"; "__pycache__";
   ".tox"; ".nox"; "build"; "dist"; ".eggs"; "*.egg-info"].

Definition should_skip (path : Path) : bool :=
  existsb (fun part => (Py.mem part skip_dirs || Py.endswith part ".egg-info")%bool) path.

(** [project_root.glob(pattern)], over the regular files of the snapshot.
    [Path.glob] also yields a directory whose name matches the pattern; a
    project with a directory named like a test file is outside the
    snapshot. *)
Definition glob (p : Project) (pattern : string) : list Path :=
  map (fun rel => (project_root p ++ rel)%list)
      (filter (PathLib.glob_match (Py.split "/"%char pattern)) (map fst (tree p))).

(** The list [test_files] of [find_test_files] before it is turned into a
    set. *)
Definition candidate_test_files (p : Project) : list Path :=
  flat_map (fun pattern =>
              filter (fun f => negb (should_skip (PathLib.relative_to f (project_root p))))
                     (glob p pattern))
           ["tests/**/test_*.py"; "test_*.py"; "**/test_*.py"].

Definition Path_eq_dec : forall p q : Path, {p = q} + {p <> q} := list_eq_dec string_dec.

(** What [list(set(l))] may be: the distinct elements of [l], in the
    iteration order of the set.  That order follows the hashes of the paths,
    which CPython salts per process; the model takes it as a parameter
    [set_iter] of the run and only assumes this law. *)
Definition set_iter_ok (set_iter : list Path -> list Path) : Prop :=
  forall l, Permutation (set_iter l) (nodup Path_eq_dec l).

(** [test_path.read_text()] for a path found by the scanner. *)
Definition read_text (p : Project) (f : Path) : string :=
  match find (fun e => PathLib.eqb (fst e) (PathLib.relative_to f (project_root p))) (tree p) with
  | Some e => snd e
  | None => ""
  end.

(* ------------------------------------------------------------------ *)
(** ** Reconciler: [run_audit] *)

Module AuditResult.
Record t : Type := mk {
  requirements : dict Requirement.t;
  plan_items : dict PlanItem.t;
  tests : list TestInfo.t;
  prd_not_in_plan : list string;
  plan_not_in_prd : list string;
  no_test_coverage : list string;
  suspect_tests : list TestInfo.t;
  completion_issues : list (string * string)
}.
End AuditResult.

(** [x in ids], for a string [x] and a collection of constants. *)
Definition str_in (x : string) (ids : list constant) : bool :=
  existsb (PyEq.eq (CStr x)) ids.

(** [any(req_id in t.requirement_ids for t in tests)] *)
Definition has_tests (req_id : string) (tests : list TestInfo.t) : bool :=
  existsb (fun t => str_in req_id (TestInfo.requirement_ids t)) tests.

(** The part of [run_audit] after the three extractions. *)
Definition reconcile (requirements : dict Requirement.t) (plan_items : dict PlanItem.t)
  (tests : list TestInfo.t) : AuditResult.t :=
  (* Build test coverage map *)
  let tested_requirements := flat_map TestInfo.requirement_ids tests in
  (* Check PRD -> PLAN sync *)
  let prd_not_in_plan :=
    filter (fun req_id => negb (Dict.mem req_id plan_items)) (Dict.keys requirements) in
  (* Check PLAN -> PRD sync *)
  let plan_not_in_prd :=
    filter (fun plan_id => negb (Dict.mem plan_id requirements)) (Dict.keys plan_items) in
  (* Check test coverage *)
  let no_test_coverage :=
    filter (fun req_id => negb (str_in req_id tested_requirements)) (Dict.keys requirements) in
  (* Check test integrity *)
  let suspect_tests :=
    filter (fun test => match TestInfo.issues test with [] => false | _ => true end) tests in
  (* Check completion honesty *)
  let completion_issues :=
    flat_map (fun kv : string * PlanItem.t =>
                let (plan_id, plan_item) := kv in
                if PlanItem.completed plan_item then
                  if (negb (has_tests plan_id tests) && Dict.mem plan_id requirements)%bool
                  then [(plan_id, "Marked complete but no tests found")]
                  else []
                else [])
             plan_items in
  AuditResult.mk requirements plan_items tests prd_not_in_plan plan_not_in_prd
                 no_test_coverage suspect_tests completion_issues.

Section Audit.

Variable ast_parse : string -> parse_outcome.
Variable set_iter : list Path -> list Path.

(** [find_test_files(project_root)] *)
Definition find_test_files (p : Project) : list Path :=
  set_iter (candidate_test_files p).

(** The loop [for test_file in test_files:
    result.tests.extend(analyze_test_file(test_file))]. *)
Definition collect_tests (p : Project) (test_files : list Path) : result (list TestInfo.t) :=
  per_file <- for_each (fun test_file =>
                          analyze_test_file ast_parse test_file (read_text p test_file))
                       test_files ;;
  Ok (concat per_file).

(** [run_audit(project_root)] *)
Definition run_audit (p : Project) : result AuditResult.t :=
  let requirements :=
    match prd p with
    | Some content => parse_prd content
    | None => Dict.empty
    end in
  let plan_items :=
    match plan p with
    | Some content => parse_plan content
    | None => Dict.empty
    end in
  let test_files := find_test_files p in
  tests <- collect_tests p test_files ;;
  Ok (reconcile requirements plan_items tests).

End Audit.

(* ------------------------------------------------------------------ *)
(** ** Report renderer: [generate_report] *)

Fixpoint insert_sorted (x : string) (l : list string) : list string :=
  match l with
  | [] => [x]
  | y :: l' => if String.leb x y then x :: l else y :: insert_sorted x l'
  end.

(** [sorted(l)] on strings (code-point order). *)
Definition sorted (l : list string) : list string := fold_right insert_sorted [] l.

Definition nonempty {A} (l : list A) : bool :=
  match l with [] => false | _ => true end.

(** [', '.join(ids)]: raises [TypeError] on an item that is not a string. *)
Definition join_ids (ids : list constant) : result string :=
  strs <- for_each (fun c => match c with
                             | CStr s => Ok s
                             | _ => Raise "TypeError"
                             end) ids ;;
  Ok (Py.join ", " strs).

(** [len(...)] of the five issue collections, summed. *)
Definition report_total (r : AuditResult.t) : nat :=
  List.length (AuditResult.prd_not_in_plan r) +
  List.length (AuditResult.plan_not_in_prd r) +
  List.length (AuditResult.no_test_coverage r) +
  List.length (AuditResult.suspect_tests r) +
  List.length (AuditResult.completion_issues r).

Definition summary_lines (r : AuditResult.t) (root : Path) : list string :=
  ["# Project Audit Report";
   "";
   "**Project**: " ++ PathLib.name root;
   "**Audited**: " ++ PathLib.str root;
   "";
   "---";
   "";
   "## Summary";
   "";
   "- **Requirements in PRD**: " ++ Py.str_of_nat (List.length (AuditResult.requirements r));
   "- **Items in PLAN**: " ++ Py.str_of_nat (List.length (AuditResult.plan_items r));
   "- **Test functions found**: " ++ Py.str_of_nat (List.length (AuditResult.tests r));
   ""].

Definition total_line (total_issues : nat) : string :=
  if Nat.eqb total_issues 0 then "**No issues found.**"
  else "**Total issues found: " ++ Py.str_of_nat total_issues ++ "**".

Definition rule : list string := [""; "---"; ""].

Definition prd_not_in_plan_lines (r : AuditResult.t) : result (list string) :=
  if nonempty (AuditResult.prd_not_in_plan r) then
    items <- for_each (fun req_id =>
                         req <- getitem (AuditResult.requirements r) req_id ;;
                         Ok ("- **" ++ req_id ++ "**: " ++ Requirement.text req
                               ++ " (PRD.md:" ++ Py.str_of_nat (Requirement.line_number req) ++ ")"))
                      (sorted (AuditResult.prd_not_in_plan r)) ;;
    Ok (["These requirements are defined in PRD.md but not tracked in PLAN.md:"; ""] ++ items)%list
  else Ok ["*None*"].

Definition plan_not_in_prd_lines (r : AuditResult.t) : result (list string) :=
  if nonempty (AuditResult.plan_not_in_prd r) then
    items <- for_each (fun plan_id =>
                         item <- getitem (AuditResult.plan_items r) plan_id ;;
                         Ok ("- **" ++ plan_id ++ "**: " ++ PlanItem.text item
                               ++ " (PLAN.md:" ++ Py.str_of_nat (PlanItem.line_number item) ++ ")"))
                      (sorted (AuditResult.plan_not_in_prd r)) ;;
    Ok (["These items are in PLAN.md but not defined in PRD.md:"; ""] ++ items)%list
  else Ok ["*None*"].

Definition no_test_coverage_lines (r : AuditResult.t) : result (list string) :=
  if nonempty (AuditResult.no_test_coverage r) then
    items <- for_each (fun req_id =>
                         req <- getitem (AuditResult.requirements r) req_id ;;
                         Ok ("- **" ++ req_id ++ "**: " ++ Requirement.text req))
                      (sorted (AuditResult.no_test_coverage r)) ;;
    Ok (["These requirements have no tests with `@pytest.mark.requirement` marker:"; ""]
          ++ items)%list
  else Ok ["*All requirements have test coverage*"].

(** The lines of one entry of the suspect-tests section. *)
Definition suspect_test_lines (root : Path) (test : TestInfo.t) : result (list string) :=
  let rel_path :=
    if PathLib.in_parents root (TestInfo.file test)
    then PathLib.str_rel (PathLib.relative_to (TestInfo.file test) root)
    else PathLib.str (TestInfo.file test) in
  let head :=
    ["### `" ++ TestInfo.name test ++ "` (" ++ rel_path ++ ":"
       ++ Py.str_of_nat (TestInfo.line_number test) ++ ")";
     ""] in
  reqs <- (if nonempty (TestInfo.requirement_ids test)
           then joined <- join_ids (TestInfo.requirement_ids test) ;;
                Ok ["**Requirements**: " ++ joined]
           else Ok []) ;;
  let issue_lines := map (fun issue => "- " ++ issue) (TestInfo.issues test) in
  Ok (head ++ reqs ++ [""; "**Issues**:"] ++ issue_lines ++ [""])%list.

Definition suspect_tests_lines (r : AuditResult.t) (root : Path) : result (list string) :=
  if nonempty (AuditResult.suspect_tests r) then
    entries <- for_each (suspect_test_lines root) (AuditResult.suspect_tests r) ;;
    Ok (["These tests have integrity issues:"; ""] ++ concat entries)%list
  else Ok ["*No suspect tests found*"].

Definition completion_issues_lines (r : AuditResult.t) : result (list string) :=
  if nonempty (AuditResult.completion_issues r) then
    items <- for_each (fun ri : string * string =>
                         let (req_id, issue) := ri in
                         item <- getitem (AuditResult.plan_items r) req_id ;;
                         Ok ("- **" ++ req_id ++ "**: " ++ issue
                               ++ " (PLAN.md:" ++ Py.str_of_nat (PlanItem.line_number item) ++ ")"))
                      (AuditResult.completion_issues r) ;;
    Ok (["These items are marked complete but have issues:"; ""] ++ items)%list
  else Ok ["*No completion issues found*"].

Definition matrix_row (r : AuditResult.t) (req_id : string) : string :=
  let in_plan := if Dict.mem req_id (AuditResult.plan_items r) then "Yes" else "No" in
  let has_tests_ := if has_tests req_id (AuditResult.tests r) then "Yes" else "No" in
  let status :=
    match Dict.get (AuditResult.plan_items r) req_id with
    | Some item => if PlanItem.completed item then "Complete" else "Pending"
    | None => "Not tracked"
    end in
  "| " ++ req_id ++ " | " ++ in_plan ++ " | " ++ has_tests_ ++ " | " ++ status ++ " |".

Definition matrix_lines (r : AuditResult.t) : list string :=
  (["## Test Coverage Matrix";
    "";
    "| Requirement | In PLAN | Has Tests | Status |";
    "|-------------|---------|-----------|--------|"]
   ++ map (matrix_row r) (sorted (Dict.keys (AuditResult.requirements r)))
   ++ [""])%list.

(** The list [lines] of [generate_report] before it is joined. *)
Definition report_lines (r : AuditResult.t) (root : Path) : result (list string) :=
  let lines := summary_lines r root in
  let total_issues := report_total r in
  let lines := (lines ++ [total_line total_issues])%list in
  let lines := (lines ++ rule)%list in
  s1 <- prd_not_in_plan_lines r ;;
  let lines := (lines ++ ["## PRD Requirements Not in PLAN"; ""] ++ s1 ++ rule)%list in
  s2 <- plan_not_in_prd_lines r ;;
  let lines := (lines ++ ["## PLAN Items Without PRD Backing"; ""] ++ s2 ++ rule)%list in
  s3 <- no_test_coverage_lines r ;;
  let lines := (lines ++ ["## Requirements Without Test Coverage"; ""] ++ s3 ++ rule)%list in
  s4 <- suspect_tests_lines r root ;;
  let lines := (lines ++ ["## Suspect Tests"; ""] ++ s4 ++ rule)%list in
  s5 <- completion_issues_lines r ;;
  let lines := (lines ++ ["## Completion Honesty Issues"; ""] ++ s5 ++ rule)%list in
  Ok (lines ++ matrix_lines r)%list.

(** [generate_report(result, project_root)] *)
Definition generate_report (r : AuditResult.t) (root : Path) : result string :=
  lines <- report_lines r root ;;
  Ok (Py.join Py.nl lines).

(* ------------------------------------------------------------------ *)
(** ** [main] *)

(** What a run leaves behind: the exit status of the process and the report
    it wrote (to the report file or to standard output), if any. *)
Record outcome : Type := mkOutcome {
  exit_status : nat;
  report : option string
}.

(** The sum [main] computes after the report is out. *)
Definition exit_total (r : AuditResult.t) : nat :=
  List.length (AuditResult.prd_not_in_plan r) +
  List.length (AuditResult.plan_not_in_prd r) +
  List.length (AuditResult.suspect_tests r) +
  List.length (AuditResult.completion_issues r).

(** The part of [main] after [run_audit]: render, write, exit.  An
    exception that escapes ends the process with status 1 and no report. *)
Definition finish (r : AuditResult.t) (root : Path) : outcome :=
  match generate_report r root with
  | Raise _ => mkOutcome 1 None
  | Ok text =>
      let total_issues := exit_total r in
      mkOutcome (if Nat.ltb 0 total_issues then 1 else 0) (Some text)
  end.

Section Main.

Variable ast_parse : string -> parse_outcome.
Variable set_iter : list Path -> list Path.

(** [main()], on a project snapshot. *)
Definition main (p : Project) : outcome :=
  match prd p with
  | None => mkOutcome 1 None          (* Error: PRD.md not found *)
  | Some _ =>
      match plan p with
      | None => mkOutcome 1 None      (* Error: PLAN.md not found *)
      | Some _ =>
          match run_audit ast_parse set_iter p with
          | Raise _ => mkOutcome 1 None
          | Ok r => finish r (project_root p)
          end
      end
  end.

End Main.

(* ------------------------------------------------------------------ *)
(** ** Vocabulary of the statements *)

(** A test body: an optional documentation string, then [stmts]. *)
Definition with_docstring (docstring : option string) (stmts : list stmt) : list stmt :=
  match docstring with
  | Some d => Expr (Constant (CStr d)) :: stmts
  | None => stmts
  end.

(** The statement [assert 1 == 1]. *)
Definition assert_1_eq_1 : stmt :=
  Assert (Compare (Constant (CInt 1)) [cmpop.Eq] [Constant (CInt 1)]) None.

(** What a line of the requirements document defines: the id and text of
    the first of the three forms (list, table, heading) that matches it, as
    the if-chain of [parse_prd] finds them. *)
Definition prd_defines (line : string) : option (string * string) :=
  match Re.re_match false PRD_REQ_PATTERN line with
  | Some m => Some (Re.group 1 m, Py.strip (Re.group 2 m))
  | None =>
      match Re.re_match false PRD_TABLE_REQ_PATTERN line with
      | Some m => Some (Re.group 1 m, Py.strip (Re.group 2 m))
      | None =>
          match Re.re_match false PRD_HEADING_PATTERN line with
          | Some m => Some (Re.group 1 m, Py.strip (Re.group 2 m))
          | None => None
          end
      end
  end.

(** The branch of the if-chain of [parse_plan] a line takes, with the
    values that branch extracts from the line. *)
Inductive line_kind : Type :=
| Heading (text : string)
| StrictTask (status req_id text : string)
| LooseTask (status text : string)
| TableRow (req_id status_text : string)
| Ignored.

Definition classify (line : string) : line_kind :=
  match Re.re_match false HEADER_PATTERN line with
  | Some m => Heading (Py.strip (Re.group 1 m))
  | None =>
      match Re.re_match false PLAN_ITEM_PATTERN line with
      | Some m => StrictTask (Re.group 1 m) (Re.group 2 m) (Py.strip (Re.group 3 m))
      | None =>
          match Re.re_match false TASK_PATTERN line with
          | Some m => LooseTask (Re.group 1 m) (Py.strip (Re.group 2 m))
          | None =>
              match Re.re_match true PLAN_TABLE_PATTERN line with
              | Some m => TableRow (Re.group 1 m) (Py.lower (Re.group 2 m))
              | None => Ignored
              end
          end
      end
  end.

(** The requirement ids [REQ_ID_PATTERN.findall] finds in a text. *)
Definition ids_in (text : string) : list string := Re.re_findall false REQ_ID_PATTERN text.

(** A line that [parse_plan] treats as a table row or does not recognise. *)
Definition table_or_ignored (line : string) : Prop :=
  (exists req_id status_text, classify line = TableRow req_id status_text)
  \/ classify line = Ignored.

(** A two-line plan: a section heading for two ids and an unchecked loose
    task that mentions no id; [login_state] is the loop state after the
    heading. *)
Definition login_lines : list string := ["## Login (FR-1, NFR-2)"; "- [ ] write the docs"].

Definition login_state : plan_state :=
  plan_line login_lines 1 "## Login (FR-1, NFR-2)" (Dict.empty, []).

(** Plan documents around a table row and a checked strict task line for
    FR-1. *)
Definition overwritten_plan : list string :=
  ["| FR-1 | Pending |"; "- [x] **FR-1**: do it"; "- [ ] follow-up for FR-1"].

Definition table_first_plan : list string :=
  ["| FR-1 | Pending | Tests: `test_a` |"; "- [x] **FR-1**: do it"].

Definition task_first_plan : list string :=
  ["- [x] **FR-1**: do it"; "| FR-1 | Pending | Tests: `test_a` |"].

Definition mixed_plan : list string :=
  ["# Plan"; "| FR-1 | Pending |"; "- [X] **FR-1**: do it"; "  Tests: `test_a, test_b`";
   "| FR-1 | Pending |"; "| FR-2 | Done |"].

(* ------------------------------------------------------------------ *)
(** ** Sample projects *)

(** Five test sources, and the trees [ast.parse] builds for the four that
    are valid Python. *)
Definition src_placeholder : string :=
  doc ["def test_a():"; "    pass"; ""].

Definition src_tautology : string :=
  doc ["def test_b():"; "    assert 1 == 1"; ""].

Definition src_tagged : string :=
  doc ["import pytest"; "";
       "@pytest.mark.requirement('FR-1')";
       "def test_one():";
       "    assert compute() == 3";
       ""].

Definition src_untagged : string :=
  doc ["def test_one():"; "    assert compute() == 3"; ""].

Definition src_broken : string :=
  doc ["def test_broken(:"; "    pass"; ""].

Definition tree_placeholder : list stmt :=
  [FunctionDef "test_a" 1 [] [Pass]].

Definition tree_tautology : list stmt :=
  [FunctionDef "test_b" 1 [] [assert_1_eq_1]].

Definition tree_tagged : list stmt :=
  [OtherStmt [] [];
   FunctionDef "test_one" 4
     [Call (Attribute (Attribute (Name "pytest") "mark") "requirement")
           [Constant (CStr "FR-1")] []]
     [Assert (Compare (Call (Name "compute") [] []) [cmpop.Eq] [Constant (CInt 3)]) None]].

Definition tree_untagged : list stmt :=
  [FunctionDef "test_one" 1 []
     [Assert (Compare (Call (Name "compute") [] []) [cmpop.Eq] [Constant (CInt 3)]) None]].

(** [ast.parse] on the sample sources: the tree of each valid one, and
    [SyntaxError] for [src_broken].  The sample projects that are audited with
    it hold no other text; on any other text it answers as for
    [src_broken]. *)
Definition sample_parse (content : string) : parse_outcome :=
  if String.eqb content src_placeholder then Mod tree_placeholder
  else if String.eqb content src_tautology then Mod tree_tautology
  else if String.eqb content src_tagged then Mod tree_tagged
  else if String.eqb content src_untagged then Mod tree_untagged
  else SyntaxError.

(** Two iteration orders a set of paths can have. *)
Definition first_seen_order (l : list Path) : list Path := nodup Path_eq_dec l.

Definition reversed_order (l : list Path) : list Path := rev (nodup Path_eq_dec l).

(** The end-to-end scenario: FR-1 and FR-2 required, FR-1 planned and
    tested, and one more test file that does not parse. *)
Definition scenario_project : Project :=
  mkProject ["home"; "dev"; "shop"]
    (Some (doc ["# Requirements"; "- **FR-1**: log in"; "- **FR-2**: log out"]))
    (Some (doc ["# Plan"; "- [x] **FR-1**: do it"]))
    [(["tests"; "test_one.py"], src_tagged); (["tests"; "test_broken.py"], src_broken)].

(** Only test coverage is missing: FR-1 is required and planned (not yet
    done), but no test is tagged with it. *)
Definition uncovered_project : Project :=
  mkProject ["home"; "dev"; "shop"]
    (Some (doc ["- **FR-1**: log in"]))
    (Some (doc ["- [ ] **FR-1**: do it"]))
    [(["tests"; "test_one.py"], src_untagged)].

(** Two test files with one suspect test each. *)
Definition suspect_project : Project :=
  mkProject ["home"; "dev"; "shop"]
    (Some (doc ["- **FR-1**: log in"]))
    (Some (doc ["- [ ] **FR-1**: do it"]))
    [(["tests"; "test_a.py"], src_placeholder); (["tests"; "test_b.py"], src_tautology)].

(** The result of an audit that did not raise. *)
Definition audit_result (ast_parse : string -> parse_outcome)
  (set_iter : list Path -> list Path) (p : Project) : AuditResult.t :=
  match run_audit ast_parse set_iter p with
  | Ok r => r
  | Raise _ => reconcile Dict.empty Dict.empty []
  end.

Definition scenario_result : AuditResult.t :=
  audit_result sample_parse first_seen_order scenario_project.

Definition uncovered_result : AuditResult.t :=
  audit_result sample_parse first_seen_order uncovered_project.

(** Two results of the same kind: two values related by [R], or two
    exceptions. *)
Definition both {A} (R : A -> A -> Prop) (r1 r2 : result A) : Prop :=
  match r1, r2 with
  | Ok a, Ok b => R a b
  | Raise _, Raise _ => True
  | _, _ => False
  end.

(** Two audit results that differ at most in the order of the test
    records. *)
Definition same_but_test_order (r1 r2 : AuditResult.t) : Prop :=
  AuditResult.requirements r1 = AuditResult.requirements r2
  /\ AuditResult.plan_items r1 = AuditResult.plan_items r2
  /\ Permutation (AuditResult.tests r1) (AuditResult.tests r2)
  /\ AuditResult.prd_not_in_plan r1 = AuditResult.prd_not_in_plan r2
  /\ AuditResult.plan_not_in_prd r1 = AuditResult.plan_not_in_prd r2
  /\ AuditResult.no_test_coverage r1 = AuditResult.no_test_coverage r2
  /\ Permutation (AuditResult.suspect_tests r1) (AuditResult.suspect_tests r2)
  /\ AuditResult.completion_issues r1 = AuditResult.completion_issues r2.


(** The ids a plan line names: the ids for which [parse_plan] writes an
    entry when it reaches the line (for a table row: unless the id has one
    already). *)
Definition names (line k : string) : Prop :=
  match classify line with
  | Heading text => List.In k (ids_in text)
  | StrictTask _ req_id _ => k = req_id
  | LooseTask _ text => List.In k (ids_in text)
  | TableRow req_id _ => k = req_id
  | Ignored => False
  end.

(** A strict or loose task line whose checkbox is neither [x] nor [X]. *)
Definition unchecked_task (line : string) : bool :=
  match classify line with
  | StrictTask status _ _ | LooseTask status _ => negb (is_x status)
  | _ => false
  end.

(** The state of the loop of [parse_plan] when the first [n] lines of the
    document are done, and [current_section_reqs] at that point. *)
Definition plan_state_after (lines : list string) (n : nat) : plan_state :=
  plan_loop lines (Py.enumerate 1 (firstn n lines)) (Dict.empty, []).

Definition section_after (lines : list string) (n : nat) : list string :=
  snd (plan_state_after lines n).

(** The line [l], reached when [n] lines of the document are done, neither
    overwrites nor revokes the entry of [k]: it is a table row or does not
    name [k], and when it is an unchecked task, [k] is not in the current
    section. *)
Definition keeps_entry (lines : list string) (k : string) (n : nat) (l : string) : Prop :=
  ((exists req_id status_text, classify l = TableRow req_id status_text) \/ ~ names l k)
  /\ (unchecked_task l = true -> ~ List.In k (section_after lines n)).

(** [item'] is [item] up to a revoked completion: the same fields, except
    that [completed] may have gone from true to false. *)
Definition revoked_from (item item' : PlanItem.t) : Prop :=
  PlanItem.id item' = PlanItem.id item
  /\ PlanItem.text item' = PlanItem.text item
  /\ PlanItem.line_number item' = PlanItem.line_number item
  /\ PlanItem.test_refs item' = PlanItem.test_refs item
  /\ (PlanItem.completed item' = true -> PlanItem.completed item = true).

(** A plan given only by a status table, with two rows for FR-1. *)
Definition table_plan : list string :=
  ["| Requirement | Status |"; "|---|---|"; "| FR-2 | Done |";
   "| FR-1 | Pending |"; "| FR-1 | Done |"].

(** A plan with two sections; the second one does not mention FR-1. *)
Definition two_section_plan : list string :=
  ["## Login (FR-1)"; "- [x] form"; "## Reports (FR-2)"; "- [ ] **FR-3**: export";
   "- [ ] totals"].

(** The body of a test without its leading documentation string. *)
Definition without_docstring (body : list stmt) : list stmt :=
  match body with
  | Expr (Constant (CStr _)) :: tl => tl
  | _ => body
  end.

(** A body that is exactly one [pass]. *)
Definition only_pass (stmts : list stmt) : bool :=
  match stmts with
  | [Pass] => true
  | _ => false
  end.

(** A [pass] statement or an expression statement that is a constant. *)
Definition trivial_stmt (node : stmt) : bool :=
  match node with
  | Pass => true
  | Expr (Constant _) => true
  | _ => false
  end.

(** A statement that holds an [assert] outside nested function and class
    definitions: an [assert] itself, or a [with] block or another compound
    statement with such a statement among its sub-statements. *)
Inductive has_assert : stmt -> Prop :=
| has_assert_here (test : expr) (msg : option expr) : has_assert (Assert test msg)
| has_assert_with (items : list withitem) (body : list stmt) (s : stmt) :
    List.In s body -> has_assert s -> has_assert (With items body)
| has_assert_other (exprs : list expr) (stmts : list stmt) (s : stmt) :
    List.In s stmts -> has_assert s -> has_assert (OtherStmt exprs stmts).

(** The messages [check_test_integrity] can emit. *)
Definition always_pass_messages : list string :=
  ["Always-pass pattern: assert True"; "Always-pass pattern: assert 1";
   "Always-pass pattern: trivial comparison"].

Definition integrity_messages : list string :=
  ("Placeholder test (only pass statement)" :: always_pass_messages
   ++ ["No assertions found (placeholder test)"])%list.

(** The function definitions [analyze_test_file] looks at: those at the top
    level of the module and those directly in the body of a top-level class,
    in source order. *)
Definition is_function_def (node : stmt) : bool :=
  match node with
  | FunctionDef _ _ _ _ | AsyncFunctionDef _ _ _ _ => true
  | _ => false
  end.

Definition candidate_defs (tree_body : list stmt) : list stmt :=
  flat_map (fun node =>
              match node with
              | FunctionDef _ _ _ _ | AsyncFunctionDef _ _ _ _ => [node]
              | ClassDef _ class_body => filter is_function_def class_body
              | _ => []
              end) tree_body.

(** The record of one function definition, if it is a test. *)
Definition test_record (test_path : Path) (node : stmt) : list TestInfo.t :=
  match node with
  | FunctionDef name lineno decorator_list body
  | AsyncFunctionDef name lineno decorator_list body =>
      if Py.startswith name "test_"
      then [TestInfo.mk name test_path lineno (decorator_ids decorator_list)
              (check_test_integrity body)]
      else []
  | _ => []
  end.

(** A module with a test class, a helper and a test that nests a function
    named like a test. *)
Definition tree_class : list stmt :=
  [ClassDef "TestLogin"
     [FunctionDef "test_ok" 2 [] [Assert (Name "ok") None];
      FunctionDef "helper" 4 [] [Pass];
      ClassDef "Inner" [FunctionDef "test_hidden" 6 [] [Pass]]];
   FunctionDef "test_outer" 8 []
     [FunctionDef "test_handler" 9 [] [Pass]; Assert (Name "ok") None];
   AsyncFunctionDef "test_async" 12 [] [Pass]].

Definition class_parse (content : string) : parse_outcome := Mod tree_class.


(** A project tree with test files at several depths and in skipped
    directories. *)
Definition deep_project : Project :=
  mkProject ["srv"] None None
    [(["test_top.py"], ""); (["tests"; "unit"; "test_a.py"], "");
     ([".venv"; "lib"; "test_x.py"], ""); (["pkg.egg-info"; "test_y.py"], "");
     (["src"; "helper.py"], ""); (["src"; "test_.py"], "")].

(** A constant that is a string. *)
Definition is_str (c : constant) : bool :=
  match c with
  | CStr _ => true
  | _ => false
  end.

(** The requirement ids of every test in the list are strings. *)
Definition ids_are_strings (tests : list TestInfo.t) : bool :=
  forallb (fun t => forallb is_str (TestInfo.requirement_ids t)) tests.

(** A suspect test tagged with a number instead of a string:
    [@pytest.mark.requirement(7)] on a placeholder test. *)
Definition tree_numeric_tag : list stmt :=
  [FunctionDef "test_seven" 2
     [Call (Attribute (Attribute (Name "pytest") "mark") "requirement")
           [Constant (CInt 7)] []]
     [Pass]].

Definition numeric_parse (content : string) : parse_outcome := Mod tree_numeric_tag.

Definition numeric_project : Project :=
  mkProject ["srv"]
    (Some (doc ["- **FR-1**: log in"]))
    (Some (doc ["- [x] **FR-1**: do it"; "- [x] **FR-9**: extra"]))
    [(["test_seven.py"], "")].

Definition numeric_result : AuditResult.t :=
  audit_result numeric_parse first_seen_order numeric_project.

(** A project in sync: one requirement, planned, done and tested. *)
Definition clean_project : Project :=
  mkProject ["srv"]
    (Some (doc ["- **FR-1**: log in"]))
    (Some (doc ["- [x] **FR-1**: do it"]))
    [(["tests"; "test_one.py"], src_tagged)].

Definition clean_result : AuditResult.t :=
  audit_result sample_parse first_seen_order clean_project.

(** The text of a report that was rendered. *)
Definition rendered_text (r : AuditResult.t) (root : Path) : string :=
  match generate_report r root with
  | Ok text => text
  | Raise _ => ""
  end.

(** Ascending order of strings, as [sorted] produces it. *)
Definition str_le (a b : string) : Prop := String.leb a b = true.

(** The first character of a text that is not white space. *)
Fixpoint first_nonspace_chars (l : list ascii) : option ascii :=
  match l with
  | [] => None
  | c :: l' => if Py.is_space c then first_nonspace_chars l' else Some c
  end.

Definition first_nonspace (line : string) : option ascii :=
  first_nonspace_chars (list_ascii_of_string line).

(** A pattern matches the line. *)
Definition matches (ic : bool) (r : Re.re) (line : string) : Prop :=
  Re.re_match ic r line <> None.

(** The iteration of a star in [Re.run], by the number of rounds left. *)
Definition star_loop {A} (ic greedy : bool) (r1 : Re.re) (k : Re.mstate -> option A)
  : nat -> Re.mstate -> option A :=
  fix loop (fuel : nat) (s : Re.mstate) {struct fuel} : option A :=
    match fuel with
    | O => k s
    | S fuel' =>
        if greedy then
          match Re.run ic r1 s (fun s' =>
                   if Nat.ltb (List.length (Re.rest s')) (List.length (Re.rest s))
                   then loop fuel' s' else None) with
          | Some a => Some a
          | None => k s
          end
        else
          match k s with
          | Some a => Some a
          | None =>
              Re.run ic r1 s (fun s' =>
                   if Nat.ltb (List.length (Re.rest s')) (List.length (Re.rest s))
                   then loop fuel' s' else None)
          end
    end.

(* ------------------------------------------------------------------ *)
(** ** Template substitution of [init_project.py] *)

Module Init.

(** [s.replace(old, new)] for a non-empty [old]: occurrences are replaced
    from left to right and do not overlap.  [skip] counts the characters of a
    replaced occurrence that are still to be passed over. *)
Fixpoint replace_from (old new : string) (skip : nat) (s : string) : string :=
  match s with
  | EmptyString => EmptyString
  | String c s' =>
      match skip with
      | S n => replace_from old new n s'
      | O =>
          if String.prefix old s
          then new ++ replace_from old new (String.length old - 1) s'
          else String c (replace_from old new 0 s')
      end
  end.

Definition replace (old new s : string) : string := replace_from old new 0 s.

(** The placeholder of a key: the key between two pairs of braces. *)
Definition placeholder (key : string) : string := "{{" ++ key ++ "}}".

(** [substitute(content, substitutions)]; the dictionary is given by its
    items in insertion order. *)
Definition substitute (content : string) (substitutions : list (string * string)) : string :=
  fold_left (fun content kv => replace (placeholder (fst kv)) (snd kv) content)
            substitutions content.

(** The dictionary [subs] of [init_project]; [today] is
    [date.today().isoformat()]. *)
Definition subs (name description python_version today : string) : list (string * string) :=
  [("PROJECT_NAME", name); ("DESCRIPTION", description);
   ("PYTHON_VERSION", python_version); ("DATE", today)].

(** The character occurs in the text. *)
Fixpoint has_char (c : ascii) (s : string) : bool :=
  match s with
  | EmptyString => false
  | String d s' => (Ascii.eqb c d || has_char c s')%bool
  end.

End Init.

(** A plan in which the reference of the second task stands within five
    lines below the first task. *)
Definition bleeding_plan : list string :=
  ["- [x] **FR-1**: first"; "- [x] **FR-2**: second"; "  Tests: `test_second`";
   ""; ""; ""; ""; "  Tests: `test_late`"].

(** A plan whose checked task for FR-1 stands in the section of FR-1,
    between two table rows for FR-1, and is followed by another section with
    an unchecked task. *)
Definition busy_plan : list string :=
  ["## Auth (FR-1)"; "| FR-1 | Pending |"; "- [X] **FR-1**: do it";
   "  Tests: `test_a, test_b`"; "| FR-1 | Pending |"; "## Billing (FR-2)";
   "- [ ] **FR-2**: invoices"; "- [x] tidy up"].

(** No newline character in the text. *)
Definition one_line (s : string) : Prop := Init.has_char Py.newline s = false.

(** A plan whose task for FR-1 is followed by a heading that names FR-1. *)
Definition late_heading_plan : list string :=
  ["- [ ] **FR-1**: login form"; "  Tests: `test_login`"; "## Release notes (FR-1)";
   "free text"].
(* ================================================================== *)
(** * Properties *)

(* ------------------------------------------------------------------ *)
(** ** Dictionaries *)

Section DictFacts.

Context {V : Type}.

Lemma get_set (d : dict V) (k k' : string) (v : V) :
  Dict.get (Dict.set k v d) k' = if String.eqb k' k then Some v else Dict.get d k'.
Proof.
  induction d as [|[k0 v0] d IH]; simpl.
  - reflexivity.
  - destruct (String.eqb k k0) eqn:E; simpl.
    + apply String.eqb_eq in E; subst k0.
      destruct (String.eqb k' k); reflexivity.
    + rewrite IH.
      destruct (String.eqb k' k0) eqn:E0; [|reflexivity].
      apply String.eqb_eq in E0; subst k0.
      rewrite String.eqb_sym, E. reflexivity.
Qed.

Lemma get_set_same (d : dict V) (k : string) (v : V) :
  Dict.get (Dict.set k v d) k = Some v.
Proof. rewrite get_set, String.eqb_refl. reflexivity. Qed.

Lemma get_set_other (d : dict V) (k k' : string) (v : V) :
  k' <> k -> Dict.get (Dict.set k v d) k' = Dict.get d k'.
Proof.
  intros H. rewrite get_set.
  destruct (String.eqb k' k) eqn:E; [|reflexivity].
  apply String.eqb_eq in E. contradiction.
Qed.

Lemma mem_keys (d : dict V) (k : string) :
  List.In k (Dict.keys d) <-> Dict.mem k d = true.
Proof.
  unfold Dict.mem, Dict.keys.
  induction d as [|[k0 v0] d IH]; simpl.
  - split; [tauto | discriminate].
  - destruct (String.eqb k k0) eqn:E.
    + apply String.eqb_eq in E. subst. tauto.
    + apply String.eqb_neq in E. split.
      * intros [H | H]; [congruence | now apply IH].
      * intros H. right. now apply IH.
Qed.

Lemma mem_get (d : dict V) (k : string) :
  Dict.mem k d = true <-> exists v, Dict.get d k = Some v.
Proof.
  unfold Dict.mem. destruct (Dict.get d k) as [v|].
  - split; [eauto | reflexivity].
  - split; [discriminate | intros [v H]; discriminate].
Qed.

Lemma getitem_ok (d : dict V) (k : string) :
  Dict.mem k d = true -> exists v, getitem d k = Ok v.
Proof.
  intros H. apply mem_get in H. destruct H as [v H].
  exists v. unfold getitem. now rewrite H.
Qed.

End DictFacts.

(* ------------------------------------------------------------------ *)
(** ** Test integrity *)

(** C6.  A test whose body is an optional documentation string followed by
    exactly one [pass] statement gets exactly the one-element issue list
    "Placeholder test (only pass statement)": the check returns there and
    adds nothing else. *)
Theorem placeholder_only_pass (docstring : option string) :
  check_test_integrity (with_docstring docstring [Pass])
  = ["Placeholder test (only pass statement)"].
Proof. destruct docstring; reflexivity. Qed.

(** C1, as stated, fails: for the body [assert 1 == 1] the issue list holds
    the trivial-comparison flag but not the no-assertions flag. *)
Lemma tautology_both_flags_counterexample :
  ~ (List.In "Always-pass pattern: trivial comparison"
       (check_test_integrity [assert_1_eq_1])
     /\ List.In "No assertions found (placeholder test)"
          (check_test_integrity [assert_1_eq_1])).
Proof.
  intros [_ H]. vm_compute in H.
  destruct H as [H | []]. discriminate H.
Qed.

(** C1, amended.  A test whose body is an optional documentation string
    followed by the single statement [assert 1 == 1] gets exactly the issue
    list ["Always-pass pattern: trivial comparison"]: the assert statement is
    itself assertion evidence for [AssertionFinder], so the no-assertions flag
    is not raised. *)
Theorem tautology_only_trivial_comparison (docstring : option string) :
  check_test_integrity (with_docstring docstring [assert_1_eq_1])
  = ["Always-pass pattern: trivial comparison"].
Proof. destruct docstring; reflexivity. Qed.

(* ------------------------------------------------------------------ *)
(** ** Loops over enumerated lines *)

Lemma enumerate_app {A} (l1 l2 : list A) (start : nat) :
  Py.enumerate start (l1 ++ l2)
  = (Py.enumerate start l1 ++ Py.enumerate (start + List.length l1) l2)%list.
Proof.
  revert start. induction l1 as [|x l1 IH]; intros start; simpl.
  - now rewrite Nat.add_0_r.
  - rewrite IH. do 3 f_equal. lia.
Qed.

Lemma get_fold_set {V} (f : string -> V) (ids : list string) (d : dict V) (k : string) :
  Dict.get (fold_left (fun items req_id => Dict.set req_id (f req_id) items) ids d) k
  = if Py.mem k ids then Some (f k) else Dict.get d k.
Proof.
  revert d. induction ids as [|x ids IH]; intros d; simpl.
  - reflexivity.
  - rewrite IH, get_set. unfold Py.mem in *.
    destruct (existsb (String.eqb k) ids); simpl.
    + now rewrite orb_true_r.
    + rewrite orb_false_r. destruct (String.eqb k x) eqn:E; [|reflexivity].
      apply String.eqb_eq in E. now subst.
Qed.

Lemma mem_In (k : string) (l : list string) : Py.mem k l = true <-> List.In k l.
Proof.
  unfold Py.mem. rewrite existsb_exists. split.
  - intros [x [H E]]. apply String.eqb_eq in E. now subst.
  - intros H. exists k. split; [assumption | apply String.eqb_refl].
Qed.

(* ------------------------------------------------------------------ *)
(** ** Requirement extractor *)

Lemma prd_line_defines (i : nat) (line : string) (d : dict Requirement.t) :
  prd_line i line d
  = match prd_defines line with
    | Some (req_id, req_text) => Dict.set req_id (Requirement.mk req_id req_text i) d
    | None => d
    end.
Proof.
  unfold prd_line, prd_defines.
  destruct (Re.re_match false PRD_REQ_PATTERN line); [reflexivity|].
  destruct (Re.re_match false PRD_TABLE_REQ_PATTERN line); [reflexivity|].
  destruct (Re.re_match false PRD_HEADING_PATTERN line); reflexivity.
Qed.

Lemma prd_loop_keeps (post : list string) (start : nat) (d : dict Requirement.t)
  (id : string) (r : Requirement.t) :
  (forall l text', List.In l post -> prd_defines l <> Some (id, text')) ->
  Dict.get d id = Some r ->
  Dict.get (prd_loop (Py.enumerate start post) d) id = Some r.
Proof.
  revert start d. induction post as [|l post IH]; intros start d Hpost Hget; simpl.
  - assumption.
  - apply IH.
    + intros l' t' Hin. apply Hpost. now right.
    + rewrite prd_line_defines.
      destruct (prd_defines l) as [[id' text']|] eqn:E; [|assumption].
      rewrite get_set_other; [assumption|].
      intros ->. apply (Hpost l text'); [now left | assumption].
Qed.

(** C9.  When a line of the requirements document defines an id (through
    the list, the table or the heading form) and no later line defines the
    same id, the mapping built by [parse_prd] holds for that id exactly that
    line's text and its 1-based line number, whatever earlier lines defined
    for the id: the last occurrence wins. *)
Theorem parse_prd_last_wins (content : string) (pre post : list string)
  (line id text : string) :
  Py.split Py.newline content = (pre ++ line :: post)%list ->
  prd_defines line = Some (id, text) ->
  (forall l text', List.In l post -> prd_defines l <> Some (id, text')) ->
  Dict.get (parse_prd content) id
  = Some (Requirement.mk id text (S (List.length pre))).
Proof.
  intros Hsplit Hdef Hpost.
  unfold parse_prd, parse_prd_lines, prd_loop.
  rewrite Hsplit, enumerate_app, fold_left_app.
  simpl. apply (prd_loop_keeps post); [assumption|].
  rewrite prd_line_defines, Hdef, get_set_same.
  reflexivity.
Qed.

(** A requirements document that defines FR-1 three times, once in each
    form; the heading on line 4 is the last one. *)
Lemma parse_prd_last_wins_witness :
  Dict.get (parse_prd (doc ["- **FR-1**: first"; "| FR-1 | second | x |";
                            "- **FR-2**: other"; "### FR-1: third"; "closing words"]))
           "FR-1"
  = Some (Requirement.mk "FR-1" "third" 4).
Proof.
  apply (parse_prd_last_wins _
           ["- **FR-1**: first"; "| FR-1 | second | x |"; "- **FR-2**: other"]
           ["closing words"] "### FR-1: third" "FR-1" "third").
  - vm_compute. reflexivity.
  - vm_compute. reflexivity.
  - intros l text' [<- | []]. vm_compute. discriminate.
Defined.

(* ------------------------------------------------------------------ *)
(** ** Plan extractor *)

Section PlanLine.

Variables (lines : list string) (i : nat) (line : string).
Variables (plan_items : dict PlanItem.t) (current_section_reqs : list string).

Lemma plan_line_heading (text : string) :
  classify line = Heading text ->
  plan_line lines i line (plan_items, current_section_reqs)
  = match ids_in text with
    | _ :: _ =>
        (fold_left (fun items req_id =>
                      Dict.set req_id (PlanItem.mk req_id ("Section: " ++ text) true i []) items)
                   (ids_in text) plan_items,
         ids_in text)
    | [] => (plan_items, [])
    end.
Proof.
  unfold classify, plan_line, ids_in.
  destruct (Re.re_match false HEADER_PATTERN line).
  - intros [= <-]. reflexivity.
  - destruct (Re.re_match false PLAN_ITEM_PATTERN line); [discriminate|].
    destruct (Re.re_match false TASK_PATTERN line); [discriminate|].
    destruct (Re.re_match true PLAN_TABLE_PATTERN line); discriminate.
Qed.

Lemma plan_line_strict (status req_id text : string) :
  classify line = StrictTask status req_id text ->
  plan_line lines i line (plan_items, current_section_reqs)
  = (Dict.set req_id
       (PlanItem.mk req_id text (is_x status) i (find_test_refs lines i))
       (if negb (is_x status)
        then mark_incomplete current_section_reqs plan_items
        else plan_items),
     current_section_reqs).
Proof.
  unfold classify, plan_line.
  destruct (Re.re_match false HEADER_PATTERN line); [discriminate|].
  destruct (Re.re_match false PLAN_ITEM_PATTERN line).
  - intros [= <- <- <-]. reflexivity.
  - destruct (Re.re_match false TASK_PATTERN line); [discriminate|].
    destruct (Re.re_match true PLAN_TABLE_PATTERN line); discriminate.
Qed.

Lemma plan_line_loose (status text : string) :
  classify line = LooseTask status text ->
  plan_line lines i line (plan_items, current_section_reqs)
  = (fold_left (fun items req_id =>
                  Dict.set req_id
                    (PlanItem.mk req_id text (is_x status) i (find_test_refs lines i)) items)
               (ids_in text)
               (if negb (is_x status)
                then mark_incomplete current_section_reqs plan_items
                else plan_items),
     current_section_reqs).
Proof.
  unfold classify, plan_line, ids_in.
  destruct (Re.re_match false HEADER_PATTERN line); [discriminate|].
  destruct (Re.re_match false PLAN_ITEM_PATTERN line); [discriminate|].
  destruct (Re.re_match false TASK_PATTERN line).
  - intros [= <- <-]. reflexivity.
  - destruct (Re.re_match true PLAN_TABLE_PATTERN line); discriminate.
Qed.

Lemma plan_line_table (req_id status_text : string) :
  classify line = TableRow req_id status_text ->
  plan_line lines i line (plan_items, current_section_reqs)
  = if negb (Dict.mem req_id plan_items)
    then (Dict.set req_id
            (PlanItem.mk req_id ("Table entry: " ++ Py.strip line)
               (Py.mem status_text ["done"; "complete"; "yes"]) i [])
            plan_items,
          current_section_reqs)
    else (plan_items, current_section_reqs).
Proof.
  unfold classify, plan_line.
  destruct (Re.re_match false HEADER_PATTERN line); [discriminate|].
  destruct (Re.re_match false PLAN_ITEM_PATTERN line); [discriminate|].
  destruct (Re.re_match false TASK_PATTERN line); [discriminate|].
  destruct (Re.re_match true PLAN_TABLE_PATTERN line).
  - intros [= <- <-]. reflexivity.
  - discriminate.
Qed.

Lemma plan_line_ignored :
  classify line = Ignored ->
  plan_line lines i line (plan_items, current_section_reqs)
  = (plan_items, current_section_reqs).
Proof.
  unfold classify, plan_line.
  destruct (Re.re_match false HEADER_PATTERN line); [discriminate|].
  destruct (Re.re_match false PLAN_ITEM_PATTERN line); [discriminate|].
  destruct (Re.re_match false TASK_PATTERN line); [discriminate|].
  destruct (Re.re_match true PLAN_TABLE_PATTERN line); [discriminate|].
  reflexivity.
Qed.

End PlanLine.

Lemma set_completed_idem (b : bool) (p : PlanItem.t) :
  PlanItem.set_completed b (PlanItem.set_completed b p) = PlanItem.set_completed b p.
Proof. reflexivity. Qed.

Lemma get_mark_incomplete (cur : list string) (items : dict PlanItem.t) (k : string) :
  Dict.get (mark_incomplete cur items) k
  = if Py.mem k cur
    then option_map (PlanItem.set_completed false) (Dict.get items k)
    else Dict.get items k.
Proof.
  unfold mark_incomplete.
  revert items. induction cur as [|x cur IH]; intros items; simpl.
  - reflexivity.
  - rewrite IH. clear IH.
    assert (Hstep :
      Dict.get (match Dict.get items x with
                | Some item => Dict.set x (PlanItem.set_completed false item) items
                | None => items
                end) k
      = if String.eqb k x
        then option_map (PlanItem.set_completed false) (Dict.get items k)
        else Dict.get items k).
    { destruct (String.eqb k x) eqn:E.
      - apply String.eqb_eq in E. subst x.
        destruct (Dict.get items k) eqn:G; simpl.
        + now rewrite get_set_same.
        + now rewrite G.
      - destruct (Dict.get items x); [|reflexivity].
        now rewrite get_set, E. }
    rewrite Hstep. unfold Py.mem.
    destruct (String.eqb k x); simpl.
    + destruct (existsb (String.eqb k) cur); [|reflexivity].
      destruct (Dict.get items k); reflexivity.
    + reflexivity.
Qed.

(** C10.  A loose checkbox task line whose checkbox is neither [x] nor [X]
    leaves every id of [current_section_reqs] that has a plan item with
    [completed = false].  This does not depend on the ids the line itself
    mentions: when it mentions none, the step is exactly the revocation
    ([mark_incomplete]), which rewrites only the [completed] field of those
    items. *)
Theorem loose_incomplete_revokes_section (lines : list string) (i : nat)
  (line status text : string) (plan_items : dict PlanItem.t)
  (current_section_reqs : list string) :
  classify line = LooseTask status text ->
  is_x status = false ->
  (forall id item,
      List.In id current_section_reqs ->
      Dict.get plan_items id = Some item ->
      exists item',
        Dict.get (fst (plan_line lines i line (plan_items, current_section_reqs))) id
        = Some item'
        /\ PlanItem.completed item' = false)
  /\ (ids_in text = [] ->
      plan_line lines i line (plan_items, current_section_reqs)
      = (mark_incomplete current_section_reqs plan_items, current_section_reqs)
      /\ forall id item,
          List.In id current_section_reqs ->
          Dict.get plan_items id = Some item ->
          Dict.get (mark_incomplete current_section_reqs plan_items) id
          = Some (PlanItem.set_completed false item)).
Proof.
  intros Hk Hx.
  rewrite (plan_line_loose lines i line plan_items current_section_reqs status text Hk).
  rewrite Hx. simpl. split.
  - intros id item Hin Hget.
    rewrite get_fold_set.
    destruct (Py.mem id (ids_in text)).
    + eexists. split; reflexivity.
    + rewrite get_mark_incomplete.
      apply mem_In in Hin. rewrite Hin, Hget. simpl.
      eexists. split; reflexivity.
  - intros Hids. rewrite Hids. simpl. split; [reflexivity|].
    intros id item Hin Hget.
    rewrite get_mark_incomplete.
    apply mem_In in Hin. now rewrite Hin, Hget.
Qed.

(** After the heading of a section for FR-1 and NFR-2, a loose unchecked
    line that mentions no id revokes both. *)
Lemma loose_incomplete_revokes_section_witness :
  (forall id item,
      List.In id (snd login_state) ->
      Dict.get (fst login_state) id = Some item ->
      exists item',
        Dict.get (fst (plan_line login_lines 2 "- [ ] write the docs"
                         (fst login_state, snd login_state))) id
        = Some item'
        /\ PlanItem.completed item' = false)
  /\ (ids_in "write the docs" = [] ->
      plan_line login_lines 2 "- [ ] write the docs" (fst login_state, snd login_state)
      = (mark_incomplete (snd login_state) (fst login_state), snd login_state)
      /\ forall id item,
          List.In id (snd login_state) ->
          Dict.get (fst login_state) id = Some item ->
          Dict.get (mark_incomplete (snd login_state) (fst login_state)) id
          = Some (PlanItem.set_completed false item)).
Proof.
  apply (loose_incomplete_revokes_section login_lines 2 "- [ ] write the docs"
           " " "write the docs").
  - vm_compute. reflexivity.
  - vm_compute. reflexivity.
Defined.

Example login_state_value :
  login_state
  = ([("FR-1", PlanItem.mk "FR-1" "Section: Login (FR-1, NFR-2)" true 1 []);
      ("NFR-2", PlanItem.mk "NFR-2" "Section: Login (FR-1, NFR-2)" true 1 [])],
     ["FR-1"; "NFR-2"]).
Proof. vm_compute. reflexivity. Qed.

Example login_plan_value :
  parse_plan (doc login_lines)
  = [("FR-1", PlanItem.mk "FR-1" "Section: Login (FR-1, NFR-2)" false 1 []);
     ("NFR-2", PlanItem.mk "NFR-2" "Section: Login (FR-1, NFR-2)" false 1 [])].
Proof. vm_compute. reflexivity. Qed.

(** C5.  In a plan document that consists of a heading line embedding a
    requirement id (FR-2 in the specification) followed by an incomplete loose task
    line that references the same id, the final plan item of the id has
    [completed = false]: it is the item the loose line writes, on line 2,
    after the line revoked the heading's optimistic [completed = true]. *)
Theorem heading_then_incomplete_loose (content h l text status text' id : string) :
  Py.split Py.newline content = [h; l] ->
  classify h = Heading text ->
  List.In id (ids_in text) ->
  classify l = LooseTask status text' ->
  is_x status = false ->
  List.In id (ids_in text') ->
  Dict.get (parse_plan content) id
  = Some (PlanItem.mk id text' false 2 (find_test_refs [h; l] 2))
  /\ option_map PlanItem.completed (Dict.get (parse_plan content) id) = Some false.
Proof.
  intros Hsplit Hh Hid Hl Hx Hid'.
  assert (G : Dict.get (parse_plan content) id
              = Some (PlanItem.mk id text' false 2 (find_test_refs [h; l] 2))).
  { unfold parse_plan, parse_plan_lines, plan_loop. rewrite Hsplit.
    cbn [Py.enumerate fold_left fst snd].
    rewrite (plan_line_heading [h; l] 1 h _ _ text Hh).
    destruct (ids_in text) as [|x ids] eqn:E; [destruct Hid|].
    rewrite (plan_line_loose [h; l] 2 l _ _ status text' Hl).
    rewrite Hx. cbn [fst negb].
    rewrite get_fold_set.
    apply mem_In in Hid'. rewrite Hid'. reflexivity. }
  split; [exact G | now rewrite G].
Qed.

(** The document of the specification: a section heading for FR-2 and an
    unchecked sub-step. *)
Lemma heading_then_incomplete_loose_witness :
  Dict.get (parse_plan (doc ["### Section (FR-2)"; "- [ ] sub-step (FR-2)"])) "FR-2"
  = Some (PlanItem.mk "FR-2" "sub-step (FR-2)" false 2
            (find_test_refs ["### Section (FR-2)"; "- [ ] sub-step (FR-2)"] 2))
  /\ option_map PlanItem.completed
       (Dict.get (parse_plan (doc ["### Section (FR-2)"; "- [ ] sub-step (FR-2)"])) "FR-2")
     = Some false.
Proof.
  apply (heading_then_incomplete_loose _ "### Section (FR-2)" "- [ ] sub-step (FR-2)"
           "Section (FR-2)" " " "sub-step (FR-2)" "FR-2").
  - vm_compute. reflexivity.
  - vm_compute. reflexivity.
  - vm_compute. left. reflexivity.
  - vm_compute. reflexivity.
  - vm_compute. reflexivity.
  - vm_compute. left. reflexivity.
Defined.

Lemma plan_loop_keeps (lines post : list string) (start : nat) (st : plan_state)
  (id : string) (item : PlanItem.t) :
  (forall l, List.In l post -> table_or_ignored l) ->
  Dict.get (fst st) id = Some item ->
  Dict.get (fst (plan_loop lines (Py.enumerate start post) st)) id = Some item.
Proof.
  unfold plan_loop.
  revert start st. induction post as [|l post IH]; intros start [items cur] Hpost Hget.
  - assumption.
  - cbn [Py.enumerate fold_left fst snd].
    assert (Hl : table_or_ignored l) by (apply Hpost; now left).
    assert (Hstep : exists items',
               plan_line lines start l (items, cur) = (items', cur)
               /\ Dict.get items' id = Some item).
    { destruct Hl as [[req_id [status_text Hk]] | Hk].
      - rewrite (plan_line_table lines start l items cur req_id status_text Hk).
        destruct (Dict.mem req_id items) eqn:M; cbn [negb].
        + eexists. split; [reflexivity | exact Hget].
        + eexists. split; [reflexivity|].
          rewrite get_set_other; [exact Hget|].
          intros ->. unfold Dict.mem in M. cbn [fst] in Hget. now rewrite Hget in M.
      - rewrite (plan_line_ignored lines start l items cur Hk).
        eexists. split; [reflexivity | exact Hget]. }
    destruct Hstep as [items' [-> Hget']].
    apply IH; [|exact Hget'].
    intros l' Hin. apply Hpost. now right.
Qed.

(** C4, as stated, fails: this plan contains a table row for FR-1 with
    status Pending and a strict task line for FR-1 with checkbox [x], yet the
    final plan item of FR-1 is the one written by the later loose line, with
    [completed = false]. *)
Lemma plan_precedence_counterexample :
  classify "| FR-1 | Pending |" = TableRow "FR-1" "pending"
  /\ classify "- [x] **FR-1**: do it" = StrictTask "x" "FR-1" "do it"
  /\ Dict.get (parse_plan (doc overwritten_plan)) "FR-1"
     = Some (PlanItem.mk "FR-1" "follow-up for FR-1" false 3 [])
  /\ option_map PlanItem.completed (Dict.get (parse_plan (doc overwritten_plan)) "FR-1")
     <> Some true.
Proof.
  repeat split; try (vm_compute; reflexivity).
  vm_compute. discriminate.
Qed.

(** The two orderings of a table row and a checked strict task line do not
    give the same entry either: the line number is the task line's own, and
    so is the window searched for test references.  What does hold of a
    checked strict task line is proved further down, with the lemmas on
    single lines. *)
Example plan_orderings_differ :
  Dict.get (parse_plan (doc table_first_plan)) "FR-1"
  = Some (PlanItem.mk "FR-1" "do it" true 2 [])
  /\ Dict.get (parse_plan (doc task_first_plan)) "FR-1"
     = Some (PlanItem.mk "FR-1" "do it" true 1 ["test_a"]).
Proof. split; vm_compute; reflexivity. Qed.

Example mixed_plan_value :
  parse_plan (doc mixed_plan)
  = [("FR-1", PlanItem.mk "FR-1" "do it" true 3 ["test_a"; "test_b"]);
     ("FR-2", PlanItem.mk "FR-2" "Table entry: | FR-2 | Done |" true 6 [])].
Proof. vm_compute. reflexivity. Qed.

(* ------------------------------------------------------------------ *)
(** ** Test analyzer *)

Lemma for_each_app {A B} (f : A -> result B) (l1 l2 : list A) :
  for_each f (l1 ++ l2)
  = (xs <- for_each f l1 ;; ys <- for_each f l2 ;; Ok (xs ++ ys)%list).
Proof.
  induction l1 as [|x l1 IH]; simpl.
  - destruct (for_each f l2); reflexivity.
  - destruct (f x) as [y|e]; simpl; [|reflexivity].
    rewrite IH. destruct (for_each f l1); simpl; [|reflexivity].
    destruct (for_each f l2); reflexivity.
Qed.

(** C8.  When the text of a test file does not parse ([ast.parse] raises
    [SyntaxError]), [analyze_test_file] returns the empty list of test records
    and raises nothing; the loop over the test files goes on, and collects
    exactly what it collects without that file. *)
Theorem syntax_error_file_is_skipped (ast_parse : string -> parse_outcome)
  (p : Project) (f : Path) :
  ast_parse (read_text p f) = SyntaxError ->
  analyze_test_file ast_parse f (read_text p f) = Ok []
  /\ forall before after : list Path,
       collect_tests ast_parse p (before ++ f :: after)
       = collect_tests ast_parse p (before ++ after).
Proof.
  intros H.
  assert (A : analyze_test_file ast_parse f (read_text p f) = Ok []).
  { unfold analyze_test_file. now rewrite H. }
  split; [exact A|].
  intros before after. unfold collect_tests.
  rewrite !for_each_app. simpl. rewrite A.
  destruct (for_each _ before) as [xs|e]; simpl; [|reflexivity].
  destruct (for_each _ after) as [ys|e]; simpl; [|reflexivity].
  now rewrite !concat_app.
Qed.

Lemma syntax_error_file_is_skipped_witness :
  analyze_test_file sample_parse ["home"; "dev"; "shop"; "tests"; "test_broken.py"]
    (read_text scenario_project ["home"; "dev"; "shop"; "tests"; "test_broken.py"])
  = Ok []
  /\ forall before after : list Path,
       collect_tests sample_parse scenario_project
         (before ++ ["home"; "dev"; "shop"; "tests"; "test_broken.py"] :: after)
       = collect_tests sample_parse scenario_project (before ++ after).
Proof.
  apply (syntax_error_file_is_skipped sample_parse scenario_project).
  vm_compute. reflexivity.
Defined.

(* ------------------------------------------------------------------ *)
(** ** Reconciler *)

Lemma pyeq_str (x : string) (c : constant) : PyEq.eq (CStr x) c = true <-> c = CStr x.
Proof.
  destruct c; simpl; try (split; [discriminate | intros [=]]).
  split.
  - intros H. apply String.eqb_eq in H. now subst.
  - intros [= ->]. apply String.eqb_refl.
Qed.

Lemma str_in_In (x : string) (ids : list constant) :
  str_in x ids = true <-> List.In (CStr x) ids.
Proof.
  unfold str_in. rewrite existsb_exists. split.
  - intros [c [Hin E]]. apply pyeq_str in E. now subst.
  - intros H. exists (CStr x). split; [assumption | now apply pyeq_str].
Qed.

Lemma no_test_coverage_spec (requirements : dict Requirement.t)
  (plan_items : dict PlanItem.t) (tests : list TestInfo.t) (R : string) :
  List.In R (AuditResult.no_test_coverage (reconcile requirements plan_items tests))
  <-> Dict.mem R requirements = true
      /\ forall t, List.In t tests -> ~ List.In (CStr R) (TestInfo.requirement_ids t).
Proof.
  unfold reconcile; cbn [AuditResult.no_test_coverage].
  rewrite filter_In, mem_keys, negb_true_iff.
  split; intros [Hm Hc]; (split; [exact Hm|]).
  - intros t Ht Hin.
    assert (S : str_in R (flat_map TestInfo.requirement_ids tests) = true).
    { apply str_in_In, in_flat_map. now exists t. }
    congruence.
  - destruct (str_in R (flat_map TestInfo.requirement_ids tests)) eqn:S; [|reflexivity].
    apply str_in_In, in_flat_map in S. destruct S as [t [Ht Hin]].
    destruct (Hc t Ht Hin).
Qed.

Lemma run_audit_reconcile (ast_parse : string -> parse_outcome)
  (set_iter : list Path -> list Path) (p : Project) (r : AuditResult.t) :
  run_audit ast_parse set_iter p = Ok r ->
  exists tests,
    collect_tests ast_parse p (find_test_files set_iter p) = Ok tests
    /\ r = reconcile (AuditResult.requirements r) (AuditResult.plan_items r) tests.
Proof.
  unfold run_audit.
  destruct (collect_tests ast_parse p (find_test_files set_iter p)) as [tests|e]; simpl.
  - intros [= <-]. exists tests. split; reflexivity.
  - discriminate.
Qed.

(** C3.  When the audit of a project returns a result, its requirements
    mapping is the one [parse_prd] reads from the PRD (empty without a PRD),
    its test records are the ones [analyze_test_file] extracts from the files
    [find_test_files] lists in the project, one file after the other, and for
    every requirement id R of the requirements mapping: [no_test_coverage]
    contains R if and only if none of these test records has R among its
    [requirement_ids]. *)
Theorem coverage_join (ast_parse : string -> parse_outcome)
  (set_iter : list Path -> list Path) (p : Project) (r : AuditResult.t) (R : string) :
  run_audit ast_parse set_iter p = Ok r ->
  Dict.mem R (AuditResult.requirements r) = true ->
  exists per_file,
    for_each (fun test_file =>
                analyze_test_file ast_parse test_file (read_text p test_file))
             (find_test_files set_iter p)
    = Ok per_file
    /\ AuditResult.tests r = concat per_file
    /\ AuditResult.requirements r
       = match prd p with
         | Some content => parse_prd content
         | None => Dict.empty
         end
    /\ (List.In R (AuditResult.no_test_coverage r)
        <-> forall records t,
              List.In records per_file -> List.In t records ->
              ~ List.In (CStr R) (TestInfo.requirement_ids t)).
Proof.
  unfold run_audit, collect_tests.
  destruct (for_each _ (find_test_files set_iter p)) as [per_file|e];
    cbn [bind]; [|discriminate].
  intros [= <-] Hmem. cbn [reconcile AuditResult.requirements] in Hmem.
  exists per_file. split; [reflexivity|]. split; [reflexivity|]. split; [reflexivity|].
  rewrite no_test_coverage_spec. split.
  - intros [_ H] records t Hrec Ht. apply H. apply in_concat. now exists records.
  - intros H. split; [exact Hmem|]. intros t Ht.
    apply in_concat in Ht. destruct Ht as [records [Hrec Ht]]. now apply (H records).
Qed.

(** In the end-to-end scenario the two test files give one record, tagged
    FR-1, and no record at all; FR-2 is not covered. *)
Lemma coverage_join_witness :
  exists per_file,
    for_each (fun test_file =>
                analyze_test_file sample_parse test_file
                  (read_text scenario_project test_file))
             (find_test_files first_seen_order scenario_project)
    = Ok per_file
    /\ AuditResult.tests scenario_result = concat per_file
    /\ AuditResult.requirements scenario_result
       = match prd scenario_project with
         | Some content => parse_prd content
         | None => Dict.empty
         end
    /\ (List.In "FR-2" (AuditResult.no_test_coverage scenario_result)
        <-> forall records t,
              List.In records per_file -> List.In t records ->
              ~ List.In (CStr "FR-2") (TestInfo.requirement_ids t)).
Proof.
  apply (coverage_join sample_parse first_seen_order scenario_project).
  - vm_compute. reflexivity.
  - vm_compute. reflexivity.
Defined.

(** The end-to-end scenario, evaluated. *)
Example scenario_result_value :
  AuditResult.tests scenario_result
  = [TestInfo.mk "test_one" ["home"; "dev"; "shop"; "tests"; "test_one.py"] 4
       [CStr "FR-1"] []]
  /\ AuditResult.prd_not_in_plan scenario_result = ["FR-2"]
  /\ AuditResult.plan_not_in_prd scenario_result = []
  /\ AuditResult.no_test_coverage scenario_result = ["FR-2"]
  /\ AuditResult.suspect_tests scenario_result = []
  /\ AuditResult.completion_issues scenario_result = []
  /\ exit_status (main sample_parse first_seen_order scenario_project) = 1.
Proof. vm_compute. repeat split; reflexivity. Qed.

(* ------------------------------------------------------------------ *)
(** ** Report and exit status *)

Lemma for_each_ok {A B} (f : A -> result B) (l : list A) :
  (forall x, List.In x l -> exists y, f x = Ok y) ->
  exists ys, for_each f l = Ok ys.
Proof.
  induction l as [|x l IH]; intros H; simpl.
  - now exists [].
  - destruct (H x (or_introl eq_refl)) as [y ->].
    destruct IH as [ys ->]; [intros x' Hx'; apply H; now right|].
    simpl. now exists (y :: ys).
Qed.

Lemma In_insert_sorted (x y : string) (l : list string) :
  List.In x (insert_sorted y l) <-> x = y \/ List.In x l.
Proof.
  induction l as [|z l IH]; simpl.
  - intuition.
  - destruct (String.leb y z); simpl; rewrite ?IH; intuition.
Qed.

Lemma In_sorted (x : string) (l : list string) : List.In x (sorted l) <-> List.In x l.
Proof.
  unfold sorted. induction l as [|y l IH]; simpl.
  - tauto.
  - rewrite In_insert_sorted, IH. intuition.
Qed.

Lemma length_zero_nil {A} (l : list A) : List.length l = 0 -> l = [].
Proof. destruct l; [reflexivity | discriminate]. Qed.

Lemma exit_total_zero (r : AuditResult.t) :
  exit_total r = 0 ->
  AuditResult.prd_not_in_plan r = [] /\ AuditResult.plan_not_in_prd r = []
  /\ AuditResult.suspect_tests r = [] /\ AuditResult.completion_issues r = [].
Proof.
  unfold exit_total. intros H.
  repeat split; apply length_zero_nil; lia.
Qed.

(** The fourteenth line of the report is the total line, and the total
    counts all five collections. *)
Lemma report_lines_total (r : AuditResult.t) (root : Path) (lines : list string) :
  report_lines r root = Ok lines ->
  nth 13 lines "" = total_line (report_total r).
Proof.
  unfold report_lines.
  destruct (prd_not_in_plan_lines r); [|discriminate].
  destruct (plan_not_in_prd_lines r); [|discriminate].
  destruct (no_test_coverage_lines r); [|discriminate].
  destruct (suspect_tests_lines r root); [|discriminate].
  destruct (completion_issues_lines r); [|discriminate].
  cbn [bind]. intros [= <-].
  unfold summary_lines. cbn [app nth]. reflexivity.
Qed.

(** A result of the reconciler whose four exit-relevant collections are
    empty can always be rendered. *)
Lemma report_lines_ok (requirements : dict Requirement.t) (plan_items : dict PlanItem.t)
  (tests : list TestInfo.t) (root : Path) :
  let r := reconcile requirements plan_items tests in
  exit_total r = 0 -> exists lines, report_lines r root = Ok lines.
Proof.
  intros r H. destruct (exit_total_zero r H) as [H1 [H2 [H4 H5]]].
  assert (H3 : exists s3, no_test_coverage_lines r = Ok s3).
  { unfold no_test_coverage_lines.
    destruct (nonempty (AuditResult.no_test_coverage r)); [|eauto].
    destruct (for_each_ok
                (fun req_id =>
                   req <- getitem (AuditResult.requirements r) req_id ;;
                   Ok ("- **" ++ req_id ++ "**: " ++ Requirement.text req))
                (sorted (AuditResult.no_test_coverage r))) as [items E].
    - intros x Hx. apply (proj1 (In_sorted _ _)) in Hx.
      apply (proj1 (no_test_coverage_spec _ _ _ _)) in Hx. destruct Hx as [Hm _].
      destruct (getitem_ok requirements x Hm) as [v Hv].
      cbn [r reconcile AuditResult.requirements]. rewrite Hv. simpl. eauto.
    - rewrite E. simpl. eauto. }
  destruct H3 as [s3 H3].
  unfold report_lines, prd_not_in_plan_lines, plan_not_in_prd_lines,
    suspect_tests_lines, completion_issues_lines.
  rewrite H1, H2, H4, H5, H3. cbn [nonempty bind]. eauto.
Qed.

(** C2.  For the result of an audit, [main] exits with status 0 exactly
    when [prd_not_in_plan], [plan_not_in_prd], [suspect_tests] and
    [completion_issues] are all empty; [no_test_coverage] is not in that sum.
    The total on the fourteenth line of the report counts all five
    collections.  So when only [no_test_coverage] is non-empty the exit status
    is 0 and the report shows a total greater than zero. *)
Theorem exit_status_excludes_no_test_coverage (ast_parse : string -> parse_outcome)
  (set_iter : list Path -> list Path) (p : Project) (r : AuditResult.t) :
  run_audit ast_parse set_iter p = Ok r ->
  let o := finish r (project_root p) in
  let four :=
    List.length (AuditResult.prd_not_in_plan r) + List.length (AuditResult.plan_not_in_prd r)
    + List.length (AuditResult.suspect_tests r) + List.length (AuditResult.completion_issues r) in
  let five := four + List.length (AuditResult.no_test_coverage r) in
  (exit_status o = 0 <-> four = 0)
  /\ (forall lines, report_lines r (project_root p) = Ok lines ->
                    nth 13 lines "" = total_line five)
  /\ (four = 0 -> AuditResult.no_test_coverage r <> [] ->
      exit_status o = 0
      /\ exists lines,
          report o = Some (Py.join Py.nl lines)
          /\ nth 13 lines ""
             = "**Total issues found: "
                 ++ Py.str_of_nat (List.length (AuditResult.no_test_coverage r)) ++ "**"
          /\ 0 < List.length (AuditResult.no_test_coverage r)).
Proof.
  intros Hrun o four five.
  destruct (run_audit_reconcile _ _ _ _ Hrun) as [tests [_ Hr]].
  assert (Hfour : four = exit_total r) by reflexivity.
  assert (Hfive : five = report_total r) by (unfold five, four, report_total; lia).
  assert (Hclean : four = 0 ->
            exists lines, report_lines r (project_root p) = Ok lines
                          /\ o = mkOutcome 0 (Some (Py.join Py.nl lines))).
  { intros H0. rewrite Hfour in H0.
    destruct (report_lines_ok (AuditResult.requirements r) (AuditResult.plan_items r)
                tests (project_root p)) as [lines Hl].
    - cbn zeta. now rewrite <- Hr.
    - cbn zeta in Hl. rewrite <- Hr in Hl.
      exists lines. split; [exact Hl|].
      unfold o, finish, generate_report. rewrite Hl. cbn [bind]. now rewrite H0. }
  split; [|split].
  - split.
    + unfold o, finish. destruct (generate_report r (project_root p)); cbn [exit_status].
      * rewrite Hfour. destruct (exit_total r); [reflexivity | discriminate].
      * discriminate.
    + intros H0. destruct (Hclean H0) as [lines [_ ->]]. reflexivity.
  - intros lines Hl. rewrite Hfive. now apply report_lines_total with (root := project_root p).
  - intros H0 Hne. destruct (Hclean H0) as [lines [Hl Ho]].
    split; [now rewrite Ho|].
    exists lines. split; [now rewrite Ho|].
    assert (Hpos : 0 < List.length (AuditResult.no_test_coverage r)).
    { destruct (AuditResult.no_test_coverage r); [congruence | simpl; lia]. }
    split; [|exact Hpos].
    rewrite (report_lines_total _ _ _ Hl), <- Hfive.
    unfold five. rewrite H0. cbn [Nat.add]. unfold total_line.
    destruct (List.length (AuditResult.no_test_coverage r)); [lia | reflexivity].
Qed.

Lemma exit_status_excludes_no_test_coverage_witness :
  exit_status (finish uncovered_result (project_root uncovered_project)) = 0
  /\ exists lines,
      report (finish uncovered_result (project_root uncovered_project))
      = Some (Py.join Py.nl lines)
      /\ nth 13 lines ""
         = "**Total issues found: "
             ++ Py.str_of_nat (List.length (AuditResult.no_test_coverage uncovered_result))
             ++ "**"
      /\ 0 < List.length (AuditResult.no_test_coverage uncovered_result).
Proof.
  destruct (exit_status_excludes_no_test_coverage sample_parse first_seen_order
              uncovered_project uncovered_result) as [_ [_ H]].
  - vm_compute. reflexivity.
  - apply H.
    + vm_compute. reflexivity.
    + vm_compute. discriminate.
Defined.

(** The project where only test coverage is missing, evaluated. *)
Example uncovered_project_value :
  AuditResult.no_test_coverage uncovered_result = ["FR-1"]
  /\ exit_total uncovered_result = 0
  /\ exit_status (main sample_parse first_seen_order uncovered_project) = 0
  /\ option_map (fun text => nth 13 (Py.split Py.newline text) "")
       (report (main sample_parse first_seen_order uncovered_project))
     = Some "**Total issues found: 1**".
Proof. vm_compute. repeat split; reflexivity. Qed.

(* ------------------------------------------------------------------ *)
(** ** The order of the test files *)

Lemma existsb_perm {A} (f : A -> bool) (l1 l2 : list A) :
  Permutation l1 l2 -> existsb f l1 = existsb f l2.
Proof.
  induction 1; simpl; try congruence.
  destruct (f x), (f y); reflexivity.
Qed.

Lemma filter_perm {A} (f : A -> bool) (l1 l2 : list A) :
  Permutation l1 l2 -> Permutation (filter f l1) (filter f l2).
Proof.
  induction 1; simpl.
  - constructor.
  - destruct (f x); [now constructor | assumption].
  - destruct (f x), (f y); try apply Permutation_refl. constructor.
  - eapply Permutation_trans; eassumption.
Qed.

Lemma concat_perm {A} (l1 l2 : list (list A)) :
  Permutation l1 l2 -> Permutation (concat l1) (concat l2).
Proof.
  induction 1; simpl.
  - constructor.
  - now apply Permutation_app_head.
  - rewrite !app_assoc. apply Permutation_app_tail, Permutation_app_comm.
  - eapply Permutation_trans; eassumption.
Qed.

Lemma nonempty_perm {A} (l1 l2 : list A) :
  Permutation l1 l2 -> nonempty l1 = nonempty l2.
Proof.
  intros H. destruct l1, l2; try reflexivity.
  - apply Permutation_nil in H. discriminate.
  - apply Permutation_sym, Permutation_nil in H. discriminate.
Qed.

Lemma both_trans {A} (R : A -> A -> Prop) (r1 r2 r3 : result A) :
  (forall a b c, R a b -> R b c -> R a c) ->
  both R r1 r2 -> both R r2 r3 -> both R r1 r3.
Proof.
  intros HR. destruct r1, r2, r3; simpl; try tauto. apply HR.
Qed.

Lemma for_each_perm {A B} (f : A -> result B) (l1 l2 : list A) :
  Permutation l1 l2 -> both (@Permutation B) (for_each f l1) (for_each f l2).
Proof.
  induction 1; simpl.
  - constructor.
  - destruct (f x); simpl; [|exact I].
    destruct (for_each f l), (for_each f l'); simpl in *; try tauto.
    now constructor.
  - destruct (f x), (f y); simpl; try exact I.
    destruct (for_each f l); simpl; [constructor | exact I].
  - eapply both_trans; [|eassumption..]. apply Permutation_trans.
Qed.

Lemma flat_map_perm {A B} (f : A -> list B) (l1 l2 : list A) :
  Permutation l1 l2 -> Permutation (flat_map f l1) (flat_map f l2).
Proof.
  induction 1; simpl.
  - constructor.
  - now apply Permutation_app_head.
  - rewrite !app_assoc. apply Permutation_app_tail, Permutation_app_comm.
  - eapply Permutation_trans; eassumption.
Qed.

Lemma has_tests_perm (x : string) (t1 t2 : list TestInfo.t) :
  Permutation t1 t2 -> has_tests x t1 = has_tests x t2.
Proof. apply existsb_perm. Qed.

Lemma reconcile_perm (requirements : dict Requirement.t) (plan_items : dict PlanItem.t)
  (t1 t2 : list TestInfo.t) :
  Permutation t1 t2 ->
  same_but_test_order (reconcile requirements plan_items t1)
                      (reconcile requirements plan_items t2).
Proof.
  intros H. unfold same_but_test_order, reconcile.
  cbn [AuditResult.requirements AuditResult.plan_items AuditResult.tests
       AuditResult.prd_not_in_plan AuditResult.plan_not_in_prd
       AuditResult.no_test_coverage AuditResult.suspect_tests
       AuditResult.completion_issues].
  repeat split; try reflexivity.
  - exact H.
  - apply filter_ext. intros x. f_equal.
    apply existsb_perm, flat_map_perm, H.
  - apply filter_perm, H.
  - apply flat_map_ext. intros [plan_id plan_item].
    now rewrite (has_tests_perm plan_id t1 t2 H).
Qed.

Lemma collect_tests_perm (ast_parse : string -> parse_outcome) (p : Project)
  (l1 l2 : list Path) :
  Permutation l1 l2 ->
  both (@Permutation TestInfo.t) (collect_tests ast_parse p l1) (collect_tests ast_parse p l2).
Proof.
  intros H. unfold collect_tests.
  pose proof (for_each_perm
                (fun test_file =>
                   analyze_test_file ast_parse test_file (read_text p test_file))
                l1 l2 H) as F.
  destruct (for_each _ l1), (for_each _ l2); simpl in *; try tauto.
  now apply concat_perm.
Qed.

Section SameButTestOrder.

Variables (r1 r2 : AuditResult.t) (root : Path).
Hypothesis Hsame : same_but_test_order r1 r2.

Lemma same_fixed_sections :
  summary_lines r1 root = summary_lines r2 root
  /\ report_total r1 = report_total r2
  /\ exit_total r1 = exit_total r2
  /\ prd_not_in_plan_lines r1 = prd_not_in_plan_lines r2
  /\ plan_not_in_prd_lines r1 = plan_not_in_prd_lines r2
  /\ no_test_coverage_lines r1 = no_test_coverage_lines r2
  /\ completion_issues_lines r1 = completion_issues_lines r2
  /\ matrix_lines r1 = matrix_lines r2.
Proof.
  destruct Hsame as (Hreq & Hplan & Htests & H1 & H2 & H3 & H4 & H5).
  pose proof (Permutation_length Htests) as Lt.
  pose proof (Permutation_length H4) as Ls.
  repeat split.
  - unfold summary_lines. now rewrite Hreq, Hplan, Lt.
  - unfold report_total. now rewrite H1, H2, H3, H5, Ls.
  - unfold exit_total. now rewrite H1, H2, H5, Ls.
  - unfold prd_not_in_plan_lines. now rewrite H1, Hreq.
  - unfold plan_not_in_prd_lines. now rewrite H2, Hplan.
  - unfold no_test_coverage_lines. now rewrite H3, Hreq.
  - unfold completion_issues_lines. now rewrite H5, Hplan.
  - unfold matrix_lines. rewrite Hreq. do 2 f_equal.
    apply map_ext. intros x. unfold matrix_row.
    now rewrite Hplan, (has_tests_perm x _ _ Htests).
Qed.

Lemma same_suspect_section :
  both (fun _ _ => True) (suspect_tests_lines r1 root) (suspect_tests_lines r2 root).
Proof.
  destruct Hsame as (_ & _ & _ & _ & _ & _ & H4 & _).
  unfold suspect_tests_lines. rewrite (nonempty_perm _ _ H4).
  destruct (nonempty (AuditResult.suspect_tests r2)); [|exact I].
  pose proof (for_each_perm (suspect_test_lines root) _ _ H4) as F.
  destruct (for_each _ (AuditResult.suspect_tests r1)),
           (for_each _ (AuditResult.suspect_tests r2)); simpl in *; tauto.
Qed.

Lemma same_report_kind :
  both (fun _ _ => True) (report_lines r1 root) (report_lines r2 root).
Proof.
  destruct same_fixed_sections as (E0 & Et & _ & E1 & E2 & E3 & E5 & Em).
  pose proof same_suspect_section as E4.
  unfold report_lines. rewrite E0, Et, E1, E2, E3, E5, Em.
  destruct (prd_not_in_plan_lines r2); [|exact I].
  destruct (plan_not_in_prd_lines r2); [|exact I].
  destruct (no_test_coverage_lines r2); [|exact I].
  cbn [bind].
  destruct (suspect_tests_lines r1 root), (suspect_tests_lines r2 root);
    simpl in E4; try tauto; cbn [bind]; try exact I.
  destruct (completion_issues_lines r2); exact I.
Qed.

Lemma same_report_lines :
  AuditResult.suspect_tests r1 = AuditResult.suspect_tests r2 ->
  report_lines r1 root = report_lines r2 root.
Proof.
  intros Hs.
  destruct same_fixed_sections as (E0 & Et & _ & E1 & E2 & E3 & E5 & Em).
  assert (E4 : suspect_tests_lines r1 root = suspect_tests_lines r2 root).
  { unfold suspect_tests_lines. now rewrite Hs. }
  unfold report_lines. now rewrite E0, Et, E1, E2, E3, E4, E5, Em.
Qed.

Lemma same_exit_status :
  exit_status (finish r1 root) = exit_status (finish r2 root).
Proof.
  destruct same_fixed_sections as (_ & _ & Ex & _).
  pose proof same_report_kind as K.
  unfold finish, generate_report. rewrite Ex.
  destruct (report_lines r1 root), (report_lines r2 root); simpl in K; try tauto;
    reflexivity.
Qed.

Lemma same_finish :
  AuditResult.suspect_tests r1 = AuditResult.suspect_tests r2 ->
  finish r1 root = finish r2 root.
Proof.
  intros Hs.
  destruct same_fixed_sections as (_ & _ & Ex & _).
  unfold finish, generate_report. now rewrite (same_report_lines Hs), Ex.
Qed.

End SameButTestOrder.

Lemma set_iter_perm (o1 o2 : list Path -> list Path) (l : list Path) :
  set_iter_ok o1 -> set_iter_ok o2 -> Permutation (o1 l) (o2 l).
Proof.
  intros H1 H2. eapply Permutation_trans; [apply H1 | apply Permutation_sym, H2].
Qed.

Lemma first_seen_order_ok : set_iter_ok first_seen_order.
Proof. intros l. apply Permutation_refl. Qed.

Lemma reversed_order_ok : set_iter_ok reversed_order.
Proof. intros l. apply Permutation_sym, Permutation_rev. Qed.

(** C7, as stated, fails: the same project, audited with two iteration
    orders of the set of test files, gives two different report texts. *)
Lemma report_order_counterexample :
  set_iter_ok first_seen_order
  /\ set_iter_ok reversed_order
  /\ report (main sample_parse first_seen_order suspect_project)
     <> report (main sample_parse reversed_order suspect_project).
Proof.
  split; [apply first_seen_order_ok|].
  split; [apply reversed_order_ok|].
  intros H.
  assert (E : option_map (fun text => nth 41 (Py.split Py.newline text) "")
                (report (main sample_parse first_seen_order suspect_project))
              = option_map (fun text => nth 41 (Py.split Py.newline text) "")
                  (report (main sample_parse reversed_order suspect_project)))
    by now rewrite H.
  vm_compute in E. discriminate E.
Qed.

(** C7, amended.  For any two iteration orders of the set of test files,
    two runs on the same project end with the same exit status, and they
    write the same report whenever they list the suspect tests in the same
    sequence; all other parts of the report do not depend on the order. *)
Theorem report_same_up_to_suspect_order (ast_parse : string -> parse_outcome)
  (o1 o2 : list Path -> list Path) (p : Project) :
  set_iter_ok o1 ->
  set_iter_ok o2 ->
  exit_status (main ast_parse o1 p) = exit_status (main ast_parse o2 p)
  /\ (AuditResult.suspect_tests (audit_result ast_parse o1 p)
      = AuditResult.suspect_tests (audit_result ast_parse o2 p) ->
      main ast_parse o1 p = main ast_parse o2 p).
Proof.
  intros H1 H2.
  unfold main, audit_result, run_audit, find_test_files.
  destruct (prd p); [|split; reflexivity].
  destruct (plan p); [|split; reflexivity].
  pose proof (collect_tests_perm ast_parse p _ _
                (set_iter_perm o1 o2 (candidate_test_files p) H1 H2)) as C.
  destruct (collect_tests ast_parse p (o1 (candidate_test_files p))) as [t1|e1],
           (collect_tests ast_parse p (o2 (candidate_test_files p))) as [t2|e2];
    simpl in C; try tauto; cbn [bind]; try (split; reflexivity).
  pose proof (reconcile_perm (parse_prd s) (parse_plan s0) t1 t2 C) as S.
  split.
  - now apply same_exit_status.
  - intros Hs. now apply same_finish.
Qed.

(** The end-to-end scenario has no suspect test: both orders give the same
    outcome. *)
Lemma report_same_up_to_suspect_order_witness :
  exit_status (main sample_parse first_seen_order scenario_project)
  = exit_status (main sample_parse reversed_order scenario_project)
  /\ main sample_parse first_seen_order scenario_project
     = main sample_parse reversed_order scenario_project.
Proof.
  destruct (report_same_up_to_suspect_order sample_parse first_seen_order reversed_order
              scenario_project first_seen_order_ok reversed_order_ok) as [E M].
  split; [exact E|].
  apply M. vm_compute. reflexivity.
Defined.

(* ------------------------------------------------------------------ *)
(** ** Pinned behaviour *)

Lemma main_finish (ast_parse : string -> parse_outcome) (set_iter : list Path -> list Path)
  (p : Project) (r : AuditResult.t) (a b : string) :
  prd p = Some a -> plan p = Some b ->
  run_audit ast_parse set_iter p = Ok r ->
  main ast_parse set_iter p = finish r (project_root p).
Proof. intros Ha Hb Hr. unfold main. now rewrite Ha, Hb, Hr. Qed.

Example missing_plan_is_fatal :
  main sample_parse first_seen_order
       (mkProject ["srv"] (Some "- **FR-1**: x") None [])
  = mkOutcome 1 None.
Proof. reflexivity. Qed.

Example integrity_assert_true :
  check_test_integrity [Assert (Constant (CBool true)) None]
  = ["Always-pass pattern: assert True"].
Proof. reflexivity. Qed.

Example integrity_assert_one_float :
  check_test_integrity
    [Assert (Constant (CFloat (S754_finite false 4503599627370496 (-52)))) None]
  = ["Always-pass pattern: assert 1"].
Proof. reflexivity. Qed.

Example integrity_two_pass :
  check_test_integrity [Pass; Pass] = ["No assertions found (placeholder test)"].
Proof. reflexivity. Qed.

Example integrity_only_docstring :
  check_test_integrity [Expr (Constant (CStr "to do"))]
  = ["No assertions found (placeholder test)"].
Proof. reflexivity. Qed.

Example integrity_logic_without_assert :
  check_test_integrity [OtherStmt [Call (Name "run") [] []] []] = [].
Proof. reflexivity. Qed.

Example integrity_raises_context :
  check_test_integrity
    [With [(Call (Attribute (Name "pytest") "raises") [Name "ValueError"] [], None)]
          [Expr (Call (Name "run") [] [])]]
  = [].
Proof. reflexivity. Qed.

Example integrity_nested_assert_not_counted :
  check_test_integrity
    [FunctionDef "helper" 3 [] [Assert (Name "ok") None]; Pass]
  = [].
Proof. reflexivity. Qed.

Example table_row_ignores_case :
  classify "| fr-7 | DONE |" = TableRow "fr-7" "done".
Proof. vm_compute. reflexivity. Qed.

Example heading_wins_over_task :
  classify "# - [x] **FR-1**: x" = Heading "- [x] **FR-1**: x".
Proof. vm_compute. reflexivity. Qed.

Example ids_need_word_boundaries :
  ids_in "FR-1,NFR-2 (R-3) aFR-4 FR-5_ TD-6-7-8- INV-x.y"
  = ["FR-1"; "NFR-2"; "R-3"; "TD-6-7-8"; "INV-x"].
Proof. vm_compute. reflexivity. Qed.

Example test_refs_window :
  find_test_refs ["- [x] **FR-1**: a"; ""; ""; ""; ""; "Tests: `t1 , t2`"; "Test: `t3`"] 1
  = ["t1"; "t2"]
  /\ find_test_refs ["- [x] **FR-1**: a"; ""; ""; ""; ""; ""; "Test: `t3`"] 1 = [].
Proof. split; vm_compute; reflexivity. Qed.

Example scanner_candidates :
  candidate_test_files
    (mkProject ["srv"] None None
       [(["test_top.py"], ""); (["tests"; "unit"; "test_a.py"], "");
        ([".venv"; "lib"; "test_x.py"], ""); (["pkg.egg-info"; "test_y.py"], "");
        (["src"; "helper.py"], ""); (["src"; "test_.py"], "")])
  = [["srv"; "tests"; "unit"; "test_a.py"]; ["srv"; "test_top.py"];
     ["srv"; "test_top.py"]; ["srv"; "tests"; "unit"; "test_a.py"];
     ["srv"; "src"; "test_.py"]].
Proof. vm_compute. reflexivity. Qed.

Example str_of_nat_values :
  Py.str_of_nat 0 = "0" /\ Py.str_of_nat 10 = "10" /\ Py.str_of_nat 207 = "207".
Proof. repeat split; reflexivity. Qed.

(* ================================================================== *)
(** * Further properties of the extractors *)

Lemma fold_left_inv {A B} (P : A -> Prop) (f : A -> B -> A) (l : list B) (a : A) :
  (forall a x, List.In x l -> P a -> P (f a x)) -> P a -> P (fold_left f l a).
Proof.
  revert a. induction l as [|x l IH]; intros a H Ha; simpl.
  - exact Ha.
  - apply IH.
    + intros a' x' Hx'. apply H. now right.
    + apply H; [now left | exact Ha].
Qed.

Lemma enumerate_In {A} (l : list A) (start i : nat) (x : A) :
  List.In (i, x) (Py.enumerate start l)
  <-> start <= i /\ nth_error l (i - start) = Some x.
Proof.
  revert start. induction l as [|y l IH]; intros start; simpl.
  - split; [tauto|]. intros [_ H]. destruct (i - start); discriminate.
  - rewrite IH. split.
    + intros [[= <- <-] | [Hle Hn]].
      * split; [lia|]. now rewrite Nat.sub_diag.
      * split; [lia|]. replace (i - start) with (S (i - S start)) by lia. exact Hn.
    + intros [Hle Hn]. destruct (i - start) as [|n] eqn:E.
      * left. injection Hn as ->. f_equal. lia.
      * right. split; [lia|]. replace (i - S start) with n by lia. exact Hn.
Qed.

Lemma mem_set {V} (d : dict V) (k k' : string) (v : V) :
  Dict.mem k' (Dict.set k v d) = (String.eqb k' k || Dict.mem k' d)%bool.
Proof.
  unfold Dict.mem. rewrite get_set. destruct (String.eqb k' k); reflexivity.
Qed.

Lemma prd_loop_mem (todo : list (nat * string)) (d : dict Requirement.t) (id : string) :
  Dict.mem id (prd_loop todo d) = true
  <-> Dict.mem id d = true
      \/ exists i line text, List.In (i, line) todo /\ prd_defines line = Some (id, text).
Proof.
  unfold prd_loop. revert d. induction todo as [|[i line] todo IH]; intros d; simpl.
  - split; [tauto|]. intros [H | [i [l [t [[] _]]]]]. exact H.
  - rewrite IH, prd_line_defines. clear IH.
    destruct (prd_defines line) as [[id' text']|] eqn:E.
    + rewrite mem_set, orb_true_iff, String.eqb_eq. split.
      * intros [[-> | H] | [j [l [t [Hin Hd]]]]].
        -- right. exists i, line, text'. split; [now left | exact E].
        -- now left.
        -- right. exists j, l, t. split; [now right | exact Hd].
      * intros [H | [j [l [t [[[= <- <-] | Hin] Hd]]]]].
        -- left. now right.
        -- left. left. congruence.
        -- right. exists j, l, t. split; assumption.
    + split.
      * intros [H | [j [l [t [Hin Hd]]]]]; [now left|].
        right. exists j, l, t. split; [now right | exact Hd].
      * intros [H | [j [l [t [[[= <- <-] | Hin] Hd]]]]]; [now left | congruence |].
        right. exists j, l, t. split; assumption.
Qed.

(** X1.  An id is a key of the mapping [parse_prd] returns exactly when
    some line of the document defines it through one of the three forms. *)
Theorem parse_prd_mem (content id : string) :
  Dict.mem id (parse_prd content) = true
  <-> exists line text,
        List.In line (Py.split Py.newline content) /\ prd_defines line = Some (id, text).
Proof.
  unfold parse_prd, parse_prd_lines. rewrite prd_loop_mem. split.
  - intros [H | [i [line [text [Hin Hd]]]]]; [discriminate|].
    exists line, text. split; [|exact Hd].
    apply enumerate_In in Hin. destruct Hin as [_ Hn]. eapply nth_error_In, Hn.
  - intros [line [text [Hin Hd]]]. right.
    apply In_nth_error in Hin. destruct Hin as [n Hn].
    exists (S n), line, text. split; [|exact Hd].
    apply enumerate_In. split; [lia|]. now replace (S n - 1) with n by lia.
Qed.

(** X2.  Every entry of the mapping [parse_prd] returns is stored under its
    own id, and its [line_number] is the 1-based number of a line of the
    document that defines exactly this id and text. *)
Theorem parse_prd_entry (content k : string) (r : Requirement.t) :
  Dict.get (parse_prd content) k = Some r ->
  Requirement.id r = k
  /\ 1 <= Requirement.line_number r
  /\ exists line,
       nth_error (Py.split Py.newline content) (Requirement.line_number r - 1) = Some line
       /\ prd_defines line = Some (k, Requirement.text r).
Proof.
  unfold parse_prd, parse_prd_lines, prd_loop.
  set (lines := Py.split Py.newline content).
  revert k r.
  apply (fold_left_inv
           (fun d => forall k r, Dict.get d k = Some r ->
              Requirement.id r = k /\ 1 <= Requirement.line_number r
              /\ exists line,
                   nth_error lines (Requirement.line_number r - 1) = Some line
                   /\ prd_defines line = Some (k, Requirement.text r))).
  - intros d [i line] Hin Hd k r. cbn [fst snd].
    apply enumerate_In in Hin. destruct Hin as [Hle Hn].
    rewrite prd_line_defines.
    destruct (prd_defines line) as [[id' text']|] eqn:E; [|apply Hd].
    rewrite get_set. destruct (String.eqb k id') eqn:K; [|apply Hd].
    apply String.eqb_eq in K. subst id'. intros [= <-]. cbn.
    split; [reflexivity|]. split; [exact Hle|].
    exists line. split; [exact Hn | exact E].
  - intros k r H. discriminate H.
Qed.

Lemma parse_prd_entry_witness :
  Requirement.id (Requirement.mk "FR-1" "third" 4) = "FR-1"
  /\ 1 <= Requirement.line_number (Requirement.mk "FR-1" "third" 4)
  /\ exists line,
       nth_error
         (Py.split Py.newline
            (doc ["- **FR-1**: first"; "| FR-1 | second | x |";
                  "- **FR-2**: other"; "### FR-1: third"; "closing words"]))
         (Requirement.line_number (Requirement.mk "FR-1" "third" 4) - 1) = Some line
       /\ prd_defines line
          = Some ("FR-1", Requirement.text (Requirement.mk "FR-1" "third" 4)).
Proof.
  apply (parse_prd_entry
           (doc ["- **FR-1**: first"; "| FR-1 | second | x |";
                 "- **FR-2**: other"; "### FR-1: third"; "closing words"])).
  vm_compute. reflexivity.
Defined.

(* ------------------------------------------------------------------ *)
(** ** Plan extractor: which entries a line can touch *)

Lemma mem_mark_incomplete (cur : list string) (items : dict PlanItem.t) (k : string) :
  Dict.mem k (mark_incomplete cur items) = Dict.mem k items.
Proof.
  unfold Dict.mem. rewrite get_mark_incomplete.
  destruct (Py.mem k cur), (Dict.get items k); reflexivity.
Qed.

Lemma mem_fold_set {V} (f : string -> V) (ids : list string) (d : dict V) (k : string) :
  Dict.mem k (fold_left (fun items req_id => Dict.set req_id (f req_id) items) ids d)
  = (Py.mem k ids || Dict.mem k d)%bool.
Proof.
  unfold Dict.mem. rewrite get_fold_set. destruct (Py.mem k ids); reflexivity.
Qed.

Lemma revoked_from_refl (item : PlanItem.t) : revoked_from item item.
Proof. unfold revoked_from. tauto. Qed.

Lemma revoked_from_set_completed (item : PlanItem.t) :
  revoked_from item (PlanItem.set_completed false item).
Proof. unfold revoked_from. cbn. repeat split; try reflexivity. discriminate. Qed.

Lemma get_mark_incomplete_revoked (cur : list string) (items : dict PlanItem.t)
  (k : string) (item' : PlanItem.t) :
  Dict.get (mark_incomplete cur items) k = Some item' ->
  exists item, Dict.get items k = Some item /\ revoked_from item item'.
Proof.
  rewrite get_mark_incomplete.
  destruct (Py.mem k cur), (Dict.get items k) as [item|]; simpl; intros [= <-];
    exists item; split; auto using revoked_from_refl, revoked_from_set_completed.
Qed.

Section PlanStep.

Variables (lines : list string) (i : nat) (line : string).
Variables (plan_items : dict PlanItem.t) (current_section_reqs : list string).

Let st' := plan_line lines i line (plan_items, current_section_reqs).

(** The section ids after a line: a heading sets them, other lines keep
    them. *)
Lemma plan_line_section :
  snd st' = match classify line with
            | Heading text => ids_in text
            | _ => current_section_reqs
            end.
Proof.
  unfold st'. destruct (classify line) eqn:K.
  - rewrite (plan_line_heading _ _ _ _ _ _ K). now destruct (ids_in text).
  - now rewrite (plan_line_strict _ _ _ _ _ _ _ _ K).
  - now rewrite (plan_line_loose _ _ _ _ _ _ _ K).
  - rewrite (plan_line_table _ _ _ _ _ _ _ K). now destruct (negb _).
  - now rewrite (plan_line_ignored _ _ _ _ _ K).
Qed.

(** An entry after a line is either written by the line, for an id the
    line names, or it is the entry from before, possibly revoked. *)
Lemma plan_line_get (k : string) (item' : PlanItem.t) :
  Dict.get (fst st') k = Some item' ->
  (PlanItem.id item' = k /\ PlanItem.line_number item' = i /\ names line k)
  \/ exists item, Dict.get plan_items k = Some item /\ revoked_from item item'.
Proof.
  unfold st', names. destruct (classify line) eqn:K.
  - rewrite (plan_line_heading _ _ _ _ _ _ K).
    destruct (ids_in text) as [|x ids] eqn:E; cbn [fst].
    + intros H. right. exists item'. auto using revoked_from_refl.
    + rewrite get_fold_set. destruct (Py.mem k (x :: ids)) eqn:M.
      * intros [= <-]. left. split; [reflexivity|]. split; [reflexivity|].
        apply (proj1 (mem_In _ _)), M.
      * intros H. right. exists item'. auto using revoked_from_refl.
  - rewrite (plan_line_strict _ _ _ _ _ _ _ _ K). cbn [fst].
    rewrite get_set. destruct (String.eqb k req_id) eqn:E.
    + apply String.eqb_eq in E. intros [= <-]. left. cbn. auto.
    + intros H. right. destruct (negb (is_x status)).
      * now apply get_mark_incomplete_revoked in H.
      * exists item'. auto using revoked_from_refl.
  - rewrite (plan_line_loose _ _ _ _ _ _ _ K). cbn [fst].
    rewrite get_fold_set. destruct (Py.mem k (ids_in text)) eqn:M.
    + intros [= <-]. left. split; [reflexivity|]. split; [reflexivity|].
      apply (proj1 (mem_In _ _)), M.
    + intros H. right. destruct (negb (is_x status)).
      * now apply get_mark_incomplete_revoked in H.
      * exists item'. auto using revoked_from_refl.
  - rewrite (plan_line_table _ _ _ _ _ _ _ K).
    destruct (negb (Dict.mem req_id plan_items)); cbn [fst].
    + rewrite get_set. destruct (String.eqb k req_id) eqn:E.
      * apply String.eqb_eq in E. intros [= <-]. left. cbn. auto.
      * intros H. right. exists item'. auto using revoked_from_refl.
    + intros H. right. exists item'. auto using revoked_from_refl.
  - rewrite (plan_line_ignored _ _ _ _ _ K). cbn [fst].
    intros H. right. exists item'. auto using revoked_from_refl.
Qed.

Lemma plan_line_mem (k : string) :
  Dict.mem k (fst st') = true <-> Dict.mem k plan_items = true \/ names line k.
Proof.
  unfold st', names. destruct (classify line) eqn:K.
  - rewrite (plan_line_heading _ _ _ _ _ _ K).
    destruct (ids_in text) as [|x ids] eqn:E; cbn [fst].
    + simpl. tauto.
    + rewrite mem_fold_set, orb_true_iff, mem_In. tauto.
  - rewrite (plan_line_strict _ _ _ _ _ _ _ _ K). cbn [fst].
    rewrite mem_set, orb_true_iff, String.eqb_eq.
    destruct (negb (is_x status)); rewrite ?mem_mark_incomplete; tauto.
  - rewrite (plan_line_loose _ _ _ _ _ _ _ K). cbn [fst].
    rewrite mem_fold_set, orb_true_iff, mem_In.
    destruct (negb (is_x status)); rewrite ?mem_mark_incomplete; tauto.
  - rewrite (plan_line_table _ _ _ _ _ _ _ K).
    destruct (Dict.mem req_id plan_items) eqn:M; cbn [negb fst].
    + split; [tauto|]. intros [H | ->]; assumption.
    + rewrite mem_set, orb_true_iff, String.eqb_eq. tauto.
  - rewrite (plan_line_ignored _ _ _ _ _ K). cbn [fst]. tauto.
Qed.

Lemma plan_line_untouched (k : string) :
  ~ names line k ->
  (unchecked_task line = true -> ~ List.In k current_section_reqs) ->
  Dict.get (fst (plan_line lines i line (plan_items, current_section_reqs))) k
  = Dict.get plan_items k.
Proof.
  unfold names, unchecked_task. destruct (classify line) eqn:K; intros Hn Hu.
  - rewrite (plan_line_heading _ _ _ _ _ _ K).
    destruct (ids_in text) as [|x ids] eqn:E; cbn [fst]; [reflexivity|].
    rewrite get_fold_set. destruct (Py.mem k (x :: ids)) eqn:M; [|reflexivity].
    apply mem_In in M. contradiction.
  - rewrite (plan_line_strict _ _ _ _ _ _ _ _ K). cbn [fst].
    rewrite get_set_other by assumption.
    destruct (negb (is_x status)); [|reflexivity].
    rewrite get_mark_incomplete.
    destruct (Py.mem k current_section_reqs) eqn:M; [|reflexivity].
    apply mem_In in M. now destruct Hu.
  - rewrite (plan_line_loose _ _ _ _ _ _ _ K). cbn [fst].
    rewrite get_fold_set. destruct (Py.mem k (ids_in text)) eqn:M.
    { apply mem_In in M. contradiction. }
    destruct (negb (is_x status)); [|reflexivity].
    rewrite get_mark_incomplete.
    destruct (Py.mem k current_section_reqs) eqn:M'; [|reflexivity].
    apply mem_In in M'. now destruct Hu.
  - rewrite (plan_line_table _ _ _ _ _ _ _ K).
    destruct (negb (Dict.mem req_id plan_items)); cbn [fst]; [|reflexivity].
    now rewrite get_set_other.
  - now rewrite (plan_line_ignored _ _ _ _ _ K).
Qed.

(** X8.  An unchecked strict task line revokes the current section just as
    a loose one does: every section id with an entry ends with
    [completed = false], and for the ids other than the line's own only that
    field changes. *)
Theorem strict_incomplete_revokes_section (status req_id text : string) :
  classify line = StrictTask status req_id text ->
  is_x status = false ->
  forall k item,
    List.In k current_section_reqs ->
    Dict.get plan_items k = Some item ->
    exists item',
      Dict.get (fst (plan_line lines i line (plan_items, current_section_reqs))) k
      = Some item'
      /\ PlanItem.completed item' = false
      /\ (k <> req_id -> item' = PlanItem.set_completed false item).
Proof.
  intros K Hx k item Hin Hget.
  rewrite (plan_line_strict _ _ _ _ _ _ _ _ K), Hx. cbn [negb fst].
  rewrite get_set. destruct (String.eqb k req_id) eqn:E.
  - apply String.eqb_eq in E. eexists. split; [reflexivity|]. cbn. split; [reflexivity|].
    intros H. contradiction.
  - rewrite get_mark_incomplete. apply mem_In in Hin. rewrite Hin, Hget. cbn.
    eexists. split; [reflexivity|]. cbn. auto.
Qed.

End PlanStep.

(** X7.  One step of [parse_plan] leaves the entry of an id untouched when
    the line does not name the id and, for an unchecked task line, the id is
    not in the current section. *)
Theorem plan_line_frame (lines : list string) (i : nat) (line : string)
  (plan_items : dict PlanItem.t) (current_section_reqs : list string) (k : string) :
  ~ names line k ->
  (unchecked_task line = true -> ~ List.In k current_section_reqs) ->
  Dict.get (fst (plan_line lines i line (plan_items, current_section_reqs))) k
  = Dict.get plan_items k.
Proof. apply plan_line_untouched. Qed.

Lemma plan_line_frame_witness :
  Dict.get (fst (plan_line login_lines 2 "- [ ] write the docs"
                   (fst login_state, []))) "FR-1"
  = Dict.get (fst login_state) "FR-1".
Proof.
  apply plan_line_frame.
  - vm_compute. tauto.
  - intros _ [].
Defined.

Lemma strict_incomplete_revokes_section_witness :
  exists item',
    Dict.get (fst (plan_line login_lines 2 "- [ ] **NFR-2**: rate limit"
                     (fst login_state, snd login_state))) "FR-1"
    = Some item'
    /\ PlanItem.completed item' = false
    /\ ("FR-1" <> "NFR-2" ->
        item' = PlanItem.set_completed false
                  (PlanItem.mk "FR-1" "Section: Login (FR-1, NFR-2)" true 1 [])).
Proof.
  apply (strict_incomplete_revokes_section login_lines 2 "- [ ] **NFR-2**: rate limit"
           (fst login_state) (snd login_state) " " "NFR-2" "rate limit").
  - vm_compute. reflexivity.
  - vm_compute. reflexivity.
  - vm_compute. left. reflexivity.
  - vm_compute. reflexivity.
Defined.

(* ------------------------------------------------------------------ *)
(** ** The entry of a checked task line *)

Lemma firstn_snoc {A} (l : list A) (n : nat) (x : A) :
  nth_error l n = Some x -> firstn (S n) l = (firstn n l ++ [x])%list.
Proof.
  revert n. induction l as [|y l IH]; intros [|n] H; simpl in *; try discriminate.
  - now injection H as ->.
  - now rewrite (IH n H).
Qed.

Lemma plan_state_after_S (lines : list string) (n : nat) (l : string) :
  nth_error lines n = Some l ->
  plan_state_after lines (S n) = plan_line lines (S n) l (plan_state_after lines n).
Proof.
  intros H. unfold plan_state_after, plan_loop.
  assert (Hn : n < List.length lines) by (apply nth_error_Some; congruence).
  rewrite (firstn_snoc _ _ _ H), enumerate_app, fold_left_app.
  rewrite length_firstn, Nat.min_l by lia.
  reflexivity.
Qed.

Lemma plan_state_after_all (lines : list string) :
  parse_plan_lines lines = fst (plan_state_after lines (List.length lines)).
Proof. unfold plan_state_after, parse_plan_lines. now rewrite firstn_all. Qed.

(** A line that is a table row or does not name the id, and that is no
    unchecked task while the id is in the section, keeps the entry. *)
Lemma plan_line_keeps (lines : list string) (i : nat) (line : string)
  (items : dict PlanItem.t) (cur : list string) (k : string) (item : PlanItem.t) :
  Dict.get items k = Some item ->
  (exists req_id status_text, classify line = TableRow req_id status_text) \/ ~ names line k ->
  (unchecked_task line = true -> ~ List.In k cur) ->
  Dict.get (fst (plan_line lines i line (items, cur))) k = Some item.
Proof.
  intros Hget [[req_id [status_text K]] | Hn] Hu.
  - rewrite (plan_line_table _ _ _ _ _ _ _ K).
    destruct (Dict.mem req_id items) eqn:M; cbn [negb fst]; [exact Hget|].
    rewrite get_set_other; [exact Hget|].
    intros ->. unfold Dict.mem in M. now rewrite Hget in M.
  - rewrite plan_line_untouched; assumption.
Qed.

(** A heading or task line that names the id writes its entry, with the
    number of the line. *)
Lemma plan_line_writes (lines : list string) (i : nat) (line : string)
  (items : dict PlanItem.t) (cur : list string) (k : string) :
  names line k ->
  (forall req_id status_text, classify line <> TableRow req_id status_text) ->
  exists item',
    Dict.get (fst (plan_line lines i line (items, cur))) k = Some item'
    /\ PlanItem.line_number item' = i.
Proof.
  unfold names. destruct (classify line) eqn:K; intros Hn Ht.
  - rewrite (plan_line_heading _ _ _ _ _ _ K).
    destruct (ids_in text) as [|x ids] eqn:E; [destruct Hn|]. cbn [fst].
    rewrite get_fold_set. apply mem_In in Hn. rewrite Hn.
    eexists. split; reflexivity.
  - subst k. rewrite (plan_line_strict _ _ _ _ _ _ _ _ K). cbn [fst].
    rewrite get_set_same. eexists. split; reflexivity.
  - rewrite (plan_line_loose _ _ _ _ _ _ _ K). cbn [fst].
    rewrite get_fold_set. apply mem_In in Hn. rewrite Hn.
    eexists. split; reflexivity.
  - destruct (Ht _ _ eq_refl).
  - destruct Hn.
Qed.

(** An unchecked task line leaves an id of the section that has an entry
    with an entry of its own or with a revoked one. *)
Lemma plan_line_revokes (lines : list string) (i : nat) (line : string)
  (items : dict PlanItem.t) (cur : list string) (k : string) (item : PlanItem.t) :
  unchecked_task line = true ->
  List.In k cur ->
  Dict.get items k = Some item ->
  exists item',
    Dict.get (fst (plan_line lines i line (items, cur))) k = Some item'
    /\ (PlanItem.line_number item' = i \/ PlanItem.completed item' = false).
Proof.
  unfold unchecked_task. destruct (classify line) eqn:K; try discriminate;
    intros Hu Hin Hget; apply mem_In in Hin.
  - rewrite (plan_line_strict _ _ _ _ _ _ _ _ K), Hu. cbn [fst].
    rewrite get_set. destruct (String.eqb k req_id).
    + eexists. split; [reflexivity|]. now left.
    + rewrite get_mark_incomplete, Hin, Hget.
      eexists. split; [reflexivity|]. now right.
  - rewrite (plan_line_loose _ _ _ _ _ _ _ K), Hu. cbn [fst].
    rewrite get_fold_set. destruct (Py.mem k (ids_in text)).
    + eexists. split; [reflexivity|]. now left.
    + rewrite get_mark_incomplete, Hin, Hget.
      eexists. split; [reflexivity|]. now right.
Qed.

(** A completed entry found after a line with another number was there
    before the line. *)
Lemma plan_line_back (lines : list string) (i : nat) (line : string)
  (items : dict PlanItem.t) (cur : list string) (k : string) (item : PlanItem.t) :
  PlanItem.completed item = true ->
  PlanItem.line_number item <> i ->
  Dict.get (fst (plan_line lines i line (items, cur))) k = Some item ->
  Dict.get items k = Some item.
Proof.
  intros Hc Hl H.
  destruct (plan_line_get _ _ _ _ _ _ _ H) as [[_ [Hi _]] | [item0 [Hget Hr]]].
  - contradiction.
  - rewrite Hget. f_equal.
    destruct Hr as (H1 & H2 & H3 & H4 & H5). specialize (H5 Hc).
    destruct item0, item; cbn in *. congruence.
Qed.

Section EntryOfLine.

Variables (lines : list string) (k : string) (item : PlanItem.t) (n0 : nat).

Hypothesis after_n0 : Dict.get (fst (plan_state_after lines n0)) k = Some item.
Hypothesis n0_le : n0 <= List.length lines.

Lemma entry_stands :
  (forall n l, n0 <= n -> nth_error lines n = Some l -> keeps_entry lines k n l) ->
  Dict.get (parse_plan_lines lines) k = Some item.
Proof.
  intros Hk. rewrite plan_state_after_all.
  assert (H : forall d, n0 + d <= List.length lines ->
                        Dict.get (fst (plan_state_after lines (n0 + d))) k = Some item).
  { induction d as [|d IH]; intros Hd.
    - now rewrite Nat.add_0_r.
    - destruct (nth_error lines (n0 + d)) as [l|] eqn:E;
        [|apply nth_error_None in E; lia].
      replace (n0 + S d) with (S (n0 + d)) by lia.
      rewrite (plan_state_after_S _ _ _ E).
      destruct (Hk (n0 + d) l ltac:(lia) E) as [Ha Hb].
      unfold section_after in Hb.
      specialize (IH ltac:(lia)).
      destruct (plan_state_after lines (n0 + d)) as [items cur].
      now apply plan_line_keeps. }
  replace (List.length lines) with (n0 + (List.length lines - n0)) by lia.
  apply H. lia.
Qed.

Hypothesis item_completed : PlanItem.completed item = true.
Hypothesis item_line : PlanItem.line_number item = n0.

Lemma entry_back :
  Dict.get (parse_plan_lines lines) k = Some item ->
  forall n, n0 <= n <= List.length lines ->
            Dict.get (fst (plan_state_after lines n)) k = Some item.
Proof.
  rewrite plan_state_after_all. intros Hend.
  assert (H : forall d, d <= List.length lines - n0 ->
                Dict.get (fst (plan_state_after lines (List.length lines - d))) k
                = Some item).
  { induction d as [|d IH]; intros Hd.
    - now rewrite Nat.sub_0_r.
    - specialize (IH ltac:(lia)).
      destruct (nth_error lines (List.length lines - S d)) as [l|] eqn:E;
        [|apply nth_error_None in E; lia].
      replace (List.length lines - d) with (S (List.length lines - S d)) in IH by lia.
      rewrite (plan_state_after_S _ _ _ E) in IH.
      destruct (plan_state_after lines (List.length lines - S d)) as [items cur].
      apply (plan_line_back _ _ _ _ _ _ _ item_completed) in IH; [exact IH | lia]. }
  intros n Hn.
  replace n with (List.length lines - (List.length lines - n)) by lia.
  apply H. lia.
Qed.

Lemma entry_stands_only :
  Dict.get (parse_plan_lines lines) k = Some item ->
  forall n l, n0 <= n -> nth_error lines n = Some l -> keeps_entry lines k n l.
Proof.
  intros Hend n l Hn E.
  assert (Hlt : n < List.length lines) by (apply nth_error_Some; congruence).
  pose proof (entry_back Hend n ltac:(lia)) as Hbefore.
  pose proof (entry_back Hend (S n) ltac:(lia)) as Hafter.
  rewrite (plan_state_after_S _ _ _ E) in Hafter.
  unfold keeps_entry, section_after.
  destruct (plan_state_after lines n) as [items cur]. cbn [fst snd] in *.
  split.
  - destruct (classify l) eqn:K;
      try (left; eexists; eexists; reflexivity);
      right; intros Hname;
      destruct (plan_line_writes lines (S n) l items cur k Hname) as [item' [G L]];
      try (intros ? ?; rewrite K; discriminate);
      rewrite Hafter in G; injection G as <-; lia.
  - intros Hu Hin.
    destruct (plan_line_revokes lines (S n) l items cur k item Hu Hin Hbefore)
      as [item' [G [L | C]]];
      rewrite Hafter in G; injection G as <-; [lia | congruence].
Qed.

End EntryOfLine.

(** C4, amended.  When a plan document has a strict task line for an id
    with checkbox [x] or [X], the final plan item of the id is the one that
    line produces (its text, [completed = true], its own line number and the
    test references of its own window) if and only if no later line
    overwrites or revokes it: every later line is a table row or does not name
    the id, and no later task line with an unchecked box is reached while the
    id is in the current section.  So the lines before the task line, and the
    table rows for the id on either side of it, whatever their status, do not
    matter; later tasks and headings for other ids do not matter either. *)
Theorem strict_task_entry_stands (content : string) (pre post : list string)
  (s status id text : string) :
  Py.split Py.newline content = (pre ++ s :: post)%list ->
  classify s = StrictTask status id text ->
  is_x status = true ->
  (Dict.get (parse_plan content) id
   = Some (PlanItem.mk id text true (S (List.length pre))
             (find_test_refs (pre ++ s :: post) (S (List.length pre))))
   <-> forall j l, nth_error post j = Some l ->
                   keeps_entry (pre ++ s :: post) id (S (List.length pre) + j) l).
Proof.
  intros Hsplit Hs Hx. unfold parse_plan. rewrite Hsplit.
  set (lines := (pre ++ s :: post)%list).
  assert (Hlen : S (List.length pre) <= List.length lines).
  { unfold lines. rewrite length_app. simpl. lia. }
  assert (Hpost : forall j, nth_error lines (S (List.length pre) + j) = nth_error post j).
  { intros j. unfold lines. rewrite nth_error_app2 by lia.
    replace (S (List.length pre) + j - List.length pre) with (S j) by lia. reflexivity. }
  assert (H0 : Dict.get (fst (plan_state_after lines (S (List.length pre)))) id
               = Some (PlanItem.mk id text true (S (List.length pre))
                         (find_test_refs lines (S (List.length pre))))).
  { rewrite (plan_state_after_S lines (List.length pre) s).
    - destruct (plan_state_after lines (List.length pre)) as [items0 cur0].
      rewrite (plan_line_strict _ _ _ _ _ _ _ _ Hs), Hx. cbn [negb fst].
      apply get_set_same.
    - unfold lines. rewrite nth_error_app2 by lia. now rewrite Nat.sub_diag. }
  split.
  - intros Hend j l Hj.
    apply (entry_stands_only lines id
             (PlanItem.mk id text true (S (List.length pre))
                (find_test_refs lines (S (List.length pre))))
             (S (List.length pre)) Hlen eq_refl eq_refl Hend);
      [lia | now rewrite Hpost].
  - intros Hk.
    apply (entry_stands lines id _ (S (List.length pre)) H0 Hlen).
    intros n l Hn E.
    replace n with (S (List.length pre) + (n - S (List.length pre))) in E |- * by lia.
    apply Hk. now rewrite <- Hpost.
Qed.

(** A plan whose checked task for FR-1 stands in the section of FR-1,
    between two table rows for FR-1; a section for FR-2 with an unchecked task
    follows. *)
Lemma strict_task_entry_stands_witness :
  Dict.get (parse_plan (doc busy_plan)) "FR-1"
  = Some (PlanItem.mk "FR-1" "do it" true 3 (find_test_refs busy_plan 3))
  <-> forall j l,
        nth_error ["  Tests: `test_a, test_b`"; "| FR-1 | Pending |"; "## Billing (FR-2)";
                   "- [ ] **FR-2**: invoices"; "- [x] tidy up"] j = Some l ->
        keeps_entry busy_plan "FR-1" (3 + j) l.
Proof.
  apply (strict_task_entry_stands (doc busy_plan)
           ["## Auth (FR-1)"; "| FR-1 | Pending |"]
           ["  Tests: `test_a, test_b`"; "| FR-1 | Pending |"; "## Billing (FR-2)";
            "- [ ] **FR-2**: invoices"; "- [x] tidy up"]
           "- [X] **FR-1**: do it" "X" "FR-1" "do it").
  - vm_compute. reflexivity.
  - vm_compute. reflexivity.
  - vm_compute. reflexivity.
Defined.

(** That plan, evaluated: the entry of FR-1 is the one of line 3, and the
    unchecked task of the second section revokes nothing of the first. *)
Example busy_plan_value :
  parse_plan (doc busy_plan)
  = [("FR-1", PlanItem.mk "FR-1" "do it" true 3 ["test_a"; "test_b"]);
     ("FR-2", PlanItem.mk "FR-2" "invoices" false 7 [])]
  /\ map (section_after busy_plan) [2; 5; 6] = [["FR-1"]; ["FR-1"]; ["FR-2"]].
Proof. split; vm_compute; reflexivity. Qed.

(* ------------------------------------------------------------------ *)
(** ** Plan extractor: whole documents *)

Lemma plan_loop_mem (lines : list string) (todo : list (nat * string)) (st : plan_state)
  (k : string) :
  Dict.mem k (fst (plan_loop lines todo st)) = true
  <-> Dict.mem k (fst st) = true \/ exists i line, List.In (i, line) todo /\ names line k.
Proof.
  unfold plan_loop. revert st. induction todo as [|[i line] todo IH]; intros [items cur].
  - simpl. split; [tauto|]. intros [H | [i [l [[] _]]]]. exact H.
  - cbn [fold_left fst snd]. rewrite IH.
    destruct (plan_line lines i line (items, cur)) as [items' cur'] eqn:E.
    pose proof (plan_line_mem lines i line items cur k) as M. rewrite E in M.
    cbn [fst] in *. rewrite M. split.
    + intros [[H | H] | [j [l [Hin Hn]]]].
      * now left.
      * right. exists i, line. split; [now left | exact H].
      * right. exists j, l. split; [now right | exact Hn].
    + intros [H | [j [l [[[= <- <-] | Hin] Hn]]]].
      * left. now left.
      * left. now right.
      * right. exists j, l. split; assumption.
Qed.

(** X4.  An id has an entry in the mapping [parse_plan] returns exactly
    when some line of the document names it: in a heading, as the id of a
    strict task line, in the text of a loose task line, or as the id of a
    table row.  No line removes an entry. *)
Theorem parse_plan_mem (content k : string) :
  Dict.mem k (parse_plan content) = true
  <-> exists line, List.In line (Py.split Py.newline content) /\ names line k.
Proof.
  unfold parse_plan, parse_plan_lines. rewrite plan_loop_mem. cbn [fst]. split.
  - intros [H | [i [line [Hin Hn]]]]; [discriminate|].
    exists line. split; [|exact Hn].
    apply enumerate_In in Hin. destruct Hin as [_ Hin]. eapply nth_error_In, Hin.
  - intros [line [Hin Hn]]. right.
    apply In_nth_error in Hin. destruct Hin as [n Hin].
    exists (S n), line. split; [|exact Hn].
    apply enumerate_In. split; [lia|]. now replace (S n - 1) with n by lia.
Qed.

(** X5.  Every entry of the mapping [parse_plan] returns is stored under
    its own id, and its [line_number] is the 1-based number of a line of the
    document that names this id. *)
Theorem parse_plan_entry (content k : string) (item : PlanItem.t) :
  Dict.get (parse_plan content) k = Some item ->
  PlanItem.id item = k
  /\ 1 <= PlanItem.line_number item
  /\ exists line,
       nth_error (Py.split Py.newline content) (PlanItem.line_number item - 1) = Some line
       /\ names line k.
Proof.
  unfold parse_plan, parse_plan_lines, plan_loop.
  set (lines := Py.split Py.newline content).
  revert k item.
  apply (fold_left_inv
           (fun st : plan_state => forall k item, Dict.get (fst st) k = Some item ->
              PlanItem.id item = k /\ 1 <= PlanItem.line_number item
              /\ exists line,
                   nth_error lines (PlanItem.line_number item - 1) = Some line
                   /\ names line k)).
  - intros [items cur] [i line] Hin Hst k item'. cbn [fst snd]. intros Hget.
    apply enumerate_In in Hin. destruct Hin as [Hle Hn].
    destruct (plan_line_get lines i line items cur k item' Hget)
      as [[Hid [Hln Hnm]] | [item [Hold (Hid & _ & Hln & _)]]].
    + rewrite Hln. split; [exact Hid|]. split; [exact Hle|].
      exists line. split; assumption.
    + rewrite Hid, Hln. apply Hst. exact Hold.
  - intros k item H. discriminate H.
Qed.

Lemma parse_plan_entry_witness :
  PlanItem.id (PlanItem.mk "FR-1" "do it" true 3 ["test_a"; "test_b"]) = "FR-1"
  /\ 1 <= PlanItem.line_number (PlanItem.mk "FR-1" "do it" true 3 ["test_a"; "test_b"])
  /\ exists line,
       nth_error (Py.split Py.newline (doc mixed_plan))
         (PlanItem.line_number (PlanItem.mk "FR-1" "do it" true 3 ["test_a"; "test_b"]) - 1)
       = Some line
       /\ names line "FR-1".
Proof.
  apply (parse_plan_entry (doc mixed_plan)).
  vm_compute. reflexivity.
Defined.

Lemma plan_loop_absent (lines pre : list string) (start : nat) (st : plan_state)
  (id : string) :
  (forall l, List.In l pre -> ~ names l id) ->
  Dict.get (fst st) id = None ->
  Dict.get (fst (plan_loop lines (Py.enumerate start pre) st)) id = None.
Proof.
  intros Hpre Hnone.
  destruct (Dict.get (fst (plan_loop lines (Py.enumerate start pre) st)) id) eqn:G;
    [|reflexivity].
  assert (M : Dict.mem id (fst (plan_loop lines (Py.enumerate start pre) st)) = true)
    by (unfold Dict.mem; now rewrite G).
  apply plan_loop_mem in M. destruct M as [M | [i [l [Hin Hn]]]].
  - unfold Dict.mem in M. now rewrite Hnone in M.
  - apply enumerate_In in Hin. destruct Hin as [_ Hin].
    apply nth_error_In in Hin. now destruct (Hpre l Hin).
Qed.

(** X6.  Among table rows the first one wins: when no line before a table
    row names the row's id, and every later line is a table row or an
    unrecognised line, the final entry of the id is the one this row writes,
    with [completed] true exactly for the statuses done, complete and yes. *)
Theorem first_table_row_wins (content : string) (pre post : list string)
  (t id status_text : string) :
  Py.split Py.newline content = (pre ++ t :: post)%list ->
  (forall l, List.In l pre -> ~ names l id) ->
  classify t = TableRow id status_text ->
  (forall l, List.In l post -> table_or_ignored l) ->
  Dict.get (parse_plan content) id
  = Some (PlanItem.mk id ("Table entry: " ++ Py.strip t)
            (Py.mem status_text ["done"; "complete"; "yes"]) (S (List.length pre)) []).
Proof.
  intros Hsplit Hpre Ht Hpost.
  unfold parse_plan, parse_plan_lines. rewrite Hsplit.
  pose proof (plan_loop_absent (pre ++ t :: post) pre 1 (Dict.empty, []) id Hpre eq_refl)
    as Habs.
  unfold plan_loop in *. rewrite enumerate_app, fold_left_app.
  cbn [Py.enumerate fold_left fst snd Nat.add].
  destruct (fold_left (fun st il => plan_line (pre ++ t :: post) (fst il) (snd il) st)
                      (Py.enumerate 1 pre) (Dict.empty, [])) as [items0 cur0].
  cbn [fst] in Habs.
  rewrite (plan_line_table (pre ++ t :: post) _ t items0 cur0 id status_text Ht).
  unfold Dict.mem. rewrite Habs. cbn [negb].
  apply (plan_loop_keeps (pre ++ t :: post) post); [exact Hpost|].
  cbn [fst]. apply get_set_same.
Qed.

Lemma first_table_row_wins_witness :
  Dict.get (parse_plan (doc table_plan)) "FR-1"
  = Some (PlanItem.mk "FR-1" ("Table entry: " ++ Py.strip "| FR-1 | Pending |")
            (Py.mem "pending" ["done"; "complete"; "yes"]) 4 []).
Proof.
  apply (first_table_row_wins (doc table_plan)
           ["| Requirement | Status |"; "|---|---|"; "| FR-2 | Done |"]
           ["| FR-1 | Done |"] "| FR-1 | Pending |" "FR-1" "pending").
  - vm_compute. reflexivity.
  - intros l [<- | [<- | [<- | []]]]; vm_compute; try tauto. discriminate.
  - vm_compute. reflexivity.
  - intros l [<- | []]. left. exists "FR-1", "done". vm_compute. reflexivity.
Defined.

Lemma plan_loop_scope (lines : list string) (todo : list (nat * string))
  (st : plan_state) (k : string) :
  (forall i l, List.In (i, l) todo -> ~ names l k) ->
  ~ List.In k (snd st) ->
  Dict.get (fst (plan_loop lines todo st)) k = Dict.get (fst st) k.
Proof.
  unfold plan_loop. revert st. induction todo as [|[i line] todo IH]; intros [items cur] Hn Hc.
  - reflexivity.
  - cbn [fold_left fst snd] in *.
    assert (Hl : ~ names line k) by (apply (Hn i); now left).
    rewrite IH.
    + apply plan_line_untouched; [exact Hl | intros _; exact Hc].
    + intros j l Hin. apply (Hn j). now right.
    + rewrite plan_line_section. unfold names in Hl.
      destruct (classify line); assumption.
Qed.

(** X9.  Revocation does not cross a heading: from a heading on, as long as
    no line names an id, the entry of the id stays what it was when the
    heading was reached, whatever unchecked tasks follow. *)
Theorem heading_closes_section (pre post : list string) (h text k : string) :
  classify h = Heading text ->
  (forall l, List.In l (h :: post) -> ~ names l k) ->
  Dict.get (parse_plan_lines (pre ++ h :: post)) k
  = Dict.get (fst (plan_loop (pre ++ h :: post) (Py.enumerate 1 pre) (Dict.empty, []))) k.
Proof.
  intros Hh Hn.
  unfold parse_plan_lines, plan_loop. rewrite enumerate_app, fold_left_app.
  cbn [Py.enumerate fold_left fst snd].
  destruct (fold_left (fun st il => plan_line (pre ++ h :: post) (fst il) (snd il) st)
                      (Py.enumerate 1 pre) (Dict.empty, [])) as [items0 cur0].
  assert (Hh' : ~ names h k) by (apply Hn; now left).
  fold (plan_loop (pre ++ h :: post) (Py.enumerate (S (1 + List.length pre)) post)
          (plan_line (pre ++ h :: post) (1 + List.length pre) h (items0, cur0))).
  rewrite plan_loop_scope.
  - cbn [fst]. apply plan_line_untouched; [exact Hh'|].
    unfold unchecked_task. rewrite Hh. discriminate.
  - intros i l Hin. apply enumerate_In in Hin. destruct Hin as [_ Hin].
    apply nth_error_In in Hin. apply Hn. now right.
  - rewrite plan_line_section, Hh. unfold names in Hh'. now rewrite Hh in Hh'.
Qed.

Lemma heading_closes_section_witness :
  Dict.get (parse_plan_lines two_section_plan) "FR-1"
  = Dict.get (fst (plan_loop two_section_plan
                     (Py.enumerate 1 ["## Login (FR-1)"; "- [x] form"])
                     (Dict.empty, []))) "FR-1".
Proof.
  apply (heading_closes_section ["## Login (FR-1)"; "- [x] form"]
           ["- [ ] **FR-3**: export"; "- [ ] totals"] "## Reports (FR-2)" "Reports (FR-2)").
  - vm_compute. reflexivity.
  - intros l [<- | [<- | [<- | []]]]; vm_compute; intros H;
      repeat (destruct H as [H | H]; try discriminate H); try discriminate H; try exact H.
Defined.

Example two_section_plan_value :
  option_map PlanItem.completed (Dict.get (parse_plan_lines two_section_plan) "FR-1")
  = Some true
  /\ option_map PlanItem.completed (Dict.get (parse_plan_lines two_section_plan) "FR-2")
     = Some false.
Proof. split; vm_compute; reflexivity. Qed.

(* ================================================================== *)
(** * Further properties of the test analyzer *)

(** ** [AssertionFinder] *)

Lemma fold_true {A} (f : A -> bool -> bool) (l : list A) :
  (forall x, List.In x l -> f x true = true) ->
  fold_left (fun found x => f x found) l true = true.
Proof.
  induction l as [|x l IH]; intros H; simpl; [reflexivity|].
  rewrite H by now left. apply IH. intros y Hy. apply H. now right.
Qed.

Lemma fold_hit {A} (f : A -> bool -> bool) (l : list A) (x : A) (found : bool) :
  (forall y, List.In y l -> f y true = true) ->
  List.In x l -> (forall b, f x b = true) ->
  fold_left (fun found y => f y found) l found = true.
Proof.
  intros Hmono. revert found. induction l as [|y l IH]; intros found Hin Hx; [destruct Hin|].
  simpl. destruct Hin as [-> | Hin].
  - rewrite Hx. apply fold_true. intros z Hz. apply Hmono. now right.
  - apply IH; [|exact Hin | exact Hx]. intros z Hz. apply Hmono. now right.
Qed.

Lemma visit_expr_true : forall node, AssertionFinder.visit_expr node true = true.
Proof.
  fix IH 1. intros [value | id | value attr | func args keywords | l ops comparators | children];
    simpl.
  - reflexivity.
  - reflexivity.
  - apply IH.
  - match goal with
    | |- context [AssertionFinder.visit_expr func ?b] =>
        assert (E : b = true);
        [destruct func; try reflexivity;
         match goal with |- context [if ?c then _ else _] => destruct c end; reflexivity
        | rewrite E; clear E]
    end.
    rewrite IH.
    assert (Ha : fold_left (fun found arg => AssertionFinder.visit_expr arg found) args true = true).
    { induction args as [|a args IHa]; simpl; [reflexivity|]. now rewrite IH. }
    rewrite Ha.
    induction keywords as [|a kws IHk]; simpl; [reflexivity|]. now rewrite IH.
  - rewrite IH.
    induction comparators as [|a cs IHc]; simpl; [reflexivity|]. now rewrite IH.
  - induction children as [|a cs IHc]; simpl; [reflexivity|]. now rewrite IH.
Qed.

Lemma visit_withitem_true (item : withitem) : AssertionFinder.visit_withitem item true = true.
Proof.
  unfold AssertionFinder.visit_withitem. rewrite visit_expr_true.
  destruct (snd item); [apply visit_expr_true | reflexivity].
Qed.

Lemma visit_true : forall node, AssertionFinder.visit node true = true.
Proof.
  fix IH 1.
  intros [name lineno decs body | name lineno decs body | name body | test msg |
          | value | items body | exprs stmts]; cbn [AssertionFinder.visit]; try reflexivity.
  - apply visit_expr_true.
  - assert (E1 : fold_left
                   (fun found item =>
                      match context_expr item with
                      | Call (Attribute _ attr) _ _ =>
                          if Py.mem attr ["raises"; "warns"] then true else found
                      | _ => found
                      end) items true = true).
    { induction items as [|it items IHi]; simpl; [reflexivity|].
      destruct (context_expr it) as [| | |func ? ?| |]; try exact IHi.
      destruct func; try exact IHi.
      match goal with |- context [if ?c then _ else _] => destruct c end; exact IHi. }
    rewrite E1.
    rewrite (fold_true AssertionFinder.visit_withitem items)
      by (intros; apply visit_withitem_true).
    induction body as [|s body IHb]; simpl; [reflexivity|]. now rewrite IH.
  - rewrite (fold_true AssertionFinder.visit_expr exprs) by (intros; apply visit_expr_true).
    induction stmts as [|s stmts IHs]; simpl; [reflexivity|]. now rewrite IH.
Qed.

Lemma visit_has_assert (node : stmt) :
  has_assert node -> forall found, AssertionFinder.visit node found = true.
Proof.
  induction 1 as [test msg | items body s Hin Hs IH | exprs stmts s Hin Hs IH]; intros found.
  - reflexivity.
  - simpl. apply (fold_hit AssertionFinder.visit body s); [|exact Hin | exact IH].
    intros; apply visit_true.
  - simpl. apply (fold_hit AssertionFinder.visit stmts s); [|exact Hin | exact IH].
    intros; apply visit_true.
Qed.

(** X12.  [AssertionFinder] never resets its flag, and it finds every
    [assert] that sits in the body outside nested definitions, also inside
    [with] blocks and other compound statements; a nested function or class
    definition is skipped whatever it contains. *)
Theorem finder_finds_asserts (body : list stmt) (found : bool) :
  (forall s, List.In s body -> AssertionFinder.visit s true = true)
  /\ ((exists s, List.In s body /\ has_assert s) ->
      fold_left (fun found node => AssertionFinder.visit node found) body found = true)
  /\ (forall name lineno decorator_list inner,
        AssertionFinder.visit (FunctionDef name lineno decorator_list inner) found = found
        /\ AssertionFinder.visit (AsyncFunctionDef name lineno decorator_list inner) found
           = found
        /\ AssertionFinder.visit (ClassDef name inner) found = found).
Proof.
  split; [intros; apply visit_true|]. split.
  - intros [s [Hin Hs]].
    apply (fold_hit AssertionFinder.visit body s);
      [intros; apply visit_true | exact Hin | now apply visit_has_assert].
  - intros. repeat split.
Qed.

(** ** [check_test_integrity] *)

Lemma existsb_nontrivial (l : list stmt) :
  existsb (fun node =>
             match node with
             | Pass => false
             | Expr (Constant _) => false
             | _ => true
             end) l
  = negb (forallb trivial_stmt l).
Proof.
  induction l as [|s l IH]; simpl; [reflexivity|].
  rewrite IH. destruct s as [| | | | |[]| |]; reflexivity.
Qed.

(** The integrity check, with its two early decisions named. *)
Lemma check_test_integrity_eq (body : list stmt) :
  check_test_integrity body
  = if only_pass (without_docstring body)
    then ["Placeholder test (only pass statement)"]
    else
      let issues :=
        fold_left (fun issues node => always_pass node issues) (without_docstring body) [] in
      if fold_left (fun found node => AssertionFinder.visit node found) body false
      then issues
      else if forallb trivial_stmt (without_docstring body)
           then (issues ++ ["No assertions found (placeholder test)"])%list
           else issues.
Proof.
  assert (F : forall (b c : bool) (A B : list string),
             (if negb b then if negb (negb c) then A else B else B)
             = (if b then B else if c then A else B))
    by (intros [] [] A B; reflexivity).
  unfold check_test_integrity, without_docstring, only_pass.
  destruct body as [|s tl].
  - reflexivity.
  - destruct s as [| | | | |value| |];
      try (cbv beta iota zeta; rewrite existsb_nontrivial; apply F).
    + destruct tl; cbv beta iota zeta; [reflexivity|].
      rewrite existsb_nontrivial; apply F.
    + destruct value as [c| | | | |];
        try (cbv beta iota zeta; rewrite existsb_nontrivial; apply F).
      destruct c; try (cbv beta iota zeta; rewrite existsb_nontrivial; apply F).
      destruct tl as [|s2 tl2];
        [cbv beta iota zeta; rewrite existsb_nontrivial; apply F|].
      destruct s2; try (cbv beta iota zeta; rewrite existsb_nontrivial; apply F).
      destruct tl2; cbv beta iota zeta; [reflexivity|].
      rewrite existsb_nontrivial; apply F.
Qed.

Lemma always_pass_adds (node : stmt) (issues : list string) :
  exists extra,
    always_pass node issues = (issues ++ extra)%list
    /\ forall s, List.In s extra -> List.In s always_pass_messages.
Proof.
  assert (N : exists extra, issues = (issues ++ extra)%list
                            /\ forall s, List.In s extra -> List.In s always_pass_messages)
    by (exists []; split; [now rewrite app_nil_r | intros s []]).
  assert (Y : forall m, List.In m always_pass_messages ->
                exists extra, (issues ++ [m])%list = (issues ++ extra)%list
                              /\ forall s, List.In s extra -> List.In s always_pass_messages)
    by (intros m Hm; exists [m]; split; [reflexivity | intros s [<- | []]; exact Hm]).
  unfold always_pass.
  repeat match goal with
         | |- context [match ?x with _ => _ end] => destruct x
         end;
    first [exact N | apply Y; simpl; tauto].
Qed.

Lemma always_pass_fold (l : list stmt) (issues : list string) :
  exists extra,
    fold_left (fun issues node => always_pass node issues) l issues = (issues ++ extra)%list
    /\ forall s, List.In s extra -> List.In s always_pass_messages.
Proof.
  revert issues. induction l as [|node l IH]; intros issues; simpl.
  - exists []. split; [now rewrite app_nil_r | intros s []].
  - destruct (always_pass_adds node issues) as [e1 [-> H1]].
    destruct (IH (issues ++ e1)%list) as [e2 [-> H2]].
    exists (e1 ++ e2)%list. split; [now rewrite app_assoc|].
    intros s Hs. apply in_app_or in Hs. destruct Hs as [Hs | Hs]; [exact (H1 s Hs) | exact (H2 s Hs)].
Qed.

Lemma trivial_fold_always_pass (l : list stmt) (issues : list string) :
  forallb trivial_stmt l = true ->
  fold_left (fun issues node => always_pass node issues) l issues = issues.
Proof.
  revert issues. induction l as [|node l IH]; intros issues; simpl; [reflexivity|].
  intros H. apply andb_true_iff in H. destruct H as [Hn Hl].
  assert (E : always_pass node issues = issues)
    by (destruct node as [| | | | |[]| |]; try discriminate; reflexivity).
  rewrite E. now apply IH.
Qed.

Lemma trivial_fold_visit (l : list stmt) (found : bool) :
  forallb trivial_stmt l = true ->
  fold_left (fun found node => AssertionFinder.visit node found) l found = found.
Proof.
  revert found. induction l as [|node l IH]; intros found; simpl; [reflexivity|].
  intros H. apply andb_true_iff in H. destruct H as [Hn Hl].
  assert (E : AssertionFinder.visit node found = found)
    by (destruct node as [| | | | |[]| |]; try discriminate; reflexivity).
  rewrite E. now apply IH.
Qed.

Lemma trivial_with_docstring (body : list stmt) :
  forallb trivial_stmt (without_docstring body) = true -> forallb trivial_stmt body = true.
Proof.
  unfold without_docstring.
  destruct body as [|s tl]; [reflexivity|].
  destruct s as [| | | | |[c| | | | |]| |]; try (intros H; exact H).
  destruct c; intros H; exact H.
Qed.

(** X13.  The flag "No assertions found (placeholder test)" is raised
    exactly when the body, without its documentation string, is not a single
    [pass] and consists only of [pass] statements and constant expression
    statements; the issue list is then that one flag.  What
    [AssertionFinder] finds never changes the outcome: a body with any other
    statement is never flagged, with or without assertions. *)
Theorem no_assertions_flag_iff_trivial_body (body : list stmt) :
  (List.In "No assertions found (placeholder test)" (check_test_integrity body)
   <-> only_pass (without_docstring body) = false
       /\ forallb trivial_stmt (without_docstring body) = true)
  /\ (only_pass (without_docstring body) = false ->
      forallb trivial_stmt (without_docstring body) = true ->
      check_test_integrity body = ["No assertions found (placeholder test)"]).
Proof.
  assert (V : only_pass (without_docstring body) = false ->
              forallb trivial_stmt (without_docstring body) = true ->
              check_test_integrity body = ["No assertions found (placeholder test)"]).
  { intros Hp Ht. rewrite check_test_integrity_eq, Hp, Ht. cbv zeta.
    rewrite (trivial_fold_visit body false (trivial_with_docstring body Ht)).
    now rewrite (trivial_fold_always_pass _ [] Ht). }
  split; [|exact V]. split.
  - rewrite check_test_integrity_eq.
    destruct (only_pass (without_docstring body)).
    { intros [H | []]. discriminate H. }
    cbv zeta.
    destruct (always_pass_fold (without_docstring body) []) as [extra [-> Hex]].
    assert (Hno : ~ List.In "No assertions found (placeholder test)" extra).
    { intros H. apply Hex in H. simpl in H.
      repeat (destruct H as [H | H]; try discriminate H). exact H. }
    destruct (fold_left _ body false); [intros H; now destruct (Hno H)|].
    destruct (forallb trivial_stmt (without_docstring body)); [tauto|].
    intros H; now destruct (Hno H).
  - intros [Hp Ht]. rewrite (V Hp Ht). now left.
Qed.

(** X14.  Every issue [check_test_integrity] reports is one of its five
    messages, and the placeholder message only ever stands alone. *)
Theorem integrity_issues_known (body : list stmt) :
  (forall s, List.In s (check_test_integrity body) -> List.In s integrity_messages)
  /\ (List.In "Placeholder test (only pass statement)" (check_test_integrity body) ->
      check_test_integrity body = ["Placeholder test (only pass statement)"]).
Proof.
  rewrite check_test_integrity_eq.
  destruct (only_pass (without_docstring body)).
  { split; [|reflexivity]. intros s [<- | []]. now left. }
  cbv zeta.
  destruct (always_pass_fold (without_docstring body) []) as [extra [-> Hex]].
  assert (Hk : forall s, List.In s extra -> List.In s integrity_messages).
  { intros s Hs. right. apply in_or_app. left. now apply Hex. }
  assert (Hl : forall s, List.In s (extra ++ ["No assertions found (placeholder test)"])%list
                         -> List.In s integrity_messages).
  { intros s Hs. apply in_app_or in Hs. destruct Hs as [Hs | [<- | []]]; [now apply Hk|].
    right. apply in_or_app. right. now left. }
  assert (Hp : ~ List.In "Placeholder test (only pass statement)"
                 (extra ++ ["No assertions found (placeholder test)"])%list).
  { intros H. apply in_app_or in H. destruct H as [H | [H | []]]; [|discriminate H].
    apply Hex in H. simpl in H.
    repeat (destruct H as [H | H]; try discriminate H). exact H. }
  assert (Hp' : ~ List.In "Placeholder test (only pass statement)" extra).
  { intros H. apply Hp. apply in_or_app. now left. }
  cbn [app].
  destruct (fold_left _ body false); [split; [exact Hk | intros H; now destruct (Hp' H)]|].
  destruct (forallb trivial_stmt (without_docstring body)).
  - split; [exact Hl | intros H; now destruct (Hp H)].
  - split; [exact Hk | intros H; now destruct (Hp' H)].
Qed.

(** ** [analyze_test_file] *)

Lemma process_def_record (test_path : Path) (node : stmt) (tests : list TestInfo.t) :
  process_def test_path node tests = (tests ++ test_record test_path node)%list.
Proof.
  destruct node; simpl; try now rewrite app_nil_r.
  - unfold process_test_function. destruct (Py.startswith name "test_"); simpl;
      [reflexivity | now rewrite app_nil_r].
  - unfold process_test_function. destruct (Py.startswith name "test_"); simpl;
      [reflexivity | now rewrite app_nil_r].
Qed.

Lemma test_record_not_def (test_path : Path) (node : stmt) :
  is_function_def node = false -> test_record test_path node = [].
Proof. destruct node; simpl; try reflexivity; discriminate. Qed.

Lemma fold_process_def (test_path : Path) (l : list stmt) (tests : list TestInfo.t) :
  fold_left (fun tests item => process_def test_path item tests) l tests
  = (tests ++ flat_map (test_record test_path) (filter is_function_def l))%list.
Proof.
  revert tests. induction l as [|node l IH]; intros tests; simpl.
  - now rewrite app_nil_r.
  - rewrite IH, process_def_record.
    destruct (is_function_def node) eqn:E; simpl.
    + now rewrite app_assoc.
    + now rewrite (test_record_not_def _ _ E), app_nil_r.
Qed.

Lemma test_record_fields (test_path : Path) (node : stmt) (t : TestInfo.t) :
  List.In t (test_record test_path node) ->
  Py.startswith (TestInfo.name t) "test_" = true /\ TestInfo.file t = test_path.
Proof.
  destruct node; simpl; try tauto;
    destruct (Py.startswith name "test_") eqn:E; simpl; try tauto;
    intros [<- | []]; auto.
Qed.

(** X15.  When the file parses, [analyze_test_file] returns one record for
    each function definition whose name starts with [test_] and that stands at
    the top level of the module or directly in the body of a top-level class,
    in source order; functions nested deeper never give a record.  Every
    record carries the path of the file. *)
Theorem analyze_test_file_records (ast_parse : string -> parse_outcome)
  (test_path : Path) (content : string) (tree_body : list stmt) :
  ast_parse content = Mod tree_body ->
  analyze_test_file ast_parse test_path content
  = Ok (flat_map (test_record test_path) (candidate_defs tree_body))
  /\ forall t, List.In t (flat_map (test_record test_path) (candidate_defs tree_body)) ->
               Py.startswith (TestInfo.name t) "test_" = true
               /\ TestInfo.file t = test_path.
Proof.
  intros Hp. split.
  - unfold analyze_test_file. rewrite Hp. clear Hp. f_equal.
    change (flat_map (test_record test_path) (candidate_defs tree_body))
      with ([] ++ flat_map (test_record test_path) (candidate_defs tree_body))%list.
    generalize (@nil TestInfo.t) as tests.
    unfold candidate_defs.
    induction tree_body as [|node tree_body IH]; intros tests; simpl.
    + now rewrite app_nil_r.
    + rewrite flat_map_app, app_assoc. rewrite <- IH. f_equal.
      destruct node as [name lineno decs body | name lineno decs body | name body
                       | | | | |]; simpl; rewrite ?app_nil_r; try reflexivity.
      * exact (process_def_record test_path (FunctionDef name lineno decs body) tests).
      * exact (process_def_record test_path (AsyncFunctionDef name lineno decs body) tests).
      * apply fold_process_def.
  - intros t Ht. apply in_flat_map in Ht. destruct Ht as [node [_ Ht]].
    now apply test_record_fields in Ht.
Qed.

Lemma analyze_test_file_records_witness :
  analyze_test_file class_parse ["srv"; "tests"; "test_login.py"] "class TestLogin: ..."
  = Ok (flat_map (test_record ["srv"; "tests"; "test_login.py"]) (candidate_defs tree_class))
  /\ forall t,
       List.In t (flat_map (test_record ["srv"; "tests"; "test_login.py"])
                    (candidate_defs tree_class)) ->
       Py.startswith (TestInfo.name t) "test_" = true
       /\ TestInfo.file t = ["srv"; "tests"; "test_login.py"].
Proof.
  apply (analyze_test_file_records class_parse). reflexivity.
Defined.

Example tree_class_records :
  map TestInfo.name
    (flat_map (test_record ["srv"; "tests"; "test_login.py"]) (candidate_defs tree_class))
  = ["test_ok"; "test_outer"; "test_async"].
Proof. reflexivity. Qed.

(* ================================================================== *)
(** * Further properties of the test scanner *)










(** A project with test files at several depths: each is listed once. *)
Example deep_project_files :
  find_test_files first_seen_order deep_project
  = [["srv"; "test_top.py"]; ["srv"; "tests"; "unit"; "test_a.py"];
     ["srv"; "src"; "test_.py"]].
Proof. vm_compute. reflexivity. Qed.

(* ================================================================== *)
(** * Further properties of the reconciler, the report and [main] *)

Lemma run_audit_shape (ast_parse : string -> parse_outcome)
  (set_iter : list Path -> list Path) (p : Project) (r : AuditResult.t) :
  run_audit ast_parse set_iter p = Ok r ->
  exists tests,
    r = reconcile (match prd p with Some c => parse_prd c | None => Dict.empty end)
                  (match plan p with Some c => parse_plan c | None => Dict.empty end)
                  tests.
Proof.
  unfold run_audit.
  destruct (collect_tests ast_parse p (find_test_files set_iter p)) as [tests|e]; simpl.
  - intros [= <-]. now exists tests.
  - discriminate.
Qed.

Lemma has_tests_In (id : string) (tests : list TestInfo.t) :
  has_tests id tests = true
  <-> exists t, List.In t tests /\ List.In (CStr id) (TestInfo.requirement_ids t).
Proof.
  unfold has_tests. rewrite existsb_exists. split.
  - intros [t [Ht H]]. exists t. split; [exact Ht | now apply str_in_In].
  - intros [t [Ht H]]. exists t. split; [exact Ht | now apply str_in_In].
Qed.

(** X18.  In the result of an audit, [prd_not_in_plan] holds exactly the
    requirement ids without a plan item and [plan_not_in_prd] exactly the plan
    ids without a requirement; no id is in both lists. *)
Theorem sync_lists_spec (ast_parse : string -> parse_outcome)
  (set_iter : list Path -> list Path) (p : Project) (r : AuditResult.t) (id : string) :
  run_audit ast_parse set_iter p = Ok r ->
  (List.In id (AuditResult.prd_not_in_plan r)
   <-> Dict.mem id (AuditResult.requirements r) = true
       /\ Dict.mem id (AuditResult.plan_items r) = false)
  /\ (List.In id (AuditResult.plan_not_in_prd r)
      <-> Dict.mem id (AuditResult.plan_items r) = true
          /\ Dict.mem id (AuditResult.requirements r) = false)
  /\ ~ (List.In id (AuditResult.prd_not_in_plan r)
        /\ List.In id (AuditResult.plan_not_in_prd r)).
Proof.
  intros Hrun. destruct (run_audit_shape _ _ _ _ Hrun) as [tests ->].
  cbn [reconcile AuditResult.prd_not_in_plan AuditResult.plan_not_in_prd
       AuditResult.requirements AuditResult.plan_items].
  rewrite !filter_In, !mem_keys, !negb_true_iff.
  repeat split; try tauto.
  intros [[H1 H2] [H3 H4]]. congruence.
Qed.

Lemma sync_lists_spec_witness :
  (List.In "FR-2" (AuditResult.prd_not_in_plan scenario_result)
   <-> Dict.mem "FR-2" (AuditResult.requirements scenario_result) = true
       /\ Dict.mem "FR-2" (AuditResult.plan_items scenario_result) = false)
  /\ (List.In "FR-2" (AuditResult.plan_not_in_prd scenario_result)
      <-> Dict.mem "FR-2" (AuditResult.plan_items scenario_result) = true
          /\ Dict.mem "FR-2" (AuditResult.requirements scenario_result) = false)
  /\ ~ (List.In "FR-2" (AuditResult.prd_not_in_plan scenario_result)
        /\ List.In "FR-2" (AuditResult.plan_not_in_prd scenario_result)).
Proof.
  apply (sync_lists_spec sample_parse first_seen_order scenario_project).
  vm_compute. reflexivity.
Defined.

Lemma get_In {V} (d : dict V) (k : string) (v : V) :
  Dict.get d k = Some v -> List.In (k, v) d.
Proof.
  induction d as [|[k0 v0] d IH]; simpl; [discriminate|].
  destruct (String.eqb k k0) eqn:E.
  - apply String.eqb_eq in E. intros [= ->]. left. now subst.
  - intros H. right. now apply IH.
Qed.

Lemma In_mem {V} (d : dict V) (k : string) (v : V) :
  List.In (k, v) d -> Dict.mem k d = true.
Proof.
  intros H. apply mem_keys. unfold Dict.keys.
  change k with (fst (k, v)). now apply in_map.
Qed.

Lemma completion_issues_In (requirements : dict Requirement.t)
  (plan_items : dict PlanItem.t) (tests : list TestInfo.t) (id msg : string) :
  List.In (id, msg) (AuditResult.completion_issues (reconcile requirements plan_items tests))
  <-> msg = "Marked complete but no tests found"
      /\ Dict.mem id requirements = true
      /\ has_tests id tests = false
      /\ exists item, List.In (id, item) plan_items /\ PlanItem.completed item = true.
Proof.
  cbn [reconcile AuditResult.completion_issues]. rewrite in_flat_map. split.
  - intros [[k item] [Hin H]].
    destruct (PlanItem.completed item) eqn:C; [|destruct H].
    destruct (has_tests k tests) eqn:T; [destruct H|].
    destruct (Dict.mem k requirements) eqn:M; [|destruct H].
    destruct H as [[= <- <-] | []]. repeat split; try assumption.
    exists item. split; assumption.
  - intros [-> [M [T [item [Hin C]]]]]. exists (id, item). split; [exact Hin|].
    rewrite C, T, M. now left.
Qed.

(** X19.  In the result of an audit, every completion issue is about a
    plan item that is marked complete, whose id is a requirement and is
    declared by no test; its message is always "Marked complete but no tests
    found", and its id is also listed in [no_test_coverage].  Conversely every
    completed entry of the plan with these properties is reported. *)
Theorem completion_issues_spec (ast_parse : string -> parse_outcome)
  (set_iter : list Path -> list Path) (p : Project) (r : AuditResult.t) :
  run_audit ast_parse set_iter p = Ok r ->
  (forall id msg,
      List.In (id, msg) (AuditResult.completion_issues r) ->
      msg = "Marked complete but no tests found"
      /\ Dict.mem id (AuditResult.requirements r) = true
      /\ Dict.mem id (AuditResult.plan_items r) = true
      /\ (forall t, List.In t (AuditResult.tests r) ->
                    ~ List.In (CStr id) (TestInfo.requirement_ids t))
      /\ List.In id (AuditResult.no_test_coverage r))
  /\ (forall id item,
        Dict.get (AuditResult.plan_items r) id = Some item ->
        PlanItem.completed item = true ->
        Dict.mem id (AuditResult.requirements r) = true ->
        (forall t, List.In t (AuditResult.tests r) ->
                   ~ List.In (CStr id) (TestInfo.requirement_ids t)) ->
        List.In (id, "Marked complete but no tests found") (AuditResult.completion_issues r)).
Proof.
  intros Hrun. destruct (run_audit_shape _ _ _ _ Hrun) as [tests ->].
  set (reqs := match prd p with Some c => parse_prd c | None => Dict.empty end).
  set (items := match plan p with Some c => parse_plan c | None => Dict.empty end).
  split.
  - intros id msg H. apply completion_issues_In in H.
    destruct H as [-> [M [T [item [Hin C]]]]].
    assert (N : forall t, List.In t tests -> ~ List.In (CStr id) (TestInfo.requirement_ids t)).
    { intros t Ht Hid.
      assert (T' : has_tests id tests = true) by (apply has_tests_In; now exists t).
      congruence. }
    cbn [reconcile AuditResult.requirements AuditResult.plan_items AuditResult.tests].
    repeat split; try assumption.
    + now apply In_mem in Hin.
    + apply no_test_coverage_spec. split; assumption.
  - cbn [reconcile AuditResult.requirements AuditResult.plan_items AuditResult.tests].
    intros id item G C M N. apply completion_issues_In.
    repeat split; try assumption.
    + destruct (has_tests id tests) eqn:T; [|reflexivity].
      apply has_tests_In in T. destruct T as [t [Ht Hid]]. destruct (N t Ht Hid).
    + exists item. split; [now apply get_In | exact C].
Qed.

Lemma completion_issues_spec_witness :
  (forall id msg,
      List.In (id, msg) (AuditResult.completion_issues numeric_result) ->
      msg = "Marked complete but no tests found"
      /\ Dict.mem id (AuditResult.requirements numeric_result) = true
      /\ Dict.mem id (AuditResult.plan_items numeric_result) = true
      /\ (forall t, List.In t (AuditResult.tests numeric_result) ->
                    ~ List.In (CStr id) (TestInfo.requirement_ids t))
      /\ List.In id (AuditResult.no_test_coverage numeric_result))
  /\ (forall id item,
        Dict.get (AuditResult.plan_items numeric_result) id = Some item ->
        PlanItem.completed item = true ->
        Dict.mem id (AuditResult.requirements numeric_result) = true ->
        (forall t, List.In t (AuditResult.tests numeric_result) ->
                   ~ List.In (CStr id) (TestInfo.requirement_ids t)) ->
        List.In (id, "Marked complete but no tests found")
          (AuditResult.completion_issues numeric_result)).
Proof.
  apply (completion_issues_spec numeric_parse first_seen_order numeric_project).
  vm_compute. reflexivity.
Defined.

Example numeric_result_value :
  AuditResult.completion_issues numeric_result
  = [("FR-1", "Marked complete but no tests found")]
  /\ AuditResult.plan_not_in_prd numeric_result = ["FR-9"]
  /\ map TestInfo.requirement_ids (AuditResult.suspect_tests numeric_result) = [[CInt 7]].
Proof. vm_compute. repeat split; reflexivity. Qed.

(** ** What [generate_report] can raise *)

Lemma for_each_by {A B} (f : A -> result B) (ok : A -> bool) (e0 : string) (l : list A) :
  (forall x, List.In x l ->
             (ok x = true -> exists y, f x = Ok y) /\ (ok x = false -> f x = Raise e0)) ->
  (forallb ok l = true -> exists ys, for_each f l = Ok ys)
  /\ (forallb ok l = false -> for_each f l = Raise e0).
Proof.
  induction l as [|x l IH]; intros H; simpl.
  - split; [now exists [] | discriminate].
  - destruct (H x (or_introl eq_refl)) as [Hok Hbad].
    destruct IH as [IHok IHbad]; [intros y Hy; apply H; now right|].
    destruct (ok x); simpl.
    + destruct (Hok eq_refl) as [y ->]. simpl. split.
      * intros Hl. destruct (IHok Hl) as [ys ->]. simpl. now exists (y :: ys).
      * intros Hl. now rewrite (IHbad Hl).
    + split; [discriminate|]. intros _. now rewrite (Hbad eq_refl).
Qed.

Lemma for_each_getitem {V} (d : dict V) (g : string -> V -> string) (l : list string) :
  (forall x, List.In x l -> Dict.mem x d = true) ->
  exists ys, for_each (fun x => v <- getitem d x ;; Ok (g x v)) l = Ok ys.
Proof.
  intros H. apply for_each_ok. intros x Hx.
  destruct (getitem_ok d x (H x Hx)) as [v ->]. simpl. eauto.
Qed.

Lemma join_ids_by (ids : list constant) :
  (forallb is_str ids = true -> exists s, join_ids ids = Ok s)
  /\ (forallb is_str ids = false -> join_ids ids = Raise "TypeError").
Proof.
  unfold join_ids.
  destruct (for_each_by
              (fun c => match c with CStr s => Ok s | _ => Raise "TypeError" end)
              is_str "TypeError" ids) as [Hok Hbad].
  - intros c _. destruct c; simpl; split; try discriminate; eauto.
  - split.
    + intros H. destruct (Hok H) as [ys ->]. simpl. eauto.
    + intros H. now rewrite (Hbad H).
Qed.

Lemma suspect_test_lines_by (root : Path) (t : TestInfo.t) :
  (forallb is_str (TestInfo.requirement_ids t) = true ->
   exists ls, suspect_test_lines root t = Ok ls)
  /\ (forallb is_str (TestInfo.requirement_ids t) = false ->
      suspect_test_lines root t = Raise "TypeError").
Proof.
  unfold suspect_test_lines.
  destruct (join_ids_by (TestInfo.requirement_ids t)) as [Hok Hbad].
  destruct (TestInfo.requirement_ids t) as [|c ids] eqn:E; cbn [nonempty].
  - split; [|discriminate]. intros _. cbn [bind]. eauto.
  - split.
    + intros H. destruct (Hok H) as [s ->]. cbn [bind]. eauto.
    + intros H. now rewrite (Hbad H).
Qed.

Section ReportOfReconcile.

Variables (requirements : dict Requirement.t) (plan_items : dict PlanItem.t).
Variables (tests : list TestInfo.t) (root : Path).

Let r := reconcile requirements plan_items tests.

Lemma id_sections_ok :
  (exists s1, prd_not_in_plan_lines r = Ok s1)
  /\ (exists s2, plan_not_in_prd_lines r = Ok s2)
  /\ (exists s3, no_test_coverage_lines r = Ok s3)
  /\ (exists s5, completion_issues_lines r = Ok s5).
Proof.
  repeat split.
  - unfold prd_not_in_plan_lines. destruct (nonempty _); [|eauto].
    destruct (for_each_getitem (AuditResult.requirements r)
                (fun req_id req =>
                   "- **" ++ req_id ++ "**: " ++ Requirement.text req
                     ++ " (PRD.md:" ++ Py.str_of_nat (Requirement.line_number req) ++ ")")
                (sorted (AuditResult.prd_not_in_plan r))) as [ys E].
    + intros x Hx. apply (proj1 (In_sorted _ _)) in Hx.
      apply filter_In in Hx. now apply mem_keys.
    + rewrite E. cbn [bind]. eauto.
  - unfold plan_not_in_prd_lines. destruct (nonempty _); [|eauto].
    destruct (for_each_getitem (AuditResult.plan_items r)
                (fun plan_id item =>
                   "- **" ++ plan_id ++ "**: " ++ PlanItem.text item
                     ++ " (PLAN.md:" ++ Py.str_of_nat (PlanItem.line_number item) ++ ")")
                (sorted (AuditResult.plan_not_in_prd r))) as [ys E].
    + intros x Hx. apply (proj1 (In_sorted _ _)) in Hx.
      apply filter_In in Hx. now apply mem_keys.
    + rewrite E. cbn [bind]. eauto.
  - unfold no_test_coverage_lines. destruct (nonempty _); [|eauto].
    destruct (for_each_getitem (AuditResult.requirements r)
                (fun req_id req => "- **" ++ req_id ++ "**: " ++ Requirement.text req)
                (sorted (AuditResult.no_test_coverage r))) as [ys E].
    + intros x Hx. apply (proj1 (In_sorted _ _)) in Hx.
      apply filter_In in Hx. now apply mem_keys.
    + rewrite E. cbn [bind]. eauto.
  - unfold completion_issues_lines. destruct (nonempty _); [|eauto].
    destruct (for_each_ok
                (fun ri : string * string =>
                   let (req_id, issue) := ri in
                   item <- getitem (AuditResult.plan_items r) req_id ;;
                   Ok ("- **" ++ req_id ++ "**: " ++ issue
                         ++ " (PLAN.md:" ++ Py.str_of_nat (PlanItem.line_number item) ++ ")"))
                (AuditResult.completion_issues r)) as [ys E].
    + intros [id msg] Hx. apply completion_issues_In in Hx.
      destruct Hx as [_ [_ [_ [item [Hin _]]]]]. apply In_mem in Hin.
      destruct (getitem_ok plan_items id Hin) as [v Hv].
      cbn [r reconcile AuditResult.plan_items]. rewrite Hv. cbn [bind]. eauto.
    + rewrite E. cbn [bind]. eauto.
Qed.

Lemma suspect_section_by :
  (ids_are_strings (AuditResult.suspect_tests r) = true ->
   exists s4, suspect_tests_lines r root = Ok s4)
  /\ (ids_are_strings (AuditResult.suspect_tests r) = false ->
      suspect_tests_lines r root = Raise "TypeError").
Proof.
  unfold suspect_tests_lines, ids_are_strings.
  destruct (for_each_by (suspect_test_lines root)
              (fun t => forallb is_str (TestInfo.requirement_ids t)) "TypeError"
              (AuditResult.suspect_tests r)) as [Hok Hbad].
  - intros t _. apply suspect_test_lines_by.
  - destruct (AuditResult.suspect_tests r) as [|t ts] eqn:E; cbn [nonempty].
    + split; [eauto | discriminate].
    + split.
      * intros H. destruct (Hok H) as [ys ->]. cbn [bind]. eauto.
      * intros H. now rewrite (Hbad H).
Qed.

Lemma generate_report_by :
  (ids_are_strings (AuditResult.suspect_tests r) = true ->
   exists text, generate_report r root = Ok text)
  /\ (ids_are_strings (AuditResult.suspect_tests r) = false ->
      generate_report r root = Raise "TypeError").
Proof.
  destruct id_sections_ok as [[s1 E1] [[s2 E2] [[s3 E3] [s5 E5]]]].
  destruct suspect_section_by as [Hok Hbad].
  unfold generate_report, report_lines. rewrite E1, E2, E3. cbn [bind]. split.
  - intros H. destruct (Hok H) as [s4 ->]. rewrite E5. cbn [bind]. eauto.
  - intros H. now rewrite (Hbad H).
Qed.

End ReportOfReconcile.

(** X21.  Rendering the result of the reconciler never fails on a missing
    key.  It succeeds when the requirement ids of all suspect tests are
    strings, and raises [TypeError] when a suspect test carries a requirement
    id that is not a string, as in [@pytest.mark.requirement(7)]. *)
Theorem generate_report_errors (requirements : dict Requirement.t)
  (plan_items : dict PlanItem.t) (tests : list TestInfo.t) (root : Path) :
  let r := reconcile requirements plan_items tests in
  (ids_are_strings (AuditResult.suspect_tests r) = true ->
   exists text, generate_report r root = Ok text)
  /\ (ids_are_strings (AuditResult.suspect_tests r) = false ->
      generate_report r root = Raise "TypeError").
Proof. apply generate_report_by. Qed.

(** The project with a numeric tag on a placeholder test: the run ends with
    status 1 and writes no report. *)
Example numeric_tag_breaks_report :
  generate_report numeric_result (project_root numeric_project) = Raise "TypeError"
  /\ main numeric_parse first_seen_order numeric_project = mkOutcome 1 None.
Proof. split; vm_compute; reflexivity. Qed.

Lemma total_line_no_issues (n : nat) : total_line n = "**No issues found.**" <-> n = 0.
Proof.
  unfold total_line. destruct n; simpl.
  - tauto.
  - split; [discriminate | lia].
Qed.

Lemma has_char_app (c : ascii) (a b : string) :
  Init.has_char c (a ++ b) = (Init.has_char c a || Init.has_char c b)%bool.
Proof.
  induction a as [|d a IH]; simpl; [reflexivity|].
  now rewrite IH, orb_assoc.
Qed.

Lemma one_line_app (a b : string) : one_line a -> one_line b -> one_line (a ++ b).
Proof. unfold one_line. intros Ha Hb. now rewrite has_char_app, Ha, Hb. Qed.

Lemma one_line_String (c : ascii) (s : string) :
  Ascii.eqb Py.newline c = false -> one_line s -> one_line (String c s).
Proof. unfold one_line. cbn [Init.has_char]. now intros -> ->. Qed.

Lemma split_one_line (a : string) : one_line a -> Py.split Py.newline a = [a].
Proof.
  unfold one_line. induction a as [|c a IH]; cbn [Init.has_char Py.split]; [reflexivity|].
  intros H. apply orb_false_iff in H. destruct H as [Hc Ha].
  rewrite Ascii.eqb_sym, Hc, (IH Ha). reflexivity.
Qed.

Lemma split_first_line (a rest : string) :
  one_line a ->
  Py.split Py.newline (a ++ Py.nl ++ rest) = a :: Py.split Py.newline rest.
Proof.
  unfold one_line, Py.nl. induction a as [|c a IH]; cbn [append Init.has_char Py.split].
  - intros _. now rewrite Ascii.eqb_refl.
  - intros H. apply orb_false_iff in H. destruct H as [Hc Ha].
    rewrite Ascii.eqb_sym, Hc. cbn [append] in IH. now rewrite (IH Ha).
Qed.

(** Splitting a joined text gives back its leading lines, as far as they
    hold no newline. *)
Lemma split_join_nth (lines : list string) (n : nat) :
  n < List.length lines ->
  (forall i, i <= n -> one_line (nth i lines "")) ->
  nth n (Py.split Py.newline (Py.join Py.nl lines)) "" = nth n lines "".
Proof.
  revert n. induction lines as [|x rest IH]; intros n Hn H; [simpl in Hn; lia|].
  destruct rest as [|y rest].
  - assert (n = 0) by (simpl in Hn; lia). subst n.
    cbn [Py.join]. rewrite split_one_line; [reflexivity | exact (H 0 (le_n 0))].
  - change (Py.join Py.nl (x :: y :: rest)) with (x ++ Py.nl ++ Py.join Py.nl (y :: rest)).
    rewrite split_first_line by exact (H 0 (Nat.le_0_l n)).
    destruct n as [|n]; [reflexivity|].
    cbn [nth]. apply IH.
    + simpl in Hn |- *. lia.
    + intros i Hi. apply (H (S i)). lia.
Qed.

Lemma one_line_uint (d : Decimal.uint) : one_line (NilEmpty.string_of_uint d).
Proof. unfold one_line. induction d; simpl; assumption || reflexivity. Qed.

Lemma one_line_str_of_nat (n : nat) : one_line (Py.str_of_nat n).
Proof. apply one_line_uint. Qed.

Lemma one_line_total_line (n : nat) : one_line (total_line n).
Proof.
  unfold total_line. destruct (Nat.eqb n 0); [reflexivity|].
  repeat apply one_line_app; try reflexivity. apply one_line_str_of_nat.
Qed.

Lemma one_line_join (sep : string) (parts : list string) :
  one_line sep -> (forall part, List.In part parts -> one_line part) ->
  one_line (Py.join sep parts).
Proof.
  intros Hs. induction parts as [|x rest IH]; intros H; [reflexivity|].
  destruct rest as [|y rest].
  - apply H. now left.
  - change (Py.join sep (x :: y :: rest)) with (x ++ sep ++ Py.join sep (y :: rest)).
    repeat apply one_line_app; [apply H; now left | exact Hs |].
    apply IH. intros part Hp. apply H. now right.
Qed.

Lemma one_line_name (root : Path) :
  (forall part, List.In part root -> one_line part) -> one_line (PathLib.name root).
Proof.
  unfold PathLib.name. induction root as [|x rest IH]; intros H; [reflexivity|].
  destruct rest as [|y rest].
  - apply H. now left.
  - change (last (x :: y :: rest) "") with (last (y :: rest) "").
    apply IH. intros part Hp. apply H. now right.
Qed.

(** The first fourteen lines of a report hold no newline when the path of
    the project root holds none. *)
Lemma report_head_one_line (r : AuditResult.t) (root : Path) (lines : list string) :
  (forall part, List.In part root -> one_line part) ->
  report_lines r root = Ok lines ->
  14 < List.length lines /\ forall i, i <= 13 -> one_line (nth i lines "").
Proof.
  intros Hroot. unfold report_lines.
  destruct (prd_not_in_plan_lines r); [|discriminate].
  destruct (plan_not_in_prd_lines r); [|discriminate].
  destruct (no_test_coverage_lines r); [|discriminate].
  destruct (suspect_tests_lines r root); [|discriminate].
  destruct (completion_issues_lines r); [|discriminate].
  cbn [bind]. intros [= <-].
  unfold summary_lines, rule. cbn [app]. split; [cbn [List.length]; lia|].
  intros i Hi.
  do 14 (destruct i as [|i];
         [cbn [nth];
          first [ reflexivity
                | repeat (apply one_line_String; [reflexivity|]);
                  first [ apply one_line_total_line
                        | apply one_line_str_of_nat
                        | apply one_line_name; exact Hroot
                        | apply one_line_join; [reflexivity | exact Hroot] ] ]
         |]).
  lia.
Qed.

(** X22.  When no component of the path of the project root holds a
    newline, the fourteenth line of the report text, split at its newlines,
    reads "**No issues found.**" exactly when all five issue collections are
    empty, the collection [no_test_coverage] included. *)
Theorem no_issues_line_iff_all_empty (r : AuditResult.t) (root : Path) (text : string) :
  (forall part, List.In part root -> one_line part) ->
  generate_report r root = Ok text ->
  (nth 13 (Py.split Py.newline text) "" = "**No issues found.**"
   <-> AuditResult.prd_not_in_plan r = [] /\ AuditResult.plan_not_in_prd r = []
       /\ AuditResult.no_test_coverage r = [] /\ AuditResult.suspect_tests r = []
       /\ AuditResult.completion_issues r = []).
Proof.
  intros Hroot. unfold generate_report.
  destruct (report_lines r root) as [lines|e] eqn:H; cbn [bind]; [|discriminate].
  intros [= <-].
  destruct (report_head_one_line _ _ _ Hroot H) as [Hlen Hone].
  rewrite split_join_nth by (lia || assumption).
  rewrite (report_lines_total _ _ _ H), total_line_no_issues.
  unfold report_total. split.
  - intros E. repeat split; apply length_zero_nil; lia.
  - intros (-> & -> & -> & -> & ->). reflexivity.
Qed.

Lemma no_issues_line_iff_all_empty_witness :
  nth 13 (Py.split Py.newline (rendered_text clean_result (project_root clean_project))) ""
  = "**No issues found.**"
  <-> AuditResult.prd_not_in_plan clean_result = []
      /\ AuditResult.plan_not_in_prd clean_result = []
      /\ AuditResult.no_test_coverage clean_result = []
      /\ AuditResult.suspect_tests clean_result = []
      /\ AuditResult.completion_issues clean_result = [].
Proof.
  apply (no_issues_line_iff_all_empty clean_result (project_root clean_project)).
  - intros part [<- | []]. reflexivity.
  - vm_compute. reflexivity.
Defined.

(** With a newline in the name of the project root the fourteenth line of
    the text is another one. *)
Example newline_in_root_shifts_lines :
  nth 13 (Py.split Py.newline
            (rendered_text clean_result ["srv"; "a" ++ Py.nl ++ "b"])) ""
  = "- **Test functions found**: 1".
Proof. vm_compute. reflexivity. Qed.

(** ** What a zero exit status certifies *)

Lemma filter_nil {A} (f : A -> bool) (l : list A) :
  filter f l = [] -> forall x, List.In x l -> f x = false.
Proof.
  induction l as [|y l IH]; simpl; intros H x Hx; [destruct Hx|].
  destruct (f y) eqn:E; [discriminate|].
  destruct Hx as [<- | Hx]; [exact E | now apply IH].
Qed.

Lemma flat_map_nil {A B} (f : A -> list B) (l : list A) :
  flat_map f l = [] -> forall x, List.In x l -> f x = [].
Proof.
  induction l as [|y l IH]; simpl; intros H x Hx; [destruct Hx|].
  apply app_eq_nil in H. destruct H as [H1 H2].
  destruct Hx as [<- | Hx]; [exact H1 | now apply IH].
Qed.

(** X24.  When [main] exits with status 0, both documents exist, the audit
    and the rendering succeeded and a report was written; the requirements
    mapping and the plan mapping have the same ids, no test has an integrity
    issue, and every plan item marked complete is declared by at least one
    test. *)
Theorem exit_zero_certifies (ast_parse : string -> parse_outcome)
  (set_iter : list Path -> list Path) (p : Project) :
  exit_status (main ast_parse set_iter p) = 0 ->
  exists r text,
    prd p <> None /\ plan p <> None
    /\ run_audit ast_parse set_iter p = Ok r
    /\ report (main ast_parse set_iter p) = Some text
    /\ (forall id, Dict.mem id (AuditResult.requirements r)
                   = Dict.mem id (AuditResult.plan_items r))
    /\ (forall t, List.In t (AuditResult.tests r) -> TestInfo.issues t = [])
    /\ (forall id item,
          Dict.get (AuditResult.plan_items r) id = Some item ->
          PlanItem.completed item = true ->
          exists t, List.In t (AuditResult.tests r)
                    /\ List.In (CStr id) (TestInfo.requirement_ids t)).
Proof.
  unfold main.
  destruct (prd p) as [a|] eqn:Ha; [|discriminate].
  destruct (plan p) as [b|] eqn:Hb; [|discriminate].
  destruct (run_audit ast_parse set_iter p) as [r|e] eqn:Hrun; [|discriminate].
  unfold finish.
  destruct (generate_report r (project_root p)) as [text|e]; [|discriminate].
  cbn [exit_status report]. intros H.
  assert (Z : exit_total r = 0) by (destruct (exit_total r); [reflexivity | discriminate]).
  destruct (exit_total_zero r Z) as [H1 [H2 [H4 H5]]].
  exists r, text. split; [discriminate|]. split; [discriminate|].
  split; [reflexivity|]. split; [reflexivity|].
  destruct (run_audit_shape _ _ _ _ Hrun) as [tests Hr].
  rewrite Ha, Hb in Hr. subst r.
  cbn [reconcile AuditResult.requirements AuditResult.plan_items AuditResult.tests
       AuditResult.prd_not_in_plan AuditResult.plan_not_in_prd
       AuditResult.suspect_tests AuditResult.completion_issues] in *.
  assert (Hmem : forall id, Dict.mem id (parse_prd a) = Dict.mem id (parse_plan b)).
  { intros id.
    destruct (Dict.mem id (parse_prd a)) eqn:M1, (Dict.mem id (parse_plan b)) eqn:M2;
      try reflexivity.
    - apply mem_keys in M1. apply (filter_nil _ _ H1) in M1. now rewrite M2 in M1.
    - apply mem_keys in M2. apply (filter_nil _ _ H2) in M2. now rewrite M1 in M2. }
  split; [exact Hmem|]. split.
  - intros t Ht. apply (filter_nil _ _ H4) in Ht. now destruct (TestInfo.issues t).
  - intros id item G C.
    pose proof (flat_map_nil _ _ H5 (id, item) (get_In _ _ _ G)) as F.
    cbn beta iota in F. rewrite C in F.
    assert (M : Dict.mem id (parse_prd a) = true).
    { rewrite Hmem. unfold Dict.mem. now rewrite G. }
    rewrite M in F. destruct (has_tests id tests) eqn:T; [|discriminate F].
    now apply has_tests_In.
Qed.

Lemma exit_zero_certifies_witness :
  exists r text,
    prd clean_project <> None /\ plan clean_project <> None
    /\ run_audit sample_parse first_seen_order clean_project = Ok r
    /\ report (main sample_parse first_seen_order clean_project) = Some text
    /\ (forall id, Dict.mem id (AuditResult.requirements r)
                   = Dict.mem id (AuditResult.plan_items r))
    /\ (forall t, List.In t (AuditResult.tests r) -> TestInfo.issues t = [])
    /\ (forall id item,
          Dict.get (AuditResult.plan_items r) id = Some item ->
          PlanItem.completed item = true ->
          exists t, List.In t (AuditResult.tests r)
                    /\ List.In (CStr id) (TestInfo.requirement_ids t)).
Proof.
  apply (exit_zero_certifies sample_parse first_seen_order clean_project).
  vm_compute. reflexivity.
Defined.

(** ** The order of the id lists in the report *)

Lemma insert_sorted_perm (x : string) (l : list string) :
  Permutation (x :: l) (insert_sorted x l).
Proof.
  induction l as [|y l IH]; simpl; [apply Permutation_refl|].
  destruct (String.leb x y); [apply Permutation_refl|].
  eapply Permutation_trans; [apply perm_swap|]. now constructor.
Qed.

Lemma sorted_perm (l : list string) : Permutation l (sorted l).
Proof.
  unfold sorted. induction l as [|x l IH]; simpl; [constructor|].
  eapply Permutation_trans; [|apply insert_sorted_perm]. now constructor.
Qed.

Lemma insert_sorted_Sorted (x : string) (l : list string) :
  Sorted str_le l -> Sorted str_le (insert_sorted x l).
Proof.
  induction 1 as [|y l Hs IH Hd]; simpl.
  - repeat constructor.
  - destruct (String.leb x y) eqn:E.
    + constructor; [now constructor | constructor; exact E].
    + constructor; [exact IH|].
      assert (Hyx : str_le y x).
      { destruct (String.leb_total x y) as [H | H]; [congruence | exact H]. }
      destruct Hd as [|z l' Hyz]; simpl.
      * constructor. exact Hyx.
      * destruct (String.leb x z); constructor; assumption.
Qed.

Lemma sorted_Sorted (l : list string) : Sorted str_le (sorted l).
Proof.
  unfold sorted. induction l as [|x l IH]; simpl; [constructor|].
  now apply insert_sorted_Sorted.
Qed.

(** X23.  The coverage matrix of the report has exactly one row for every
    requirement, in ascending order of the ids, between its four header lines
    and a closing empty line. *)
Theorem matrix_rows_sorted (r : AuditResult.t) :
  exists ids,
    matrix_lines r
    = (["## Test Coverage Matrix"; "";
        "| Requirement | In PLAN | Has Tests | Status |";
        "|-------------|---------|-----------|--------|"]
       ++ map (matrix_row r) ids ++ [""])%list
    /\ Permutation (Dict.keys (AuditResult.requirements r)) ids
    /\ Sorted str_le ids.
Proof.
  exists (sorted (Dict.keys (AuditResult.requirements r))).
  split; [reflexivity|]. split; [apply sorted_perm | apply sorted_Sorted].
Qed.

(* ================================================================== *)
(** * The line patterns are told apart by the first character *)

Lemma run_star {A} (ic greedy : bool) (r1 : Re.re) (s : Re.mstate)
  (k : Re.mstate -> option A) :
  Re.run ic (Re.Star greedy r1) s k
  = star_loop ic greedy r1 k (S (List.length (Re.rest s))) s.
Proof. reflexivity. Qed.

Lemma star_loop_greedy_S {A} (ic : bool) (r1 : Re.re) (k : Re.mstate -> option A)
  (fuel : nat) (s : Re.mstate) :
  star_loop ic true r1 k (S fuel) s
  = match Re.run ic r1 s (fun s' =>
             if Nat.ltb (List.length (Re.rest s')) (List.length (Re.rest s))
             then star_loop ic true r1 k fuel s' else None) with
    | Some a => Some a
    | None => k s
    end.
Proof. reflexivity. Qed.

Lemma star_ws_sound {A} (ic : bool) (k : Re.mstate -> option A) (a : A) (fuel : nat) :
  forall s,
    star_loop ic true Re.Space k fuel s = Some a ->
    exists pre s',
      Re.rest s = (pre ++ Re.rest s')%list /\ forallb Py.is_space pre = true
      /\ k s' = Some a.
Proof.
  induction fuel as [|fuel IH]; intros s H.
  - exists [], s. auto.
  - rewrite star_loop_greedy_S in H. cbn [Re.run] in H. unfold Re.eat in H.
    destruct (Re.rest s) as [|c l] eqn:E.
    + exists [], s. rewrite E. auto.
    + destruct (Py.is_space c) eqn:Sp.
      * cbn [Re.rest] in H.
        destruct (Nat.ltb (List.length l) (List.length (c :: l))) eqn:L.
        -- destruct (star_loop ic true Re.Space k fuel
                       (Re.MState (Some c) l (Re.caps s))) as [a'|] eqn:R.
           ++ injection H as ->. apply IH in R.
              destruct R as [pre [s' [E' [Hp Hk]]]]. cbn [Re.rest] in E'.
              exists (c :: pre), s'. rewrite E'. simpl. rewrite Sp. auto.
           ++ exists [], s. rewrite E. auto.
        -- exists [], s. rewrite E. auto.
      * exists [], s. rewrite E. auto.
Qed.

Lemma run_ws_sound {A} (ic : bool) (s : Re.mstate) (k : Re.mstate -> option A) (a : A) :
  Re.run ic (Re.Star true Re.Space) s k = Some a ->
  exists pre s',
    Re.rest s = (pre ++ Re.rest s')%list /\ forallb Py.is_space pre = true
    /\ k s' = Some a.
Proof. rewrite run_star. apply star_ws_sound. Qed.

Lemma first_nonspace_lead (pre post : list ascii) (c : ascii) :
  forallb Py.is_space pre = true -> Py.is_space c = false ->
  first_nonspace_chars (pre ++ c :: post) = Some c.
Proof.
  intros Hp Hc. induction pre as [|d pre IH]; simpl.
  - now rewrite Hc.
  - simpl in Hp. apply andb_true_iff in Hp. destruct Hp as [-> Hp]. now apply IH.
Qed.

(** A pattern of the form [^ \s* X ...], where [X] takes one character that
    satisfies [p], only matches lines whose first non-space character
    satisfies [p]. *)
Lemma lead_after_ws (ic : bool) (p : ascii -> bool) (X R : Re.re) (line : string) :
  (forall A (s : Re.mstate) (k : Re.mstate -> option A), Re.run ic X s k = Re.eat p s k) ->
  (forall c, p c = true -> Py.is_space c = false) ->
  matches ic (Re.Cat Re.Bol (Re.Cat Patterns.ws (Re.Cat X R))) line ->
  exists c, first_nonspace line = Some c /\ p c = true.
Proof.
  intros HX Hp H. unfold matches, Re.re_match in H.
  destruct (Re.run ic _ _ _) as [m|] eqn:E; [clear H | now destruct H].
  cbn [Re.run Re.prev] in E. apply run_ws_sound in E.
  destruct E as [pre [s' [Hrest [Hpre Hk]]]]. cbn [Re.rest] in Hrest.
  rewrite HX in Hk. unfold Re.eat in Hk.
  destruct (Re.rest s') as [|c post]; [discriminate|].
  destruct (p c) eqn:Pc; [|discriminate].
  exists c. split; [|exact Pc].
  unfold first_nonspace. rewrite Hrest. apply first_nonspace_lead; auto.
Qed.

Lemma bullet_chars (c : ascii) :
  xorb false (Re.in_ranges false c [("-", "-"); ("*", "*")]%char) = true ->
  c = "-"%char \/ c = "*"%char.
Proof.
  destruct c as [[] [] [] [] [] [] [] []]; vm_compute; intros H;
    try discriminate H; auto.
Qed.

Lemma pipe_char (ic : bool) (c : ascii) : Re.lit_ok ic "|" c = true -> c = "|"%char.
Proof.
  destruct ic; destruct c as [[] [] [] [] [] [] [] []]; vm_compute; intros H;
    try discriminate H; auto.
Qed.

Lemma hash_char (c : ascii) : Re.lit_ok false "#" c = true -> c = "#"%char.
Proof. unfold Re.lit_ok. intros H. now apply Ascii.eqb_eq in H. Qed.

Lemma lead_bullet (R : Re.re) (line : string) :
  matches false (Re.Cat Re.Bol (Re.Cat Patterns.ws (Re.Cat Patterns.bullet R))) line ->
  first_nonspace line = Some "-"%char \/ first_nonspace line = Some "*"%char.
Proof.
  intros H.
  destruct (lead_after_ws false
              (fun c => xorb false (Re.in_ranges false c [("-", "-"); ("*", "*")]%char))
              Patterns.bullet R line) as [c [Hc Hp]].
  - reflexivity.
  - intros c Hc. apply bullet_chars in Hc. destruct Hc as [-> | ->]; reflexivity.
  - exact H.
  - apply bullet_chars in Hp. destruct Hp as [-> | ->]; auto.
Qed.

Lemma lead_pipe (ic : bool) (R : Re.re) (line : string) :
  matches ic (Re.Cat Re.Bol (Re.Cat Patterns.ws (Re.Cat (Re.Lit "|") R))) line ->
  first_nonspace line = Some "|"%char.
Proof.
  intros H.
  destruct (lead_after_ws ic (Re.lit_ok ic "|") (Re.Lit "|") R line) as [c [Hc Hp]].
  - reflexivity.
  - intros c Hc. apply pipe_char in Hc. now subst.
  - exact H.
  - apply pipe_char in Hp. now subst.
Qed.

Lemma lead_hash (S R : Re.re) (line : string) :
  matches false (Re.Cat Re.Bol (Re.Cat (Re.Cat (Re.Lit "#") S) R)) line ->
  first_nonspace line = Some "#"%char.
Proof.
  unfold matches, Re.re_match. intros H.
  destruct (Re.run false _ _ _) as [m|] eqn:E; [clear H | now destruct H].
  cbn [Re.run Re.prev] in E. unfold Re.eat in E. cbn [Re.rest] in E.
  unfold first_nonspace.
  destruct (list_ascii_of_string line) as [|c l]; [discriminate|].
  destruct (Re.lit_ok false "#" c) eqn:Hc; [|discriminate].
  apply hash_char in Hc. now subst.
Qed.

(** X11.  The forms of a plan line are told apart by the first character
    that is not white space: a line that matches the heading pattern starts
    with [#], one that matches the strict or the loose task pattern has [-] or
    [*] there, and one that matches the table pattern has [|].  So no line
    matches two of heading, task and table row. *)
Theorem plan_forms_by_first_char (line : string) :
  (matches false HEADER_PATTERN line -> first_nonspace line = Some "#"%char)
  /\ (matches false PLAN_ITEM_PATTERN line ->
      first_nonspace line = Some "-"%char \/ first_nonspace line = Some "*"%char)
  /\ (matches false TASK_PATTERN line ->
      first_nonspace line = Some "-"%char \/ first_nonspace line = Some "*"%char)
  /\ (matches true PLAN_TABLE_PATTERN line -> first_nonspace line = Some "|"%char)
  /\ ~ (matches false HEADER_PATTERN line /\ matches false PLAN_ITEM_PATTERN line)
  /\ ~ (matches false HEADER_PATTERN line /\ matches false TASK_PATTERN line)
  /\ ~ (matches false HEADER_PATTERN line /\ matches true PLAN_TABLE_PATTERN line)
  /\ ~ (matches false PLAN_ITEM_PATTERN line /\ matches true PLAN_TABLE_PATTERN line)
  /\ ~ (matches false TASK_PATTERN line /\ matches true PLAN_TABLE_PATTERN line).
Proof.
  assert (H : matches false HEADER_PATTERN line -> first_nonspace line = Some "#"%char)
    by apply lead_hash.
  assert (S : matches false PLAN_ITEM_PATTERN line ->
              first_nonspace line = Some "-"%char \/ first_nonspace line = Some "*"%char)
    by apply lead_bullet.
  assert (L : matches false TASK_PATTERN line ->
              first_nonspace line = Some "-"%char \/ first_nonspace line = Some "*"%char)
    by apply lead_bullet.
  assert (T : matches true PLAN_TABLE_PATTERN line -> first_nonspace line = Some "|"%char)
    by apply lead_pipe.
  repeat split; try assumption.
  - intros [A B]. apply H in A. apply S in B. rewrite A in B. destruct B; discriminate.
  - intros [A B]. apply H in A. apply L in B. rewrite A in B. destruct B; discriminate.
  - intros [A B]. apply H in A. apply T in B. rewrite A in B. discriminate.
  - intros [A B]. apply S in A. apply T in B. rewrite B in A. destruct A; discriminate.
  - intros [A B]. apply L in A. apply T in B. rewrite B in A. destruct A; discriminate.
Qed.

(** X3.  The three forms of a requirement definition are mutually
    exclusive: the list form needs [-] or [*] as first character that is not
    white space, the table form [|] and the heading form [#], so a line matches
    at most one of the three patterns of [parse_prd]. *)
Theorem prd_forms_exclusive (line : string) :
  (matches false PRD_REQ_PATTERN line ->
   first_nonspace line = Some "-"%char \/ first_nonspace line = Some "*"%char)
  /\ (matches false PRD_TABLE_REQ_PATTERN line -> first_nonspace line = Some "|"%char)
  /\ (matches false PRD_HEADING_PATTERN line -> first_nonspace line = Some "#"%char)
  /\ ~ (matches false PRD_REQ_PATTERN line /\ matches false PRD_TABLE_REQ_PATTERN line)
  /\ ~ (matches false PRD_REQ_PATTERN line /\ matches false PRD_HEADING_PATTERN line)
  /\ ~ (matches false PRD_TABLE_REQ_PATTERN line /\ matches false PRD_HEADING_PATTERN line).
Proof.
  assert (L : matches false PRD_REQ_PATTERN line ->
              first_nonspace line = Some "-"%char \/ first_nonspace line = Some "*"%char)
    by apply lead_bullet.
  assert (T : matches false PRD_TABLE_REQ_PATTERN line -> first_nonspace line = Some "|"%char)
    by apply lead_pipe.
  assert (H : matches false PRD_HEADING_PATTERN line -> first_nonspace line = Some "#"%char)
    by apply lead_hash.
  repeat split; try assumption.
  - intros [A B]. apply L in A. apply T in B. rewrite B in A. destruct A; discriminate.
  - intros [A B]. apply L in A. apply H in B. rewrite B in A. destruct A; discriminate.
  - intros [A B]. apply T in A. apply H in B. rewrite B in A. discriminate.
Qed.

(* ================================================================== *)
(** * Template substitution ([init_project.py]) *)

Lemma prefix_refl (s : string) : String.prefix s s = true.
Proof.
  induction s as [|c s IH]; simpl; [reflexivity|].
  destruct (ascii_dec c c); [exact IH | contradiction].
Qed.

Lemma append_empty_r (s : string) : s ++ "" = s.
Proof. induction s as [|c s IH]; simpl; [reflexivity | now rewrite IH]. Qed.

Lemma replace_from_skip_all (old new s : string) (n : nat) :
  String.length s <= n -> Init.replace_from old new n s = "".
Proof.
  revert n. induction s as [|c s IH]; intros n H; simpl; [reflexivity|].
  destruct n as [|n]; [simpl in H; lia|]. apply IH. simpl in H. lia.
Qed.

Lemma replace_self (old new : string) :
  old <> "" -> Init.replace old new old = new.
Proof.
  intros H. destruct old as [|c o]; [contradiction|].
  unfold Init.replace. cbn [Init.replace_from]. rewrite prefix_refl.
  rewrite replace_from_skip_all by (simpl; lia).
  apply append_empty_r.
Qed.

Lemma replace_absent (c : ascii) (o new s : string) :
  Init.has_char c s = false -> Init.replace (String c o) new s = s.
Proof.
  unfold Init.replace. induction s as [|d s IH]; intros H; [reflexivity|].
  simpl in H. apply orb_false_iff in H. destruct H as [Hd Hs].
  cbn [Init.replace_from String.prefix].
  destruct (ascii_dec c d) as [-> | _].
  - now rewrite Ascii.eqb_refl in Hd.
  - now rewrite (IH Hs).
Qed.

(** X25.  A text without an opening brace comes out of [substitute]
    unchanged, whatever the substitutions are. *)
Theorem substitute_without_braces (content : string)
  (substitutions : list (string * string)) :
  Init.has_char "{" content = false ->
  Init.substitute content substitutions = content.
Proof.
  intros H. unfold Init.substitute.
  induction substitutions as [|[key value] rest IH]; [reflexivity|].
  cbn [fold_left fst snd].
  change (Init.placeholder key) with (String "{" (String "{" (key ++ "}}"))).
  rewrite replace_absent by exact H. exact IH.
Qed.

Lemma substitute_without_braces_witness :
  Init.substitute "import pytest"
    (Init.subs "shop" "a web shop" "3.11" "2026-11-03")
  = "import pytest".
Proof. apply substitute_without_braces. reflexivity. Defined.

(** X26.  The keys are replaced one after the other, in the order of the
    dictionary: once the placeholder of the first key has been replaced by its
    value, the value itself is searched for the placeholders of the later
    keys.  A text that is just the placeholder of the first key becomes the
    substituted value. *)
Theorem substitute_value_is_rescanned (key value : string)
  (rest : list (string * string)) :
  Init.substitute (Init.placeholder key) ((key, value) :: rest)
  = Init.substitute value rest.
Proof.
  unfold Init.substitute. cbn [fold_left fst snd].
  rewrite replace_self; [reflexivity|]. discriminate.
Qed.

(** A project name that holds the placeholder of the date is rendered with
    the date; a description that holds the placeholder of the name keeps
    it. *)
Example substitute_order_matters :
  Init.substitute "{{PROJECT_NAME}}: {{DESCRIPTION}}"
    (Init.subs "app of {{DATE}}" "about {{PROJECT_NAME}}" "3.11" "2026-11-03")
  = "app of 2026-11-03: about {{PROJECT_NAME}}".
Proof. vm_compute. reflexivity. Qed.

(* ================================================================== *)
(** * The window of test references, and ids listed once *)

Lemma firstn_short {A} (n : nat) (l : list A) : List.length l <= n -> firstn n l = l.
Proof.
  revert n. induction l as [|x l IH]; intros n H; [now destruct n|].
  destruct n as [|n]; simpl in *; [lia|]. f_equal. apply IH. lia.
Qed.

Lemma slice_window (lines : list string) (i : nat) :
  1 <= i ->
  Py.slice lines (Nat.max 0 (i - 1)) (Nat.min (List.length lines) (i + 5))
  = firstn 6 (skipn (i - 1) lines).
Proof.
  intros Hi. unfold Py.slice. rewrite Nat.max_0_l.
  pose proof (length_skipn (i - 1) lines) as Ls.
  destruct (Nat.le_gt_cases (i + 5) (List.length lines)) as [H | H].
  - rewrite Nat.min_r by lia. f_equal. lia.
  - rewrite Nat.min_l by lia.
    rewrite !firstn_short by lia. reflexivity.
Qed.

(** X10.  The test references of a task on line [i] depend only on that
    line and the five lines after it: they are what the search finds in this
    window of at most six lines, so a reference further down is not seen, and
    a reference that belongs to a later task within the window is. *)
Theorem test_refs_window_only (lines : list string) (i : nat) :
  1 <= i ->
  find_test_refs lines i = find_test_refs (firstn 6 (skipn (i - 1) lines)) 1.
Proof.
  intros Hi. unfold find_test_refs.
  rewrite (slice_window lines i Hi).
  rewrite (slice_window (firstn 6 (skipn (i - 1) lines)) 1) by lia.
  cbn [Nat.sub skipn]. rewrite firstn_firstn. reflexivity.
Qed.

Lemma test_refs_window_only_witness :
  find_test_refs bleeding_plan 1 = find_test_refs (firstn 6 (skipn (1 - 1) bleeding_plan)) 1.
Proof. apply test_refs_window_only. lia. Defined.

Example bleeding_plan_value :
  map (fun kv => (fst kv, PlanItem.test_refs (snd kv))) (parse_plan_lines bleeding_plan)
  = [("FR-1", ["test_second"]); ("FR-2", ["test_second"])].
Proof. vm_compute. reflexivity. Qed.

Lemma keys_set {V} (d : dict V) (k : string) (v : V) :
  Dict.keys (Dict.set k v d)
  = if Dict.mem k d then Dict.keys d else (Dict.keys d ++ [k])%list.
Proof.
  unfold Dict.keys, Dict.mem. induction d as [|[k0 v0] d IH]; simpl; [reflexivity|].
  destruct (String.eqb k k0) eqn:E; simpl; [reflexivity|].
  rewrite IH. now destruct (Dict.get d k).
Qed.

Lemma NoDup_keys_set {V} (d : dict V) (k : string) (v : V) :
  NoDup (Dict.keys d) -> NoDup (Dict.keys (Dict.set k v d)).
Proof.
  intros H. rewrite keys_set. destruct (Dict.mem k d) eqn:M; [exact H|].
  apply NoDup_app; [exact H | repeat constructor; intros [] |].
  intros x Hx [<- | []]. apply mem_keys in Hx. congruence.
Qed.

Lemma NoDup_keys_fold_set {V} (f : string -> V) (ids : list string) (d : dict V) :
  NoDup (Dict.keys d) ->
  NoDup (Dict.keys (fold_left (fun items req_id => Dict.set req_id (f req_id) items) ids d)).
Proof.
  revert d. induction ids as [|x ids IH]; intros d H; simpl; [exact H|].
  apply IH. now apply NoDup_keys_set.
Qed.

Lemma NoDup_keys_mark_incomplete (cur : list string) (items : dict PlanItem.t) :
  NoDup (Dict.keys items) -> NoDup (Dict.keys (mark_incomplete cur items)).
Proof.
  unfold mark_incomplete. revert items.
  induction cur as [|x cur IH]; intros items H; simpl; [exact H|].
  apply IH. destruct (Dict.get items x); [now apply NoDup_keys_set | exact H].
Qed.

Lemma NoDup_keys_parse_prd (content : string) : NoDup (Dict.keys (parse_prd content)).
Proof.
  unfold parse_prd, parse_prd_lines, prd_loop.
  apply (fold_left_inv (fun d : dict Requirement.t => NoDup (Dict.keys d))).
  - intros d [i line] _ H. cbn [fst snd]. rewrite prd_line_defines.
    destruct (prd_defines line) as [[id text]|]; [now apply NoDup_keys_set | exact H].
  - constructor.
Qed.

Lemma NoDup_keys_parse_plan (content : string) : NoDup (Dict.keys (parse_plan content)).
Proof.
  unfold parse_plan, parse_plan_lines, plan_loop.
  apply (fold_left_inv (fun st : plan_state => NoDup (Dict.keys (fst st)))).
  - intros [items cur] [i line] _ H. cbn [fst snd] in *.
    assert (M : NoDup (Dict.keys (mark_incomplete cur items)))
      by now apply NoDup_keys_mark_incomplete.
    destruct (classify line) eqn:K.
    + rewrite (plan_line_heading _ _ _ _ _ _ K).
      destruct (ids_in text) eqn:E; cbn [fst]; [exact H|].
      now apply NoDup_keys_fold_set.
    + rewrite (plan_line_strict _ _ _ _ _ _ _ _ K). cbn [fst].
      apply NoDup_keys_set. now destruct (negb (is_x status)).
    + rewrite (plan_line_loose _ _ _ _ _ _ _ K). cbn [fst].
      apply NoDup_keys_fold_set. now destruct (negb (is_x status)).
    + rewrite (plan_line_table _ _ _ _ _ _ _ K).
      destruct (negb (Dict.mem req_id items)); cbn [fst];
        [now apply NoDup_keys_set | exact H].
    + now rewrite (plan_line_ignored _ _ _ _ _ K).
  - constructor.
Qed.

Lemma NoDup_flat_map_keys {V} (g : string -> V -> bool) (m : string) (d : dict V) :
  NoDup (Dict.keys d) ->
  NoDup (map fst (flat_map (fun kv : string * V =>
                              let (k, v) := kv in if g k v then [(k, m)] else []) d)).
Proof.
  unfold Dict.keys. induction d as [|[k v] d IH]; simpl; intros H; [constructor|].
  inversion H as [|? ? Hk Hd]; subst.
  destruct (g k v); simpl; [|now apply IH].
  constructor; [|now apply IH].
  intros Hin. apply Hk. apply in_map_iff in Hin.
  destruct Hin as [[k' m'] [E Hin]]. simpl in E. subst k'.
  apply in_flat_map in Hin. destruct Hin as [[k2 v2] [Hin2 Hm]].
  destruct (g k2 v2); [|destruct Hm]. destruct Hm as [[= -> _] | []].
  change k with (fst (k, v2)). now apply in_map.
Qed.

(** X20.  In the result of an audit no id is listed twice: the keys of the
    requirements and of the plan are distinct, and so are the ids in
    [prd_not_in_plan], [plan_not_in_prd], [no_test_coverage] and
    [completion_issues], however often the documents repeat an id. *)
Theorem ids_listed_once (ast_parse : string -> parse_outcome)
  (set_iter : list Path -> list Path) (p : Project) (r : AuditResult.t) :
  run_audit ast_parse set_iter p = Ok r ->
  NoDup (Dict.keys (AuditResult.requirements r))
  /\ NoDup (Dict.keys (AuditResult.plan_items r))
  /\ NoDup (AuditResult.prd_not_in_plan r)
  /\ NoDup (AuditResult.plan_not_in_prd r)
  /\ NoDup (AuditResult.no_test_coverage r)
  /\ NoDup (map fst (AuditResult.completion_issues r)).
Proof.
  intros Hrun. destruct (run_audit_shape _ _ _ _ Hrun) as [tests ->].
  assert (R : NoDup (Dict.keys (match prd p with
                                | Some c => parse_prd c | None => Dict.empty end)))
    by (destruct (prd p); [apply NoDup_keys_parse_prd | constructor]).
  assert (P : NoDup (Dict.keys (match plan p with
                                | Some c => parse_plan c | None => Dict.empty end)))
    by (destruct (plan p); [apply NoDup_keys_parse_plan | constructor]).
  cbn [reconcile AuditResult.requirements AuditResult.plan_items
       AuditResult.prd_not_in_plan AuditResult.plan_not_in_prd
       AuditResult.no_test_coverage AuditResult.completion_issues].
  repeat split; try assumption; try (apply NoDup_filter; assumption).
  set (reqs := match prd p with Some c => parse_prd c | None => Dict.empty end) in *.
  rewrite (flat_map_ext _
             (fun kv : string * PlanItem.t =>
                let (k, v) := kv in
                if (PlanItem.completed v
                    && (negb (has_tests k tests) && Dict.mem k reqs))%bool
                then [(k, "Marked complete but no tests found")] else [])).
  - now apply NoDup_flat_map_keys.
  - intros [k v]. destruct (PlanItem.completed v); reflexivity.
Qed.

Lemma ids_listed_once_witness :
  NoDup (Dict.keys (AuditResult.requirements scenario_result))
  /\ NoDup (Dict.keys (AuditResult.plan_items scenario_result))
  /\ NoDup (AuditResult.prd_not_in_plan scenario_result)
  /\ NoDup (AuditResult.plan_not_in_prd scenario_result)
  /\ NoDup (AuditResult.no_test_coverage scenario_result)
  /\ NoDup (map fst (AuditResult.completion_issues scenario_result)).
Proof.
  apply (ids_listed_once sample_parse first_seen_order scenario_project).
  vm_compute. reflexivity.
Defined.

(** Instances of the conditional statements above. *)
Lemma no_assertions_flag_iff_trivial_body_witness :
  check_test_integrity [Expr (Constant (CStr "later")); Pass; Expr (Constant CEllipsis)]
  = ["No assertions found (placeholder test)"].
Proof.
  apply (proj2 (no_assertions_flag_iff_trivial_body
                  [Expr (Constant (CStr "later")); Pass; Expr (Constant CEllipsis)]));
    reflexivity.
Defined.

Lemma finder_finds_asserts_witness :
  fold_left (fun found node => AssertionFinder.visit node found)
    [Pass; OtherStmt [Name "ready"] [With [] [Assert (Name "ok") None]]] false
  = true.
Proof.
  apply (proj1 (proj2 (finder_finds_asserts
                         [Pass; OtherStmt [Name "ready"] [With [] [Assert (Name "ok") None]]]
                         false))).
  exists (OtherStmt [Name "ready"] [With [] [Assert (Name "ok") None]]).
  split; [right; left; reflexivity|].
  apply (has_assert_other _ _ (With [] [Assert (Name "ok") None])); [now left|].
  apply (has_assert_with _ _ (Assert (Name "ok") None)); [now left|].
  constructor.
Defined.

Lemma generate_report_errors_witness :
  generate_report
    (reconcile Dict.empty Dict.empty
       [TestInfo.mk "test_seven" ["srv"; "test_seven.py"] 2 [CInt 7]
          ["Placeholder test (only pass statement)"]])
    ["srv"]
  = Raise "TypeError".
Proof.
  apply (proj2 (generate_report_errors Dict.empty Dict.empty
                  [TestInfo.mk "test_seven" ["srv"; "test_seven.py"] 2 [CInt 7]
                     ["Placeholder test (only pass statement)"]]
                  ["srv"])).
  reflexivity.
Defined.

Lemma plan_forms_by_first_char_witness :
  first_nonspace "  - [x] **FR-1**: do it" = Some "-"%char
  \/ first_nonspace "  - [x] **FR-1**: do it" = Some "*"%char.
Proof.
  apply (proj1 (proj2 (plan_forms_by_first_char "  - [x] **FR-1**: do it"))).
  vm_compute. discriminate.
Defined.

Lemma prd_forms_exclusive_witness :
  first_nonspace " | FR-2 | second | x |" = Some "|"%char.
Proof.
  apply (proj1 (proj2 (prd_forms_exclusive " | FR-2 | second | x |"))).
  vm_compute. discriminate.
Defined.

(** X27.  A heading that names an id overwrites what earlier lines recorded
    for it: when every line after the heading is a table row or an
    unrecognised line, the final entry of the id is the section entry of the
    heading, marked complete and without test references, whatever task lines
    stood before. *)
Theorem heading_overwrites_earlier_lines (content : string) (pre post : list string)
  (h text id : string) :
  Py.split Py.newline content = (pre ++ h :: post)%list ->
  classify h = Heading text ->
  List.In id (ids_in text) ->
  (forall l, List.In l post -> table_or_ignored l) ->
  Dict.get (parse_plan content) id
  = Some (PlanItem.mk id ("Section: " ++ text) true (S (List.length pre)) []).
Proof.
  intros Hsplit Hh Hid Hpost.
  unfold parse_plan, parse_plan_lines. rewrite Hsplit.
  unfold plan_loop. rewrite enumerate_app, fold_left_app.
  cbn [Py.enumerate fold_left fst snd Nat.add].
  destruct (fold_left (fun st il => plan_line (pre ++ h :: post) (fst il) (snd il) st)
                      (Py.enumerate 1 pre) (Dict.empty, [])) as [items0 cur0].
  rewrite (plan_line_heading (pre ++ h :: post) _ h items0 cur0 text Hh).
  destruct (ids_in text) as [|x ids] eqn:E; [destruct Hid|].
  apply (plan_loop_keeps (pre ++ h :: post) post); [exact Hpost|].
  cbn [fst]. rewrite get_fold_set.
  apply mem_In in Hid. now rewrite Hid.
Qed.

Lemma heading_overwrites_earlier_lines_witness :
  Dict.get (parse_plan (doc late_heading_plan)) "FR-1"
  = Some (PlanItem.mk "FR-1" ("Section: " ++ "Release notes (FR-1)") true 3 []).
Proof.
  apply (heading_overwrites_earlier_lines (doc late_heading_plan)
           ["- [ ] **FR-1**: login form"; "  Tests: `test_login`"]
           ["free text"] "## Release notes (FR-1)" "Release notes (FR-1)" "FR-1").
  - vm_compute. reflexivity.
  - vm_compute. reflexivity.
  - vm_compute. left. reflexivity.
  - intros l [<- | []]. right. vm_compute. reflexivity.
Defined.
